(** * Anywhere: the alignment / snap-guide engine ([src/alignment.ts])

    A shallow embedding of class [AlignmentSystem] and of the part of the
    DOM it reads, followed by the properties of [calculateSnap] and
    [clearGuides]; then of the code of [app.ts] around the engine: the
    drag block of the [mousemove] listener, the snap toggle, the tool
    mode, the resize handles, the layer order of the notes and the
    generated titles, with the properties of those.

    Modelling conventions.

    - A JavaScript [number] is an exact rational (a finite number) or
      [NaN]; the infinities are not values of the model.  Sums,
      differences and halves are exact.  They are the ones binary64
      computes on the pixel grid: whole and half numbers of pixels of
      the size of a screen ([isPixel], [onScreen]), which is where the
      application calls the engine, with positions read by [parseInt]
      and whole mouse coordinates.  The theorems on the deltas that
      rest on this exactness have [onScreen] as a hypothesis.
    - Rationals are kept in lowest terms by every arithmetic operation, so
      that Leibniz equality on computed numbers is numeric equality.
    - A DOM element carries its object identity ([node]); [===] on
      elements compares identities.
    - Methods take the receiver as [this] and return the updated receiver
      next to their result. *)

From Stdlib Require Import ZArith QArith Qabs List String Ascii Bool Lia.
From Stdlib Require Import Decimal DecimalString DecimalPos DecimalN.
Import ListNotations.

(* ================================================================== *)
(** ** JavaScript numbers *)
(* ================================================================== *)

Module JS.

(** A finite number, given exactly, or [NaN].  [Infinity] and
    [-Infinity] are not represented: what is stated of every [number] is
    stated of the finite numbers and of [NaN]. *)
Inductive number : Type :=
| Num (q : Q)
| NaN.

Definition of_Z (z : Z) : number := Num (inject_Z z).

Definition isNaN (a : number) : bool :=
  match a with NaN => true | Num _ => false end.

(** [a + b], not rounded: the sum binary64 computes wherever that is
    exact, as it is for whole and half numbers below 2^52. *)
Definition add (a b : number) : number :=
  match a, b with
  | Num p, Num q => Num (Qred (p + q))
  | _, _ => NaN
  end.

(** [a - b], not rounded, as for [add]. *)
Definition sub (a b : number) : number :=
  match a, b with
  | Num p, Num q => Num (Qred (p - q))
  | _, _ => NaN
  end.

(** [a / b], not rounded; a zero divisor (an infinity or [NaN] in
    JavaScript) is outside the model and is given [NaN]: the engine
    divides by 2 only, which binary64 does exactly. *)
Definition div (a b : number) : number :=
  match a, b with
  | Num p, Num q => if Qeq_bool q 0 then NaN else Num (Qred (p / q))
  | _, _ => NaN
  end.

(** [Math.abs(a)] *)
Definition abs (a : number) : number :=
  match a with
  | Num p => Num (Qabs p)
  | NaN => NaN
  end.

(** [a <= b]: false as soon as one side is [NaN]. *)
Definition le (a b : number) : bool :=
  match a, b with
  | Num p, Num q => Qle_bool p q
  | _, _ => false
  end.

(** [a === b] on numbers: [NaN] equals nothing, itself included. *)
Definition eqb (a b : number) : bool :=
  match a, b with
  | Num p, Num q => Qeq_bool p q
  | _, _ => false
  end.

(** [ToBoolean(a)]: zero and [NaN] are falsy. *)
Definition truthy (a : number) : bool :=
  match a with
  | Num p => negb (Qeq_bool p 0)
  | NaN => false
  end.

(** [a || b] on numbers. *)
Definition or (a b : number) : number :=
  if truthy a then a else b.

(** *** [parseInt(string)] with the radix left undefined *)

(** White space skipped by [parseInt]; of the characters ECMAScript
    lists, the ASCII ones (tab, line feed, vertical tab, form feed,
    carriage return, space).  The others (U+00A0, U+FEFF, the line and
    paragraph separators, the space separators of Unicode) are not
    recognised: the model is the program's on ASCII text. *)
Definition isWhiteSpace (c : ascii) : bool :=
  let n := nat_of_ascii c in
  ((9 <=? n) && (n <=? 13) || (n =? 32))%nat.

Fixpoint trimStart (s : string) : string :=
  match s with
  | String c s' => if isWhiteSpace c then trimStart s' else s
  | EmptyString => s
  end.

(** Value of [c] as a digit of radix [R], if it is one. *)
Definition digitValue (R : Z) (c : ascii) : option Z :=
  let n := Z.of_nat (nat_of_ascii c) in
  let v :=
    (if (48 <=? n) && (n <=? 57) then Some (n - 48)
     else if (97 <=? n) && (n <=? 122) then Some (n - 87)
     else if (65 <=? n) && (n <=? 90) then Some (n - 55)
     else None)%Z in
  match v with
  | Some d => if (d <? R)%Z then Some d else None
  | None => None
  end.

(** Reads the longest prefix of radix-[R] digits; [acc] is [None] until
    a digit has been read. *)
Fixpoint readDigits (R : Z) (s : string) (acc : option Z) : option Z :=
  match s with
  | String c s' =>
      match digitValue R c with
      | Some d =>
          readDigits R s' (Some (match acc with Some a => a * R + d | None => d end)%Z)
      | None => acc
      end
  | EmptyString => acc
  end.

(** The integer read is given exactly; JavaScript rounds it to binary64
    above 2^53 (and to [Infinity] beyond the range), a size no inline
    position has. *)
Definition parseInt (input : string) : number :=
  let str := trimStart input in
  let '(sign, str) :=
    match str with
    | String "-"%char r => ((-1)%Z, r)
    | String "+"%char r => (1%Z, r)
    | _ => (1%Z, str)
    end in
  let '(R, str) :=
    match str with
    | String "0"%char (String "x"%char r) => (16%Z, r)
    | String "0"%char (String "X"%char r) => (16%Z, r)
    | _ => (10%Z, str)
    end in
  match readDigits R str None with
  | None => NaN
  | Some mathInt => of_Z (sign * mathInt)
  end.

End JS.

(* ================================================================== *)
(** ** The DOM as the engine reads it *)
(* ================================================================== *)

(** [element.style]: the inline declarations the engine reads. *)
Module CSSStyle.
Record t : Type := mk { left : string; top : string }.
End CSSStyle.

Module HTMLDivElement.
Record t : Type := mk {
  node : positive;          (* identity of the object *)
  id : string;
  style : CSSStyle.t;
  offsetWidth : Z;
  offsetHeight : Z
}.

(** [a === b] on element references. *)
Definition same (a b : t) : bool := Pos.eqb (node a) (node b).
End HTMLDivElement.

(** The overlay canvas and its 2D context.  The bitmap is kept as the
    list of marks painted since it was last blank. *)
Module Canvas.

Inductive Segment : Type :=
| MoveTo (x y : JS.number)
| LineTo (x y : JS.number).

Inductive Paint : Type :=
| Stroked (path : list Segment) (strokeStyle : string)
          (lineWidth : JS.number) (lineDash : list JS.number)
| Erased (x y w h : JS.number).

Record DrawingState : Type := mkState {
  strokeStyle : string;
  lineWidth : JS.number;
  lineDash : list JS.number
}.

Record Context2D : Type := mkCtx {
  state : DrawingState;
  stack : list DrawingState;
  path : list Segment;
  bitmap : list Paint
}.

Record HTMLCanvasElement : Type := mkCanvas { width : Z; height : Z }.

Definition defaultState : DrawingState :=
  mkState "#000000" (JS.of_Z 1) [].

Definition blank : Context2D := mkCtx defaultState [] [] [].

Definition save (c : Context2D) : Context2D :=
  mkCtx (state c) (state c :: stack c) (path c) (bitmap c).

Definition restore (c : Context2D) : Context2D :=
  match stack c with
  | st :: rest => mkCtx st rest (path c) (bitmap c)
  | [] => c
  end.

Definition set_strokeStyle (v : string) (c : Context2D) : Context2D :=
  mkCtx (mkState v (lineWidth (state c)) (lineDash (state c)))
        (stack c) (path c) (bitmap c).

Definition set_lineWidth (v : JS.number) (c : Context2D) : Context2D :=
  mkCtx (mkState (strokeStyle (state c)) v (lineDash (state c)))
        (stack c) (path c) (bitmap c).

Definition setLineDash (v : list JS.number) (c : Context2D) : Context2D :=
  mkCtx (mkState (strokeStyle (state c)) (lineWidth (state c)) v)
        (stack c) (path c) (bitmap c).

Definition beginPath (c : Context2D) : Context2D :=
  mkCtx (state c) (stack c) [] (bitmap c).

Definition moveTo (x y : JS.number) (c : Context2D) : Context2D :=
  mkCtx (state c) (stack c) (path c ++ [MoveTo x y]) (bitmap c).

Definition lineTo (x y : JS.number) (c : Context2D) : Context2D :=
  mkCtx (state c) (stack c) (path c ++ [LineTo x y]) (bitmap c).

Definition stroke (c : Context2D) : Context2D :=
  mkCtx (state c) (stack c) (path c)
        (bitmap c ++ [Stroked (path c) (strokeStyle (state c))
                              (lineWidth (state c)) (lineDash (state c))]).

(** [ctx.clearRect(x, y, w, h)] on the context of canvas [cv]: a
    rectangle that covers the canvas leaves a blank bitmap. *)
Definition clearRect (cv : HTMLCanvasElement) (x y w h : JS.number)
    (c : Context2D) : Context2D :=
  let zero := JS.of_Z 0 in
  if JS.le x zero && JS.le y zero
     && JS.le (JS.of_Z (width cv)) (JS.add x w)
     && JS.le (JS.of_Z (height cv)) (JS.add y h)
  then mkCtx (state c) (stack c) (path c) []
  else mkCtx (state c) (stack c) (path c) (bitmap c ++ [Erased x y w h]).

End Canvas.

(* ================================================================== *)
(** ** Data of [alignment.ts] *)
(* ================================================================== *)

Module NoteBounds.
Record t : Type := mk {
  id : string;
  left : JS.number;
  top : JS.number;
  right : JS.number;
  bottom : JS.number;
  width : JS.number;
  height : JS.number;
  centerX : JS.number;
  centerY : JS.number
}.
End NoteBounds.

Module AlignmentGuide.
Inductive kind : Type := vertical | horizontal.

Record t : Type := mk {
  type : kind;
  position : JS.number;
  strength : JS.number;
  sourceId : string
}.

Definition isVertical (g : t) : bool :=
  match type g with vertical => true | horizontal => false end.

Definition isHorizontal (g : t) : bool :=
  match type g with vertical => false | horizontal => true end.
End AlignmentGuide.

Module SnapResult.
Record t : Type := mk {
  snapped : bool;
  deltaX : JS.number;
  deltaY : JS.number;
  guides : list AlignmentGuide.t
}.
End SnapResult.

(* ================================================================== *)
(** ** [class AlignmentSystem] *)
(* ================================================================== *)

Module AlignmentSystem.

Record t : Type := mk {
  snapThreshold : JS.number;
  guides : list AlignmentGuide.t;
  canvas : Canvas.HTMLCanvasElement;
  ctx : Canvas.Context2D;
  enabled : bool
}.

Definition set_guides (v : list AlignmentGuide.t) (this : t) : t :=
  mk (snapThreshold this) v (canvas this) (ctx this) (enabled this).

Definition set_ctx (v : Canvas.Context2D) (this : t) : t :=
  mk (snapThreshold this) (guides this) (canvas this) v (enabled this).

Definition set_enabled (v : bool) (this : t) : t :=
  mk (snapThreshold this) (guides this) (canvas this) (ctx this) v.

(** Assigning [canvas.width] or [canvas.height] resets the context and
    blanks the bitmap. *)
Definition resizeCanvas (innerWidth innerHeight : Z) (this : t) : t :=
  mk (snapThreshold this) (guides this)
     (Canvas.mkCanvas innerWidth innerHeight) Canvas.blank (enabled this).

(** [new AlignmentSystem(canvas)]; [context2d] is what
    [canvas.getContext('2d')] returns, [None] makes the constructor
    throw.  The resize listener it installs runs [resizeCanvas]. *)
Definition new (canvas : Canvas.HTMLCanvasElement)
    (context2d : option Canvas.Context2D) (innerWidth innerHeight : Z)
    : option t :=
  match context2d with
  | None => None
  | Some ctx =>
      Some (resizeCanvas innerWidth innerHeight
              (mk (JS.of_Z 4) [] canvas ctx true))
  end.

Definition clearGuides (this : t) : t :=
  let this := set_guides [] this in
  set_ctx (Canvas.clearRect (canvas this) (JS.of_Z 0) (JS.of_Z 0)
             (JS.of_Z (Canvas.width (canvas this)))
             (JS.of_Z (Canvas.height (canvas this))) (ctx this)) this.

Definition setEnabled (enabled : bool) (this : t) : t :=
  let this := set_enabled enabled this in
  if negb enabled then clearGuides this else this.

(** Body of the [forEach] of [renderGuides]. *)
Definition drawGuide (cv : Canvas.HTMLCanvasElement)
    (c : Canvas.Context2D) (guide : AlignmentGuide.t) : Canvas.Context2D :=
  let c := Canvas.save c in
  let c := Canvas.set_strokeStyle "rgba(255, 0, 100, 0.8)" c in
  let c := Canvas.set_lineWidth (JS.of_Z 1) c in
  let c := Canvas.setLineDash [JS.of_Z 5; JS.of_Z 5] c in
  let c := Canvas.beginPath c in
  let c :=
    match AlignmentGuide.type guide with
    | AlignmentGuide.vertical =>
        let c := Canvas.moveTo (AlignmentGuide.position guide) (JS.of_Z 0) c in
        Canvas.lineTo (AlignmentGuide.position guide)
                      (JS.of_Z (Canvas.height cv)) c
    | AlignmentGuide.horizontal =>
        let c := Canvas.moveTo (JS.of_Z 0) (AlignmentGuide.position guide) c in
        Canvas.lineTo (JS.of_Z (Canvas.width cv))
                      (AlignmentGuide.position guide) c
    end in
  let c := Canvas.stroke c in
  Canvas.restore c.

Definition renderGuides (this : t) : t :=
  let c := Canvas.clearRect (canvas this) (JS.of_Z 0) (JS.of_Z 0)
             (JS.of_Z (Canvas.width (canvas this)))
             (JS.of_Z (Canvas.height (canvas this))) (ctx this) in
  set_ctx (fold_left (drawGuide (canvas this)) (guides this) c) this.

(** *** [calculateSnap] *)

(** What the [forEach] callback of [calculateSnap] reads and writes:
    the array held by [this.guides] and the four captured locals. *)
Record Frame : Type := mkFrame {
  f_guides : list AlignmentGuide.t;
  snapX : JS.number;
  snapY : JS.number;
  snappedX : bool;
  snappedY : bool
}.

(** [snapX = v; snappedX = true; this.guides.push(g)] *)
Definition snapXTo (v : JS.number) (g : AlignmentGuide.t) (f : Frame) : Frame :=
  mkFrame (f_guides f ++ [g]) v (snapY f) true (snappedY f).

(** [snapY = v; snappedY = true; this.guides.push(g)] *)
Definition snapYTo (v : JS.number) (g : AlignmentGuide.t) (f : Frame) : Frame :=
  mkFrame (f_guides f ++ [g]) (snapX f) v (snappedX f) true.

Definition draggedBoundsOf (draggedNote : HTMLDivElement.t)
    (currentX currentY : JS.number) : NoteBounds.t :=
  let w := JS.of_Z (HTMLDivElement.offsetWidth draggedNote) in
  let h := JS.of_Z (HTMLDivElement.offsetHeight draggedNote) in
  NoteBounds.mk
    (HTMLDivElement.id draggedNote)
    currentX
    currentY
    (JS.add currentX w)
    (JS.add currentY h)
    w
    h
    (JS.add currentX (JS.div w (JS.of_Z 2)))
    (JS.add currentY (JS.div h (JS.of_Z 2))).

Definition targetBoundsOf (note : HTMLDivElement.t) : NoteBounds.t :=
  let styleLeft := CSSStyle.left (HTMLDivElement.style note) in
  let styleTop := CSSStyle.top (HTMLDivElement.style note) in
  let w := JS.of_Z (HTMLDivElement.offsetWidth note) in
  let h := JS.of_Z (HTMLDivElement.offsetHeight note) in
  NoteBounds.mk
    (HTMLDivElement.id note)
    (JS.or (JS.parseInt styleLeft) (JS.of_Z 0))
    (JS.or (JS.parseInt styleTop) (JS.of_Z 0))
    (JS.add (JS.or (JS.parseInt styleLeft) (JS.of_Z 0)) w)
    (JS.add (JS.or (JS.parseInt styleTop) (JS.of_Z 0)) h)
    w
    h
    (JS.add (JS.or (JS.parseInt styleLeft) (JS.of_Z 0)) (JS.div w (JS.of_Z 2)))
    (JS.add (JS.or (JS.parseInt styleTop) (JS.of_Z 0)) (JS.div h (JS.of_Z 2))).

Definition near (threshold a b : JS.number) : bool :=
  JS.le (JS.abs (JS.sub a b)) threshold.

Definition guideAt (ty : AlignmentGuide.kind) (position : JS.number)
    (note : HTMLDivElement.t) : AlignmentGuide.t :=
  AlignmentGuide.mk ty position (JS.of_Z 1) (HTMLDivElement.id note).

(** The block under [if (!snappedX)]. *)
Definition checkVertical (threshold : JS.number)
    (draggedBounds targetBounds : NoteBounds.t) (note : HTMLDivElement.t)
    (f : Frame) : Frame :=
  let d := draggedBounds in
  let t := targetBounds in
  let V := AlignmentGuide.vertical in
  if negb (snappedX f) then
    if near threshold (NoteBounds.left d) (NoteBounds.left t) then
      snapXTo (NoteBounds.left t) (guideAt V (NoteBounds.left t) note) f
    else if near threshold (NoteBounds.right d) (NoteBounds.right t) then
      snapXTo (JS.sub (NoteBounds.right t) (NoteBounds.width d))
              (guideAt V (NoteBounds.right t) note) f
    else if near threshold (NoteBounds.left d) (NoteBounds.right t) then
      snapXTo (NoteBounds.right t) (guideAt V (NoteBounds.right t) note) f
    else if near threshold (NoteBounds.right d) (NoteBounds.left t) then
      snapXTo (JS.sub (NoteBounds.left t) (NoteBounds.width d))
              (guideAt V (NoteBounds.left t) note) f
    else if near threshold (NoteBounds.centerX d) (NoteBounds.centerX t) then
      snapXTo (JS.sub (NoteBounds.centerX t)
                      (JS.div (NoteBounds.width d) (JS.of_Z 2)))
              (guideAt V (NoteBounds.centerX t) note) f
    else f
  else f.

(** The block under [if (!snappedY)]. *)
Definition checkHorizontal (threshold : JS.number)
    (draggedBounds targetBounds : NoteBounds.t) (note : HTMLDivElement.t)
    (f : Frame) : Frame :=
  let d := draggedBounds in
  let t := targetBounds in
  let H := AlignmentGuide.horizontal in
  if negb (snappedY f) then
    if near threshold (NoteBounds.top d) (NoteBounds.top t) then
      snapYTo (NoteBounds.top t) (guideAt H (NoteBounds.top t) note) f
    else if near threshold (NoteBounds.bottom d) (NoteBounds.bottom t) then
      snapYTo (JS.sub (NoteBounds.bottom t) (NoteBounds.height d))
              (guideAt H (NoteBounds.bottom t) note) f
    else if near threshold (NoteBounds.top d) (NoteBounds.bottom t) then
      snapYTo (NoteBounds.bottom t) (guideAt H (NoteBounds.bottom t) note) f
    else if near threshold (NoteBounds.bottom d) (NoteBounds.top t) then
      snapYTo (JS.sub (NoteBounds.top t) (NoteBounds.height d))
              (guideAt H (NoteBounds.top t) note) f
    else if near threshold (NoteBounds.centerY d) (NoteBounds.centerY t) then
      snapYTo (JS.sub (NoteBounds.centerY t)
                      (JS.div (NoteBounds.height d) (JS.of_Z 2)))
              (guideAt H (NoteBounds.centerY t) note) f
    else f
  else f.

(** The callback passed to [allNotes.forEach]. *)
Definition forEachNote (threshold : JS.number)
    (draggedNote : HTMLDivElement.t) (draggedBounds : NoteBounds.t)
    (f : Frame) (note : HTMLDivElement.t) : Frame :=
  if HTMLDivElement.same note draggedNote then f
  else
    let targetBounds := targetBoundsOf note in
    let f := checkVertical threshold draggedBounds targetBounds note f in
    checkHorizontal threshold draggedBounds targetBounds note f.

(** The returned [guides] is the array stored in [this.guides]; nothing
    writes to that array after the call returns ([clearGuides] and the
    next [calculateSnap] assign a new array), so it is returned by
    value. *)
Definition calculateSnap (this : t) (draggedNote : HTMLDivElement.t)
    (allNotes : list HTMLDivElement.t) (currentX currentY : JS.number)
    : SnapResult.t * t :=
  if negb (enabled this) then
    (SnapResult.mk false (JS.of_Z 0) (JS.of_Z 0) [], this)
  else
    let f0 := mkFrame [] currentX currentY false false in
    let draggedBounds := draggedBoundsOf draggedNote currentX currentY in
    let f := fold_left
               (forEachNote (snapThreshold this) draggedNote draggedBounds)
               allNotes f0 in
    let this := set_guides (f_guides f) this in
    let result := SnapResult.mk
                    (snappedX f || snappedY f)
                    (JS.sub (snapX f) currentX)
                    (JS.sub (snapY f) currentY)
                    (guides this) in
    let this := if SnapResult.snapped result then renderGuides this else this in
    (result, this).

(** The states of an engine: constructed, then driven through its
    methods. *)
Inductive reachable : t -> Prop :=
| reach_new canvas ctx innerWidth innerHeight this :
    new canvas (Some ctx) innerWidth innerHeight = Some this ->
    reachable this
| reach_resizeCanvas innerWidth innerHeight this :
    reachable this -> reachable (resizeCanvas innerWidth innerHeight this)
| reach_setEnabled enabled this :
    reachable this -> reachable (setEnabled enabled this)
| reach_clearGuides this :
    reachable this -> reachable (clearGuides this)
| reach_calculateSnap draggedNote allNotes currentX currentY this :
    reachable this ->
    reachable (snd (calculateSnap this draggedNote allNotes currentX currentY)).

End AlignmentSystem.

(* ================================================================== *)
(** ** The matching procedure in the words of the specification *)
(* ================================================================== *)

(** These definitions follow section 4.2 of the specification, not the
    source; the theorems below compare [calculateSnap] with them. *)
Module Spec.

(** The five checks of an axis.  On the vertical axis (x-alignment)
    start and end are the left and right edges, on the horizontal axis
    the top and bottom edges; the first word is the dragged box's
    coordinate, the second the neighbor's. *)
Inductive Check : Type :=
| StartToStart      (* left-to-left,    top-to-top *)
| EndToEnd          (* right-to-right,  bottom-to-bottom *)
| StartToEnd        (* left-to-right,   top-to-bottom *)
| EndToStart        (* right-to-left,   bottom-to-top *)
| CenterToCenter.

(** The fixed order in which the checks are examined. *)
Definition checkOrder : list Check :=
  [StartToStart; EndToEnd; StartToEnd; EndToStart; CenterToCenter].

Definition startOf (axis : AlignmentGuide.kind) (b : NoteBounds.t) : JS.number :=
  match axis with
  | AlignmentGuide.vertical => NoteBounds.left b
  | AlignmentGuide.horizontal => NoteBounds.top b
  end.

Definition endOf (axis : AlignmentGuide.kind) (b : NoteBounds.t) : JS.number :=
  match axis with
  | AlignmentGuide.vertical => NoteBounds.right b
  | AlignmentGuide.horizontal => NoteBounds.bottom b
  end.

Definition centerOf (axis : AlignmentGuide.kind) (b : NoteBounds.t) : JS.number :=
  match axis with
  | AlignmentGuide.vertical => NoteBounds.centerX b
  | AlignmentGuide.horizontal => NoteBounds.centerY b
  end.

(** The dragged box's coordinate compared by check [k]. *)
Definition draggedCoord (axis : AlignmentGuide.kind) (k : Check)
    (dragged : NoteBounds.t) : JS.number :=
  match k with
  | StartToStart | StartToEnd => startOf axis dragged
  | EndToEnd | EndToStart => endOf axis dragged
  | CenterToCenter => centerOf axis dragged
  end.

(** The neighbor's coordinate compared by check [k]. *)
Definition neighborCoord (axis : AlignmentGuide.kind) (k : Check)
    (neighbor : NoteBounds.t) : JS.number :=
  match k with
  | StartToStart | EndToStart => startOf axis neighbor
  | EndToEnd | StartToEnd => endOf axis neighbor
  | CenterToCenter => centerOf axis neighbor
  end.

(** Absolute pixel difference examined by check [k]. *)
Definition difference (axis : AlignmentGuide.kind) (k : Check)
    (dragged neighbor : NoteBounds.t) : JS.number :=
  JS.abs (JS.sub (draggedCoord axis k dragged) (neighborCoord axis k neighbor)).

(** A check is a match when its difference is [<= snapThreshold]. *)
Definition isMatch (snapThreshold : JS.number) (axis : AlignmentGuide.kind)
    (dragged neighbor : NoteBounds.t) (k : Check) : bool :=
  JS.le (difference axis k dragged neighbor) snapThreshold.

(** First matching check of one candidate, in the fixed order. *)
Definition firstCheck (snapThreshold : JS.number) (axis : AlignmentGuide.kind)
    (dragged neighbor : NoteBounds.t) : option Check :=
  find (isMatch snapThreshold axis dragged neighbor) checkOrder.

(** First match of an axis: candidates in the supplied order, checks in
    the fixed order; the search stops at the first match. *)
Fixpoint firstMatch (snapThreshold : JS.number) (axis : AlignmentGuide.kind)
    (dragged : NoteBounds.t) (candidates : list NoteBounds.t)
    : option (Check * NoteBounds.t) :=
  match candidates with
  | [] => None
  | c :: rest =>
      match firstCheck snapThreshold axis dragged c with
      | Some k => Some (k, c)
      | None => firstMatch snapThreshold axis dragged rest
      end
  end.

(** The guide recorded for a match: at the neighbor's matched
    coordinate, tagged with the axis and the neighbor. *)
Definition guideOf (axis : AlignmentGuide.kind) (m : Check * NoteBounds.t)
    : AlignmentGuide.t :=
  AlignmentGuide.mk axis (neighborCoord axis (fst m) (snd m))
                    (JS.of_Z 1) (NoteBounds.id (snd m)).

(** The correction that moves the dragged box's matched coordinate onto
    the neighbor's matched coordinate. *)
Definition delta (axis : AlignmentGuide.kind) (dragged : NoteBounds.t)
    (m : Check * NoteBounds.t) : JS.number :=
  JS.sub (neighborCoord axis (fst m) (snd m))
         (draggedCoord axis (fst m) dragged).

(** Guides of a result: one per axis that matched. *)
Definition guidesOf (axis : AlignmentGuide.kind)
    (m : option (Check * NoteBounds.t)) : list AlignmentGuide.t :=
  match m with
  | Some m => [guideOf axis m]
  | None => []
  end.

Definition found (m : option (Check * NoteBounds.t)) : bool :=
  match m with Some _ => true | None => false end.

End Spec.

(** The candidates of a call: the notes other than the dragged one, as
    the boxes the engine computes for them. *)
Definition candidatesOf (draggedNote : HTMLDivElement.t)
    (allNotes : list HTMLDivElement.t) : list NoteBounds.t :=
  map AlignmentSystem.targetBoundsOf
      (filter (fun note => negb (HTMLDivElement.same note draggedNote)) allNotes).

(** First match of a call on an axis, in the specification's sense. *)
Definition matchOf (axis : AlignmentGuide.kind) (this : AlignmentSystem.t)
    (draggedNote : HTMLDivElement.t) (allNotes : list HTMLDivElement.t)
    (currentX currentY : JS.number) : option (Spec.Check * NoteBounds.t) :=
  Spec.firstMatch (AlignmentSystem.snapThreshold this) axis
    (AlignmentSystem.draggedBoundsOf draggedNote currentX currentY)
    (candidatesOf draggedNote allNotes).

(** Value assigned to [snapX] / [snapY] by the branch of check [k]. *)
Definition snapTarget (axis : AlignmentGuide.kind) (dragged : NoteBounds.t)
    (m : Spec.Check * NoteBounds.t) : JS.number :=
  let size :=
    match axis with
    | AlignmentGuide.vertical => NoteBounds.width dragged
    | AlignmentGuide.horizontal => NoteBounds.height dragged
    end in
  match fst m with
  | Spec.StartToStart | Spec.StartToEnd => Spec.neighborCoord axis (fst m) (snd m)
  | Spec.EndToEnd | Spec.EndToStart =>
      JS.sub (Spec.neighborCoord axis (fst m) (snd m)) size
  | Spec.CenterToCenter =>
      JS.sub (Spec.neighborCoord axis (fst m) (snd m)) (JS.div size (JS.of_Z 2))
  end.

(* ================================================================== *)
(** ** The pixel grid *)
(* ================================================================== *)

(** A whole or half number of pixels of size at most 2^30, as the
    positions and sizes on a screen are.  The engine adds, subtracts and
    halves only; from such numbers every result it forms is again a
    whole or half number, far below 2^53 in size, which binary64
    represents: there the exact sums and differences of [JS.add] and
    [JS.sub] are the ones JavaScript computes.  Off this grid they need
    not be (a sum of fractions is rounded), and the theorems that depend
    on it say so. *)
Definition isPixel (a : JS.number) : bool :=
  match a with
  | JS.Num q =>
      match Qden q with
      | 1%positive => (Z.abs (Qnum q) <=? 2 ^ 30)%Z
      | 2%positive => (Z.abs (Qnum q) <=? 2 ^ 31)%Z
      | _ => false
      end
  | JS.NaN => false
  end.

(** The size of a note and the position the engine reads from its style
    are on the grid. *)
Definition noteOnScreen (note : HTMLDivElement.t) : bool :=
  let t := AlignmentSystem.targetBoundsOf note in
  isPixel (NoteBounds.left t) && isPixel (NoteBounds.top t)
  && isPixel (NoteBounds.width t) && isPixel (NoteBounds.height t).

(** The arguments of a call are on the grid. *)
Definition onScreen (draggedNote : HTMLDivElement.t)
    (allNotes : list HTMLDivElement.t) (currentX currentY : JS.number)
    : bool :=
  isPixel currentX && isPixel currentY
  && forallb noteOnScreen (draggedNote :: allNotes).

(** The object literal [targetBounds] of a note, for any two numbers in
    the place of [parseInt(note.style.left) || 0] and
    [parseInt(note.style.top) || 0]. *)
Definition boxAt (note : HTMLDivElement.t) (left top : JS.number)
    : NoteBounds.t :=
  let w := JS.of_Z (HTMLDivElement.offsetWidth note) in
  let h := JS.of_Z (HTMLDivElement.offsetHeight note) in
  NoteBounds.mk (HTMLDivElement.id note) left top
    (JS.add left w) (JS.add top h) w h
    (JS.add left (JS.div w (JS.of_Z 2)))
    (JS.add top (JS.div h (JS.of_Z 2))).

(** The coordinate of a call and the delta of a result on an axis. *)
Definition requested (axis : AlignmentGuide.kind)
    (currentX currentY : JS.number) : JS.number :=
  match axis with
  | AlignmentGuide.vertical => currentX
  | AlignmentGuide.horizontal => currentY
  end.

Definition deltaOn (axis : AlignmentGuide.kind) (r : SnapResult.t)
    : JS.number :=
  match axis with
  | AlignmentGuide.vertical => SnapResult.deltaX r
  | AlignmentGuide.horizontal => SnapResult.deltaY r
  end.

(* ================================================================== *)
(** ** Views of the scan used in the proofs *)
(* ================================================================== *)

Definition onAxis (axis : AlignmentGuide.kind) (g : AlignmentGuide.t) : bool :=
  match axis with
  | AlignmentGuide.vertical => AlignmentGuide.isVertical g
  | AlignmentGuide.horizontal => AlignmentGuide.isHorizontal g
  end.

(** What a frame holds about one axis: the flag, the snap coordinate and
    the guides of that axis. *)
Definition AxisView : Type := (bool * JS.number * list AlignmentGuide.t)%type.

Definition viewOf (axis : AlignmentGuide.kind) (f : AlignmentSystem.Frame)
    : AxisView :=
  match axis with
  | AlignmentGuide.vertical =>
      (AlignmentSystem.snappedX f, AlignmentSystem.snapX f,
       filter (onAxis axis) (AlignmentSystem.f_guides f))
  | AlignmentGuide.horizontal =>
      (AlignmentSystem.snappedY f, AlignmentSystem.snapY f,
       filter (onAxis axis) (AlignmentSystem.f_guides f))
  end.

(** Effect on an axis view of finding (or not) the match [m], for a
    frame that may already have snapped. *)
Definition settle (axis : AlignmentGuide.kind) (dragged : NoteBounds.t)
    (v : AxisView) (m : option (Spec.Check * NoteBounds.t)) : AxisView :=
  let '(snapped, coord, gs) := v in
  if snapped then v
  else match m with
       | Some m => (true, snapTarget axis dragged m, gs ++ [Spec.guideOf axis m])
       | None => v
       end.

Definition matchWith (thr : JS.number) (axis : AlignmentGuide.kind)
    (dragged target : NoteBounds.t) : option (Spec.Check * NoteBounds.t) :=
  match Spec.firstCheck thr axis dragged target with
  | Some k => Some (k, target)
  | None => None
  end.

(** The frame the [forEach] of an enabled call ends with. *)
Definition finalFrameOf (this : AlignmentSystem.t)
    (draggedNote : HTMLDivElement.t) (allNotes : list HTMLDivElement.t)
    (currentX currentY : JS.number) : AlignmentSystem.Frame :=
  fold_left
    (AlignmentSystem.forEachNote (AlignmentSystem.snapThreshold this)
       draggedNote
       (AlignmentSystem.draggedBoundsOf draggedNote currentX currentY))
    allNotes (AlignmentSystem.mkFrame [] currentX currentY false false).

(* ================================================================== *)
(** ** Concrete notes and engines used by the examples *)
(* ================================================================== *)

Module Scenario.

(** A freshly constructed engine on a 1280 x 720 window. *)
Definition engine : AlignmentSystem.t :=
  AlignmentSystem.mk (JS.of_Z 4) [] (Canvas.mkCanvas 1280 720) Canvas.blank true.

Definition disabledEngine : AlignmentSystem.t :=
  AlignmentSystem.setEnabled false engine.

(** The neighbor of the end-to-end scenario: left 100, top 50,
    120 x 40. *)
Definition neighbor : HTMLDivElement.t :=
  HTMLDivElement.mk 1 "note-a" (CSSStyle.mk "100px" "50px") 120 40.

(** The dragged note, 80 x 40; its own style still holds the position
    it had when the drag began. *)
Definition dragged : HTMLDivElement.t :=
  HTMLDivElement.mk 2 "note-d" (CSSStyle.mk "60px" "180px") 80 40.

(** A second neighbor, two pixels right of [neighbor]. *)
Definition closer : HTMLDivElement.t :=
  HTMLDivElement.mk 3 "note-b" (CSSStyle.mk "102px" "400px") 120 40.

(** A neighbor two pixels left of [neighbor]. *)
Definition lefter : HTMLDivElement.t :=
  HTMLDivElement.mk 4 "note-c" (CSSStyle.mk "98px" "400px") 50 40.

(** A neighbor whose top edge is near y = 200. *)
Definition below : HTMLDivElement.t :=
  HTMLDivElement.mk 5 "note-e" (CSSStyle.mk "400px" "203px") 120 40.

(** A neighbor at left 100 whose right edge is at 185. *)
Definition narrow : HTMLDivElement.t :=
  HTMLDivElement.mk 6 "note-f" (CSSStyle.mk "100px" "50px") 85 40.

(** A neighbor whose inline [left] was never set. *)
Definition unplaced : HTMLDivElement.t :=
  HTMLDivElement.mk 7 "note-g" (CSSStyle.mk EmptyString "50px") 50 40.

(** A dragged note only 4 pixels wide. *)
Definition sliver : HTMLDivElement.t :=
  HTMLDivElement.mk 8 "note-h" (CSSStyle.mk "300px" "300px") 4 40.

End Scenario.

(* ================================================================== *)
(** ** A drag in progress, for the examples *)
(* ================================================================== *)

Module Session.

(** The engine after the end-to-end scenario: note-a's guide is stored
    and drawn. *)
Definition snappedEngine : AlignmentSystem.t :=
  snd (AlignmentSystem.calculateSnap Scenario.engine Scenario.dragged
         [Scenario.neighbor] (JS.of_Z 103) (JS.of_Z 200)).

(** The next frame drags the box far from every note. *)
Definition movedAway : SnapResult.t * AlignmentSystem.t :=
  AlignmentSystem.calculateSnap snappedEngine Scenario.dragged
    [Scenario.neighbor] (JS.of_Z 500) (JS.of_Z 400).

End Session.

(* ================================================================== *)
(** ** What the overlay shows *)
(* ================================================================== *)

(** The path [renderGuides] traces for a guide: top to bottom of the
    canvas for a vertical guide, left to right for a horizontal one. *)
Definition guidePath (cv : Canvas.HTMLCanvasElement) (g : AlignmentGuide.t)
    : list Canvas.Segment :=
  match AlignmentGuide.type g with
  | AlignmentGuide.vertical =>
      [Canvas.MoveTo (AlignmentGuide.position g) (JS.of_Z 0);
       Canvas.LineTo (AlignmentGuide.position g) (JS.of_Z (Canvas.height cv))]
  | AlignmentGuide.horizontal =>
      [Canvas.MoveTo (JS.of_Z 0) (AlignmentGuide.position g);
       Canvas.LineTo (JS.of_Z (Canvas.width cv)) (AlignmentGuide.position g)]
  end.

(** The mark a guide leaves on the bitmap: its path stroked one pixel
    wide, dashed 5-5, in magenta. *)
Definition guideStroke (cv : Canvas.HTMLCanvasElement) (g : AlignmentGuide.t)
    : Canvas.Paint :=
  Canvas.Stroked (guidePath cv g) "rgba(255, 0, 100, 0.8)" (JS.of_Z 1)
                 [JS.of_Z 5; JS.of_Z 5].

(** Facts that hold in every state of an engine (proved below). *)
Definition EngineInvariant (this : AlignmentSystem.t) : Prop :=
  AlignmentSystem.snapThreshold this = JS.of_Z 4
  /\ (List.length (filter (onAxis AlignmentGuide.vertical)
                          (AlignmentSystem.guides this)) <= 1)%nat
  /\ (List.length (filter (onAxis AlignmentGuide.horizontal)
                          (AlignmentSystem.guides this)) <= 1)%nat
  /\ (List.length (AlignmentSystem.guides this) <= 2)%nat
  /\ (List.length (Canvas.bitmap (AlignmentSystem.ctx this)) <= 2)%nat
  /\ Canvas.state (AlignmentSystem.ctx this) = Canvas.defaultState
  /\ Canvas.stack (AlignmentSystem.ctx this) = []
  /\ (AlignmentSystem.enabled this = false ->
      AlignmentSystem.guides this = []
      /\ Canvas.bitmap (AlignmentSystem.ctx this) = []).

(* ================================================================== *)
(** ** Numbers as text, and lengths written to a style *)
(* ================================================================== *)

Module NumberText.

Definition digitChar (d : Z) : ascii := ascii_of_nat (48 + Z.to_nat d).

(** Decimal digits of a natural number, ["0"] for zero. *)
Definition decimal (n : Z) : string :=
  NilZero.string_of_uint (N.to_uint (Z.to_N n)).

(** Digits of the fraction [r / d], for [0 <= r < d], by long division,
    at most [fuel] of them. *)
Fixpoint fractionDigits (fuel : nat) (r d : Z) : string :=
  match fuel with
  | O => EmptyString
  | S fuel' =>
      if (r =? 0)%Z then EmptyString
      else String (digitChar (r * 10 / d))
                  (fractionDigits fuel' ((r * 10) mod d) d)
  end.

(** [String(a)], the text [a + 'px'] starts with: the decimal expansion
    of [a], of at most 20 fraction digits.  This is what JavaScript
    prints for the numbers the handlers write, whole and half numbers of
    pixels, as long as they are below 10^21 in size.  It is not for the
    others: JavaScript prints a number of 10^21 or more and a fraction
    below 10^-6 with an exponent, and a fraction that binary64 holds
    rounded with the shortest digits that read back to it. *)
Definition toString (a : JS.number) : string :=
  match a with
  | JS.NaN => "NaN"
  | JS.Num q =>
      let n := Qnum q in
      let d := Zpos (Qden q) in
      let whole := (Z.abs n / d)%Z in
      let frac := (Z.abs n mod d)%Z in
      ((if (n <? 0)%Z then "-" else "")
       ++ decimal whole
       ++ (if (frac =? 0)%Z then "" else "." ++ fractionDigits 20 frac d))%string
  end.

(** [a + 'px'] *)
Definition px (a : JS.number) : string := (toString a ++ "px")%string.

(** [style.left = a + 'px'] (or [top]) on a style whose value was
    [old]: the style keeps a declaration only if its value is a length,
    and ["NaNpx"] is none, so the assignment is dropped for [NaN]. *)
Definition assignPx (a : JS.number) (old : string) : string :=
  if JS.isNaN a then old else px a.

End NumberText.

(** [Math.min] and [Math.max] of two numbers. *)
Module Math.

Definition min (a b : JS.number) : JS.number :=
  match a, b with
  | JS.Num p, JS.Num q => if Qle_bool p q then a else b
  | _, _ => JS.NaN
  end.

Definition max (a b : JS.number) : JS.number :=
  match a, b with
  | JS.Num p, JS.Num q => if Qle_bool p q then b else a
  | _, _ => JS.NaN
  end.

(** [Math.trunc]: the integer part, towards zero. *)
Definition trunc (a : JS.number) : JS.number :=
  match a with
  | JS.Num q => JS.of_Z (Z.quot (Qnum q) (Zpos (Qden q)))
  | JS.NaN => JS.NaN
  end.

End Math.

(** The string methods [generateTitleFromText] uses.  A [string] is
    read as the sequence of the UTF-16 code units of the JavaScript
    string, one character each; this and the white space of
    [JS.isWhiteSpace] are the program's on ASCII text, see [isASCII]
    (the code also counts U+00A0 and other white space outside ASCII
    in [\s] and [trim], and [length] counts code units above 255 that
    a character here cannot hold). *)
Module JSString.

(** Every character of the text is an ASCII one. *)
Fixpoint isASCII (s : string) : bool :=
  match s with
  | EmptyString => true
  | String c r => (nat_of_ascii c <? 128)%nat && isASCII r
  end.

(** [s.replace(/<[^>]*>/g, '')]: from each [<] that has a [>] after it,
    up to the first such [>]; [inTag] says that the scan is inside such
    a match. *)
Fixpoint hasGt (s : string) : bool :=
  match s with
  | EmptyString => false
  | String c r => if Ascii.eqb c ">" then true else hasGt r
  end.

Fixpoint removeTagsFrom (inTag : bool) (s : string) : string :=
  match s with
  | EmptyString => EmptyString
  | String c r =>
      if inTag
      then if Ascii.eqb c ">" then removeTagsFrom false r
           else removeTagsFrom true r
      else if Ascii.eqb c "<" && hasGt r then removeTagsFrom true r
           else String c (removeTagsFrom false r)
  end.

Definition removeTags (s : string) : string := removeTagsFrom false s.

(** [s.replace(/\s+/g, ' ')]; [inRun] says that the previous character
    was white space. *)
Fixpoint collapseFrom (inRun : bool) (s : string) : string :=
  match s with
  | EmptyString => EmptyString
  | String c r =>
      if JS.isWhiteSpace c
      then if inRun then collapseFrom true r
           else String " " (collapseFrom true r)
      else String c (collapseFrom false r)
  end.

Definition collapseWhiteSpace (s : string) : string := collapseFrom false s.

Definition isEmpty (s : string) : bool :=
  match s with EmptyString => true | String _ _ => false end.

Fixpoint trimEnd (s : string) : string :=
  match s with
  | EmptyString => EmptyString
  | String c r =>
      let r' := trimEnd r in
      if JS.isWhiteSpace c && isEmpty r' then EmptyString else String c r'
  end.

(** [s.trim()] *)
Definition trim (s : string) : string := trimEnd (JS.trimStart s).

(** [s.split(sep)] for a separator of one character. *)
Fixpoint split (sep : ascii) (s : string) : list string :=
  match s with
  | EmptyString => [EmptyString]
  | String c r =>
      if Ascii.eqb c sep then EmptyString :: split sep r
      else match split sep r with
           | piece :: pieces => String c piece :: pieces
           | [] => [String c EmptyString]
           end
  end.

End JSString.

(* ================================================================== *)
(** ** The handlers of [app.ts] *)
(* ================================================================== *)

(** The module-level state of [app.ts] that the drag block of the
    [mousemove] listener, [createResizeHandles], the tool functions and
    the snap toggle read and write.  Notes are objects shared between
    the canvas and [selectedNotes]: the state keeps each note once, in
    [notes], and the selection refers to them by identity.  Mouse
    coordinates are whole pixels. *)
Module App.

Inductive ToolMode : Type := default | move.

Definition isMove (t : ToolMode) : bool :=
  match t with move => true | default => false end.

(** *** [generateTitleFromText] *)

(** The words of the cleaned text. *)
Definition wordsOf (cleanText : string) : list string :=
  filter (fun word => (0 <? String.length word)%nat)
         (JSString.split " " cleanText).

(** The loop over the first words, from iteration [i] on. *)
Fixpoint addWords (i : nat) (words : list string) (title : string) : string :=
  match words with
  | [] => title
  | nextWord :: rest =>
      if (i <? 5)%nat
      then if (String.length title + String.length nextWord
               + (if (0 <? i)%nat then 1 else 0) <=? 30)%nat
           then addWords (S i) rest
                  (title ++ (if (0 <? i)%nat then " " else "") ++ nextWord)%string
           else title
      else title
  end.

Definition cleanTextOf (text : string) : string :=
  JSString.trim (JSString.collapseWhiteSpace (JSString.removeTags text)).

(** [text] is typed [string], so that [typeof text !== 'string'] is
    false; [length] is the number of characters, see [JSString]. *)
Definition generateTitleFromText (text : string) : string :=
  if JSString.isEmpty text then "Untitled"%string
  else
    let cleanText := cleanTextOf text in
    if JSString.isEmpty cleanText then "Untitled"%string
    else
      let words := wordsOf cleanText in
      let title := addWords 0 words EmptyString in
      if JSString.isEmpty title then "Untitled"%string else title.

(** A note element with the parts of it the handlers touch. *)
Record Note : Type := mkNote {
  el : HTMLDivElement.t;
  zIndex : string;               (* el.style.zIndex *)
  attached : bool;               (* el is a child of the canvas *)
  contentEditable : string       (* el.contentEditable *)
}.

Definition nodeOf (note : Note) : positive := HTMLDivElement.node (el note).

(** A handle element: a [div] with a class and an inline position. *)
Record Handle : Type := mkHandle {
  className : string;
  h_left : string;               (* style.left *)
  h_top : string                 (* style.top *)
}.

Record MouseEvent : Type := mkEvent {
  clientX : Z;
  clientY : Z;
  altKey : bool
}.

Record State : Type := mkState {
  notes : list Note;
  selectedNotes : list positive; (* a Set: insertion order, no repetition *)
  startX : Z;
  startY : Z;
  isDraggingGroup : bool;
  dragHandle : option Handle;
  currentTool : ToolMode;
  isDraggingNote : bool;
  draggedNote : option positive;
  resizeHandles : list Handle;
  alignmentSystem : option AlignmentSystem.t;
  noteZIndexCounter : Z;
  snapEnabled : bool;
  guidesCanvasSnapDisabled : bool;  (* class snap-disabled on guidesCanvas *)
  canvasSnapDisabled : bool;        (* class snap-disabled on canvas *)
  moveToolActive : bool;            (* class active on #moveTool *)
  snapToggleActive : bool;          (* class active on #snapToggle *)
  canvasMoveMode : bool             (* class move-mode on canvas *)
}.

Definition set_notes (v : list Note) (s : State) : State :=
  mkState v (selectedNotes s) (startX s) (startY s) (isDraggingGroup s)
    (dragHandle s) (currentTool s) (isDraggingNote s) (draggedNote s)
    (resizeHandles s) (alignmentSystem s) (noteZIndexCounter s)
    (snapEnabled s) (guidesCanvasSnapDisabled s) (canvasSnapDisabled s)
    (moveToolActive s) (snapToggleActive s) (canvasMoveMode s).

Definition set_start (x y : Z) (s : State) : State :=
  mkState (notes s) (selectedNotes s) x y (isDraggingGroup s)
    (dragHandle s) (currentTool s) (isDraggingNote s) (draggedNote s)
    (resizeHandles s) (alignmentSystem s) (noteZIndexCounter s)
    (snapEnabled s) (guidesCanvasSnapDisabled s) (canvasSnapDisabled s)
    (moveToolActive s) (snapToggleActive s) (canvasMoveMode s).

Definition set_dragHandle (v : option Handle) (s : State) : State :=
  mkState (notes s) (selectedNotes s) (startX s) (startY s) (isDraggingGroup s)
    v (currentTool s) (isDraggingNote s) (draggedNote s)
    (resizeHandles s) (alignmentSystem s) (noteZIndexCounter s)
    (snapEnabled s) (guidesCanvasSnapDisabled s) (canvasSnapDisabled s)
    (moveToolActive s) (snapToggleActive s) (canvasMoveMode s).

Definition set_resizeHandles (v : list Handle) (s : State) : State :=
  mkState (notes s) (selectedNotes s) (startX s) (startY s) (isDraggingGroup s)
    (dragHandle s) (currentTool s) (isDraggingNote s) (draggedNote s)
    v (alignmentSystem s) (noteZIndexCounter s)
    (snapEnabled s) (guidesCanvasSnapDisabled s) (canvasSnapDisabled s)
    (moveToolActive s) (snapToggleActive s) (canvasMoveMode s).

Definition set_alignmentSystem (v : option AlignmentSystem.t) (s : State)
    : State :=
  mkState (notes s) (selectedNotes s) (startX s) (startY s) (isDraggingGroup s)
    (dragHandle s) (currentTool s) (isDraggingNote s) (draggedNote s)
    (resizeHandles s) v (noteZIndexCounter s)
    (snapEnabled s) (guidesCanvasSnapDisabled s) (canvasSnapDisabled s)
    (moveToolActive s) (snapToggleActive s) (canvasMoveMode s).

Definition set_noteZIndexCounter (v : Z) (s : State) : State :=
  mkState (notes s) (selectedNotes s) (startX s) (startY s) (isDraggingGroup s)
    (dragHandle s) (currentTool s) (isDraggingNote s) (draggedNote s)
    (resizeHandles s) (alignmentSystem s) v
    (snapEnabled s) (guidesCanvasSnapDisabled s) (canvasSnapDisabled s)
    (moveToolActive s) (snapToggleActive s) (canvasMoveMode s).

Definition set_snapEnabled (v : bool) (s : State) : State :=
  mkState (notes s) (selectedNotes s) (startX s) (startY s) (isDraggingGroup s)
    (dragHandle s) (currentTool s) (isDraggingNote s) (draggedNote s)
    (resizeHandles s) (alignmentSystem s) (noteZIndexCounter s)
    v (guidesCanvasSnapDisabled s) (canvasSnapDisabled s)
    (moveToolActive s) (snapToggleActive s) (canvasMoveMode s).

Definition set_snapDisabledClasses (v : bool) (s : State) : State :=
  mkState (notes s) (selectedNotes s) (startX s) (startY s) (isDraggingGroup s)
    (dragHandle s) (currentTool s) (isDraggingNote s) (draggedNote s)
    (resizeHandles s) (alignmentSystem s) (noteZIndexCounter s)
    (snapEnabled s) v v
    (moveToolActive s) (snapToggleActive s) (canvasMoveMode s).

Definition set_toolbarActive (moveTool snapToggle : bool) (s : State) : State :=
  mkState (notes s) (selectedNotes s) (startX s) (startY s) (isDraggingGroup s)
    (dragHandle s) (currentTool s) (isDraggingNote s) (draggedNote s)
    (resizeHandles s) (alignmentSystem s) (noteZIndexCounter s)
    (snapEnabled s) (guidesCanvasSnapDisabled s) (canvasSnapDisabled s)
    moveTool snapToggle (canvasMoveMode s).

Definition set_currentTool (v : ToolMode) (s : State) : State :=
  mkState (notes s) (selectedNotes s) (startX s) (startY s) (isDraggingGroup s)
    (dragHandle s) v (isDraggingNote s) (draggedNote s)
    (resizeHandles s) (alignmentSystem s) (noteZIndexCounter s)
    (snapEnabled s) (guidesCanvasSnapDisabled s) (canvasSnapDisabled s)
    (moveToolActive s) (snapToggleActive s) (canvasMoveMode s).

Definition set_canvasMoveMode (v : bool) (s : State) : State :=
  mkState (notes s) (selectedNotes s) (startX s) (startY s) (isDraggingGroup s)
    (dragHandle s) (currentTool s) (isDraggingNote s) (draggedNote s)
    (resizeHandles s) (alignmentSystem s) (noteZIndexCounter s)
    (snapEnabled s) (guidesCanvasSnapDisabled s) (canvasSnapDisabled s)
    (moveToolActive s) (snapToggleActive s) v.

(** *** Elements by identity *)

Definition lookup (id : positive) (l : list Note) : option Note :=
  find (fun note => Pos.eqb (nodeOf note) id) l.

(** Applies [f] to the note whose identity is [id]. *)
Definition update (id : positive) (f : Note -> Note) (l : list Note)
    : list Note :=
  map (fun note => if Pos.eqb (nodeOf note) id then f note else note) l.

(** [set.forEach(note => f(note))] for a set of notes. *)
Definition forEachNote (f : Note -> Note) (set : list positive)
    (l : list Note) : list Note :=
  fold_left (fun l id => update id f l) set l.

(** [Array.from(canvas.querySelectorAll('.note'))] *)
Definition canvasNotes (s : State) : list HTMLDivElement.t :=
  map el (filter attached (notes s)).

Definition set_position (left top : string) (note : Note) : Note :=
  mkNote
    (HTMLDivElement.mk (HTMLDivElement.node (el note))
       (HTMLDivElement.id (el note))
       (CSSStyle.mk left top)
       (HTMLDivElement.offsetWidth (el note))
       (HTMLDivElement.offsetHeight (el note)))
    (zIndex note) (attached note) (contentEditable note).

Definition set_zIndex (v : string) (note : Note) : Note :=
  mkNote (el note) v (attached note) (contentEditable note).

Definition set_contentEditable (v : string) (note : Note) : Note :=
  mkNote (el note) (zIndex note) (attached note) v.

Definition styleLeft (note : Note) : string :=
  CSSStyle.left (HTMLDivElement.style (el note)).

Definition styleTop (note : Note) : string :=
  CSSStyle.top (HTMLDivElement.style (el note)).

(** *** [clearResizeHandles] and [createResizeHandles] *)

(** The handles are removed from the canvas and forgotten. *)
Definition clearResizeHandles (s : State) : State :=
  set_resizeHandles [] s.

(** The four variables of the bounding-box loop.  [minX] and [minY]
    start at [Infinity], which the number model does not have: [None]
    stands for it.  [Math.min(Infinity, x)] is [x] for every number of
    the model. *)
Record Extent : Type := mkExtent {
  minX : option JS.number;
  minY : option JS.number;
  maxX : JS.number;
  maxY : JS.number
}.

Definition minInf (a : option JS.number) (b : JS.number) : option JS.number :=
  match a with
  | None => Some b
  | Some a => Some (Math.min a b)
  end.

(** Body of [notes.forEach] in [createResizeHandles]. *)
Definition extend (b : Extent) (note : Note) : Extent :=
  let x := JS.parseInt (styleLeft note) in
  let y := JS.parseInt (styleTop note) in
  let w := JS.of_Z (HTMLDivElement.offsetWidth (el note)) in
  let h := JS.of_Z (HTMLDivElement.offsetHeight (el note)) in
  mkExtent (minInf (minX b) x) (minInf (minY b) y)
           (Math.max (maxX b) (JS.add x w)) (Math.max (maxY b) (JS.add y h)).

Definition extentOf (set : list positive) (l : list Note) : Extent :=
  fold_left
    (fun b id => match lookup id l with
                 | Some note => extend b note
                 | None => b
                 end)
    set (mkExtent None None (JS.of_Z 0) (JS.of_Z 0)).

(** A minimum after the loop; the loop ran at least once, so it is no
    longer [Infinity]. *)
Definition finite (a : option JS.number) : JS.number :=
  match a with
  | Some a => a
  | None => JS.NaN
  end.

(** A fresh handle positioned with [style.left = x + 'px'] and
    [style.top = y + 'px']. *)
Definition newHandle (cls : string) (x y : JS.number) : Handle :=
  mkHandle ("resize-handle " ++ cls)
           (NumberText.assignPx x EmptyString)
           (NumberText.assignPx y EmptyString).

Definition createResizeHandles (set : list positive) (s : State) : State :=
  let s := clearResizeHandles s in
  match set with
  | [] => s
  | _ :: _ =>
      if negb (isMove (currentTool s)) then s
      else
        let b := extentOf set (notes s) in
        let minX := finite (minX b) in
        let minY := finite (minY b) in
        let maxX := maxX b in
        let maxY := maxY b in
        let four := JS.of_Z 4 in
        let two := JS.of_Z 2 in
        let midX := JS.sub (JS.div (JS.add minX maxX) two) four in
        let midY := JS.sub (JS.div (JS.add minY maxY) two) four in
        set_resizeHandles
          [ newHandle "corner-nw" (JS.sub minX four) (JS.sub minY four);
            newHandle "edge-n" midX (JS.sub minY four);
            newHandle "corner-ne" (JS.sub maxX four) (JS.sub minY four);
            newHandle "edge-e" (JS.sub maxX four) midY;
            newHandle "corner-se" (JS.sub maxX four) (JS.sub maxY four);
            newHandle "edge-s" midX (JS.sub maxY four);
            newHandle "corner-sw" (JS.sub minX four) (JS.sub maxY four);
            newHandle "edge-w" (JS.sub minX four) midY ]
          s
  end.

(** *** [reorderNotesZIndex] *)

(** [a < b] *)
Definition lt (a b : JS.number) : bool := JS.le a b && negb (JS.eqb a b).

(** [parseInt(note.style.zIndex) || 0] *)
Definition layerOf (note : Note) : JS.number :=
  JS.or (JS.parseInt (zIndex note)) (JS.of_Z 0).

(** Body of the [forEach] of [reorderNotesZIndex]. *)
Definition reorderNote (draggedNote : Note) (draggedZ targetZ : JS.number)
    (movingUp : bool) (note : Note) : Note :=
  let currentZ := layerOf note in
  if Pos.eqb (nodeOf note) (nodeOf draggedNote)
  then set_zIndex (NumberText.toString targetZ) note
  else if movingUp && lt draggedZ currentZ && JS.le currentZ targetZ
  then set_zIndex (NumberText.toString (JS.sub currentZ (JS.of_Z 1))) note
  else if negb movingUp && JS.le targetZ currentZ && lt currentZ draggedZ
  then set_zIndex (NumberText.toString (JS.add currentZ (JS.of_Z 1))) note
  else note.

(** The debounced [saveCurrentDocument] it ends with writes the stored
    documents only, which are no part of this state. *)
Definition reorderNotesZIndex (draggedNote targetNote : Note) (s : State)
    : State :=
  let draggedZ := layerOf draggedNote in
  let targetZ := layerOf targetNote in
  if JS.eqb draggedZ targetZ then s
  else
    let movingUp := lt draggedZ targetZ in
    set_notes
      (map (fun note => if attached note
                        then reorderNote draggedNote draggedZ targetZ
                                         movingUp note
                        else note)
           (notes s)) s.

(** *** The drag block of the [mousemove] listener *)

(** Body of the first [selectedNotes.forEach] of the snap branch. *)
Definition moveSnapped (dx dy : JS.number) (snapResult : SnapResult.t)
    (note : Note) : Note :=
  let x := JS.parseInt (styleLeft note) in
  let y := JS.parseInt (styleTop note) in
  set_position
    (NumberText.assignPx (JS.add (JS.add x dx) (SnapResult.deltaX snapResult))
                         (styleLeft note))
    (NumberText.assignPx (JS.add (JS.add y dy) (SnapResult.deltaY snapResult))
                         (styleTop note))
    note.

(** Body of the [selectedNotes.forEach] of the fallback branch. *)
Definition moveFree (dx dy : JS.number) (note : Note) : Note :=
  let x := JS.parseInt (styleLeft note) in
  let y := JS.parseInt (styleTop note) in
  set_position
    (NumberText.assignPx (JS.add x dx) (styleLeft note))
    (NumberText.assignPx (JS.add y dy) (styleTop note))
    note.

(** Body of the second [forEach] of the snap branch:
    [if (!note.style.zIndex) note.style.zIndex =
       (++noteZIndexCounter).toString()]. *)
Definition ensureZIndex (st : Z * list Note) (id : positive) : Z * list Note :=
  let '(counter, l) := st in
  match lookup id l with
  | Some note =>
      match zIndex note with
      | EmptyString =>
          let counter := (counter + 1)%Z in
          (counter,
           update id (set_zIndex (NumberText.toString (JS.of_Z counter))) l)
      | String _ _ => st
      end
  | None => st
  end.

Definition moveHandle (dx dy : JS.number) (handle : Handle) : Handle :=
  let hx := JS.parseInt (h_left handle) in
  let hy := JS.parseInt (h_top handle) in
  mkHandle (className handle)
           (NumberText.assignPx (JS.add hx dx) (h_left handle))
           (NumberText.assignPx (JS.add hy dy) (h_top handle)).

(** [isDraggingNote ? draggedNote : Array.from(selectedNotes)[0]]; the
    note it refers to, if it is not null or undefined. *)
Definition currentDraggedNote (s : State) : option Note :=
  match (if isDraggingNote s then draggedNote s else hd_error (selectedNotes s)) with
  | Some id => lookup id (notes s)
  | None => None
  end.

Definition onMouseMoveDrag (e : MouseEvent) (s : State) : State :=
  if isDraggingGroup s || isDraggingNote s then
    let dx := JS.sub (JS.of_Z (clientX e)) (JS.of_Z (startX s)) in
    let dy := JS.sub (JS.of_Z (clientY e)) (JS.of_Z (startY s)) in
    let tempDisableSnap := altKey e in
    let s := set_snapDisabledClasses tempDisableSnap s in
    let s :=
      match alignmentSystem s, snapEnabled s && negb tempDisableSnap,
            currentDraggedNote s with
      | Some engine, true, Some dragged =>
          let currentX := JS.add (JS.parseInt (styleLeft dragged)) dx in
          let currentY := JS.add (JS.parseInt (styleTop dragged)) dy in
          let allNotes := canvasNotes s in
          let '(snapResult, engine) :=
            AlignmentSystem.calculateSnap engine (el dragged) allNotes
              currentX currentY in
          let s := set_alignmentSystem (Some engine) s in
          let s := set_notes (forEachNote (moveSnapped dx dy snapResult)
                                (selectedNotes s) (notes s)) s in
          let '(counter, l) :=
            fold_left ensureZIndex (selectedNotes s)
                      (noteZIndexCounter s, notes s) in
          set_notes l (set_noteZIndexCounter counter s)
      | engine, _, _ =>
          let s := set_notes (forEachNote (moveFree dx dy)
                                (selectedNotes s) (notes s)) s in
          match engine with
          | Some engine =>
              if tempDisableSnap || negb (snapEnabled s)
              then set_alignmentSystem
                     (Some (AlignmentSystem.clearGuides engine)) s
              else s
          | None => s
          end
      end in
    let s := match dragHandle s with
             | Some handle => set_dragHandle (Some (moveHandle dx dy handle)) s
             | None => s
             end in
    let s := match currentTool s, selectedNotes s with
             | move, _ :: _ => createResizeHandles (selectedNotes s) s
             | _, _ => s
             end in
    set_start (clientX e) (clientY e) s
  else s.

(** *** The toolbar buttons *)

Definition updateToolbarActiveStates (s : State) : State :=
  set_toolbarActive (isMove (currentTool s)) (snapEnabled s) s.

(** *** The tool mode *)

Definition updateCanvasClasses (s : State) : State :=
  let s := set_canvasMoveMode (isMove (currentTool s)) s in
  let editable := match currentTool s with
                  | default => "true"%string
                  | move => "false"%string
                  end in
  let s := set_notes
             (map (fun note => if attached note
                               then set_contentEditable editable note
                               else note)
                  (notes s)) s in
  if negb (isMove (currentTool s)) then clearResizeHandles s else s.

Definition setToolMode (mode : ToolMode) (s : State) : State :=
  let s := set_currentTool mode s in
  let s := updateCanvasClasses s in
  updateToolbarActiveStates s.

(** [$('moveTool').onclick] *)
Definition toggleMoveTool (s : State) : State :=
  let newTool := match currentTool s with
                 | move => default
                 | default => move
                 end in
  setToolMode newTool s.

Definition withEngine (f : AlignmentSystem.t -> AlignmentSystem.t)
    (s : State) : State :=
  match alignmentSystem s with
  | Some engine => set_alignmentSystem (Some (f engine)) s
  | None => s
  end.

(** [$('snapToggle').onclick] *)
Definition onSnapToggleClick (s : State) : State :=
  let s := set_snapEnabled (negb (snapEnabled s)) s in
  let s := withEngine (AlignmentSystem.setEnabled (snapEnabled s)) s in
  let s := updateToolbarActiveStates s in
  if negb (snapEnabled s) then withEngine AlignmentSystem.clearGuides s else s.

End App.

(* ================================================================== *)
(** ** Notions used to state what the handlers do *)
(* ================================================================== *)

(** [set.has(note)] *)
Definition member (set : list positive) (note : App.Note) : bool :=
  existsb (Pos.eqb (App.nodeOf note)) set.

(** The position of a note as the handlers read it. *)
Definition parsedLeft (note : App.Note) : JS.number :=
  JS.parseInt (App.styleLeft note).

Definition parsedTop (note : App.Note) : JS.number :=
  JS.parseInt (App.styleTop note).

(** What a written coordinate reads back as: [v] cut to an integer, or
    the old coordinate when [v] is [NaN] and the assignment is
    dropped. *)
Definition written (v old : JS.number) : JS.number :=
  if JS.isNaN v then old else Math.trunc v.

(** [n'] is the element [n], apart from its inline position and
    z-index. *)
Definition sameElement (n n' : App.Note) : Prop :=
  App.nodeOf n' = App.nodeOf n
  /\ HTMLDivElement.id (App.el n') = HTMLDivElement.id (App.el n)
  /\ HTMLDivElement.offsetWidth (App.el n')
     = HTMLDivElement.offsetWidth (App.el n)
  /\ HTMLDivElement.offsetHeight (App.el n')
     = HTMLDivElement.offsetHeight (App.el n)
  /\ App.attached n' = App.attached n
  /\ App.contentEditable n' = App.contentEditable n.

(** The [mousemove] listener fired for each event of [es] in turn. *)
Definition drag (es : list App.MouseEvent) (s : App.State) : App.State :=
  fold_left (fun s e => App.onMouseMoveDrag e s) es s.

(** A horizontal mouse path starting at [x0] that never advances by
    more than [step] pixels between two events, Alt not held. *)
Fixpoint slowPath (step x0 : Z) (es : list App.MouseEvent) : Prop :=
  match es with
  | [] => True
  | e :: es' =>
      (Z.abs (App.clientX e - x0) <= step)%Z
      /\ App.altKey e = false
      /\ slowPath step (App.clientX e) es'
  end.

(** Note [id] is being dragged on its own with snapping on, and its left
    edge reads [L], which is also the left edge of [c], the first of the
    other notes of the canvas. *)
Definition heldAt (id : positive) (L : Z) (c : HTMLDivElement.t)
    (s : App.State) : Prop :=
  App.isDraggingNote s = true
  /\ App.draggedNote s = Some id
  /\ App.selectedNotes s = [id]
  /\ App.snapEnabled s = true
  /\ (exists engine,
        App.alignmentSystem s = Some engine
        /\ AlignmentSystem.enabled engine = true
        /\ AlignmentSystem.snapThreshold engine = JS.of_Z 4)
  /\ (exists dn rest,
        App.lookup id (App.notes s) = Some dn
        /\ filter (fun n => negb (HTMLDivElement.same n (App.el dn)))
                  (App.canvasNotes s) = c :: rest
        /\ parsedLeft dn = JS.of_Z L)
  /\ NoteBounds.left (AlignmentSystem.targetBoundsOf c) = JS.of_Z L.

(** [n'] is on the canvas, and editable, exactly as [n] is. *)
Definition kept (n n' : App.Note) : Prop :=
  App.attached n' = App.attached n
  /\ App.contentEditable n' = App.contentEditable n.

(** The characters of a string. *)
Fixpoint inString (c : ascii) (s : string) : Prop :=
  match s with
  | EmptyString => False
  | String d r => c = d \/ inString c r
  end.

(** [contentEditable] of the notes of the canvas under a tool. *)
Definition editableIn (tool : App.ToolMode) : string :=
  match tool with
  | App.default => "true"
  | App.move => "false"
  end.

(** What the page shows agrees with the tool and the snap toggle: the
    classes of the canvas and of the two buttons, the editability of the
    notes of the canvas, and no resize handles outside move mode. *)
Definition toolConsistent (s : App.State) : Prop :=
  App.canvasMoveMode s = App.isMove (App.currentTool s)
  /\ App.moveToolActive s = App.isMove (App.currentTool s)
  /\ App.snapToggleActive s = App.snapEnabled s
  /\ (App.currentTool s = App.default -> App.resizeHandles s = [])
  /\ Forall (fun n => App.attached n = true ->
                      App.contentEditable n = editableIn (App.currentTool s))
            (App.notes s).

(** The snap toggle and the engine agree on whether snapping is on. *)
Definition flagsAgree (s : App.State) : Prop :=
  forall engine,
    App.alignmentSystem s = Some engine ->
    AlignmentSystem.enabled engine = App.snapEnabled s.

(** What the user does: a click on the snap toggle or on the move
    tool, or a mouse move. *)
Inductive Input : Type :=
| Click
| ToggleTool
| Move (e : App.MouseEvent).

Definition handle (s : App.State) (i : Input) : App.State :=
  match i with
  | Click => App.onSnapToggleClick s
  | ToggleTool => App.toggleMoveTool s
  | Move e => App.onMouseMoveDrag e s
  end.

Definition run (inputs : list Input) (s : App.State) : App.State :=
  fold_left handle inputs s.

(** The inline position of a handle reads [(x, y)]. *)
Definition handleAt (h : App.Handle) (x y : Z) : Prop :=
  JS.parseInt (App.h_left h) = JS.of_Z x
  /\ JS.parseInt (App.h_top h) = JS.of_Z y.

(** States used in the examples: note-d (80 x 40, at 100, 200) is being
    dragged in move mode, note-a (at 100, 50) and note-e (at 400, 203)
    stand still. *)
Module Desk.

Definition noteA : App.Note :=
  App.mkNote Scenario.neighbor "101" true "false".

Definition noteD : App.Note :=
  App.mkNote
    (HTMLDivElement.mk 2 "note-d" (CSSStyle.mk "100px" "200px") 80 40)
    EmptyString true "false".

Definition noteE : App.Note :=
  App.mkNote Scenario.below "102" true "false".

Definition dragging : App.State :=
  App.mkState [noteA; noteD; noteE] [2%positive] 300 300 false None App.move
    true (Some 2%positive) [] (Some Scenario.engine) 102 true false false
    true true true.

Definition event (x y : Z) (alt : bool) : App.MouseEvent :=
  App.mkEvent x y alt.

End Desk.

(* ================================================================== *)
(** ** [parseInt] on inline positions *)
(* ================================================================== *)

Example parseInt_px : JS.parseInt "103px" = JS.of_Z 103.
Proof. reflexivity. Qed.

Example parseInt_empty : JS.parseInt EmptyString = JS.NaN.
Proof. reflexivity. Qed.

Example parseInt_auto : JS.parseInt "auto" = JS.NaN.
Proof. reflexivity. Qed.

Example parseInt_negative : JS.parseInt " -12.5px" = JS.of_Z (-12).
Proof. reflexivity. Qed.

Example parseInt_hex : JS.parseInt "0x1f" = JS.of_Z 31.
Proof. reflexivity. Qed.

Example parseInt_or_zero : JS.or (JS.parseInt EmptyString) (JS.of_Z 0) = JS.of_Z 0.
Proof. reflexivity. Qed.

(* ================================================================== *)
(** ** Arithmetic of the number model *)
(* ================================================================== *)

#[global] Arguments Qred : simpl never.
#[global] Arguments Qabs : simpl never.
#[global] Arguments Qle_bool : simpl never.
#[global] Arguments Qeq_bool : simpl never.
#[global] Arguments Qplus : simpl never.
#[global] Arguments Qminus : simpl never.
#[global] Arguments Qdiv : simpl never.

Section Numbers.

Lemma Qred_eq (p q : Q) : p == q -> Qred p = Qred q.
Proof. apply Qred_complete. Qed.

Lemma sub_self (q : Q) : JS.sub (JS.Num q) (JS.Num q) = JS.of_Z 0.
Proof.
  unfold JS.sub, JS.of_Z. f_equal.
  change (inject_Z 0) with (Qred 0). apply Qred_eq. ring.
Qed.

Lemma sub_same (a : JS.number) :
  JS.sub a a = if JS.isNaN a then JS.NaN else JS.of_Z 0.
Proof. destruct a; simpl; [apply sub_self | reflexivity]. Qed.

(** [(a - b) - c = a - (c + b)] *)
Lemma sub_sub_add (a b c : JS.number) :
  JS.sub (JS.sub a b) c = JS.sub a (JS.add c b).
Proof.
  destruct a as [p|], b as [q|], c as [r|]; simpl; try reflexivity.
  f_equal. apply Qred_eq. rewrite !Qred_correct. ring.
Qed.

Lemma sub_eqb (a b : JS.number) :
  JS.eqb a b = true -> JS.sub a b = JS.of_Z 0 /\ JS.sub b a = JS.of_Z 0.
Proof.
  destruct a as [p|], b as [q|]; cbn [JS.eqb]; try discriminate.
  intros Heq. apply Qeq_bool_iff in Heq.
  unfold JS.sub, JS.of_Z. change (inject_Z 0) with (Qred 0).
  split; f_equal; apply Qred_eq; rewrite Heq; ring.
Qed.

Lemma eqb_le (a b : JS.number) : JS.eqb a b = true -> JS.le a b = true.
Proof.
  destruct a as [p|], b as [q|]; cbn [JS.eqb JS.le]; try discriminate.
  intros Heq. apply Qeq_bool_iff in Heq. apply Qle_bool_iff.
  rewrite Heq. apply Qle_refl.
Qed.

Lemma eqb_succ_le (a b : JS.number) :
  JS.eqb a (JS.add b (JS.of_Z 1)) = true -> JS.le a b = false.
Proof.
  destruct a as [p|], b as [q|]; cbn [JS.eqb JS.le JS.add JS.of_Z];
    try discriminate.
  intros Heq. apply Qeq_bool_iff in Heq. rewrite Qred_correct in Heq.
  destruct (Qle_bool p q) eqn:Hle; [|reflexivity].
  apply Qle_bool_iff in Hle. rewrite Heq in Hle.
  exfalso. apply (Qlt_irrefl q).
  apply Qlt_le_trans with (q + inject_Z 1); [|exact Hle].
  rewrite <- (Qplus_0_r q) at 1. apply Qplus_lt_r. reflexivity.
Qed.

Lemma le_Num (a b : JS.number) :
  JS.le a b = true -> JS.isNaN a = false /\ JS.isNaN b = false.
Proof. destruct a, b; simpl; intros H; try discriminate; auto. Qed.

Lemma abs_sub_Num (a b : JS.number) :
  JS.isNaN (JS.abs (JS.sub a b)) = false ->
  JS.isNaN a = false /\ JS.isNaN b = false.
Proof. destruct a, b; simpl; intros H; try discriminate; auto. Qed.

Lemma near_Num (thr a b : JS.number) :
  AlignmentSystem.near thr a b = true ->
  JS.isNaN a = false /\ JS.isNaN b = false.
Proof.
  unfold AlignmentSystem.near. intros H.
  apply le_Num in H. destruct H as [H _]. now apply abs_sub_Num.
Qed.



Lemma half_Num (z : Z) : JS.isNaN (JS.div (JS.of_Z z) (JS.of_Z 2)) = false.
Proof. reflexivity. Qed.


End Numbers.

(* ================================================================== *)
(** ** The scan of [calculateSnap], one axis at a time *)
(* ================================================================== *)

Section Scan.

Variable thr : JS.number.
Variable draggedNote : HTMLDivElement.t.
Variable d : NoteBounds.t.

Lemma filter_snoc (A : Type) (p : A -> bool) (l : list A) (x : A) :
  filter p (l ++ [x]) = if p x then filter p l ++ [x] else filter p l.
Proof.
  rewrite filter_app. simpl. destruct (p x); [reflexivity | apply app_nil_r].
Qed.

(** Case analysis on every threshold test of the goal, closing each
    branch by computation on the frame. *)
Ltac by_checks Hid :=
  repeat match goal with
         | |- context [JS.le ?a ?b] => destruct (JS.le a b)
         end;
  cbn -[filter]; rewrite ?filter_snoc, ?Hid; reflexivity.

Lemma checkVertical_view (t : NoteBounds.t) (note : HTMLDivElement.t)
    (f : AlignmentSystem.Frame) :
  NoteBounds.id t = HTMLDivElement.id note ->
  viewOf AlignmentGuide.vertical
         (AlignmentSystem.checkVertical thr d t note f)
  = settle AlignmentGuide.vertical d (viewOf AlignmentGuide.vertical f)
           (matchWith thr AlignmentGuide.vertical d t).
Proof.
  intros Hid.
  unfold AlignmentSystem.checkVertical, matchWith, Spec.firstCheck,
    Spec.checkOrder, Spec.isMatch, Spec.difference, AlignmentSystem.near,
    settle, Spec.guideOf, AlignmentSystem.guideAt, snapTarget.
  destruct f as [gs sx sy bx by_]. cbn -[filter].
  destruct bx; cbn -[filter]; [reflexivity | by_checks Hid].
Qed.

Lemma checkVertical_other (t : NoteBounds.t) (note : HTMLDivElement.t)
    (f : AlignmentSystem.Frame) :
  viewOf AlignmentGuide.horizontal
         (AlignmentSystem.checkVertical thr d t note f)
  = viewOf AlignmentGuide.horizontal f.
Proof.
  unfold AlignmentSystem.checkVertical, AlignmentSystem.near,
    AlignmentSystem.guideAt.
  destruct f as [gs sx sy bx by_]. cbn -[filter].
  destruct bx; cbn -[filter]; [reflexivity | by_checks (@eq_refl bool true)].
Qed.

Lemma checkHorizontal_view (t : NoteBounds.t) (note : HTMLDivElement.t)
    (f : AlignmentSystem.Frame) :
  NoteBounds.id t = HTMLDivElement.id note ->
  viewOf AlignmentGuide.horizontal
         (AlignmentSystem.checkHorizontal thr d t note f)
  = settle AlignmentGuide.horizontal d (viewOf AlignmentGuide.horizontal f)
           (matchWith thr AlignmentGuide.horizontal d t).
Proof.
  intros Hid.
  unfold AlignmentSystem.checkHorizontal, matchWith, Spec.firstCheck,
    Spec.checkOrder, Spec.isMatch, Spec.difference, AlignmentSystem.near,
    settle, Spec.guideOf, AlignmentSystem.guideAt, snapTarget.
  destruct f as [gs sx sy bx by_]. cbn -[filter].
  destruct by_; cbn -[filter]; [reflexivity | by_checks Hid].
Qed.

Lemma checkHorizontal_other (t : NoteBounds.t) (note : HTMLDivElement.t)
    (f : AlignmentSystem.Frame) :
  viewOf AlignmentGuide.vertical
         (AlignmentSystem.checkHorizontal thr d t note f)
  = viewOf AlignmentGuide.vertical f.
Proof.
  unfold AlignmentSystem.checkHorizontal, AlignmentSystem.near,
    AlignmentSystem.guideAt.
  destruct f as [gs sx sy bx by_]. cbn -[filter].
  destruct by_; cbn -[filter]; [reflexivity | by_checks (@eq_refl bool true)].
Qed.

Lemma targetBoundsOf_id (note : HTMLDivElement.t) :
  NoteBounds.id (AlignmentSystem.targetBoundsOf note) = HTMLDivElement.id note.
Proof. reflexivity. Qed.

(** One round of the callback on a note that is not the dragged one. *)
Lemma forEachNote_view (axis : AlignmentGuide.kind)
    (f : AlignmentSystem.Frame) (note : HTMLDivElement.t) :
  HTMLDivElement.same note draggedNote = false ->
  viewOf axis (AlignmentSystem.forEachNote thr draggedNote d f note)
  = settle axis d (viewOf axis f)
      (matchWith thr axis d (AlignmentSystem.targetBoundsOf note)).
Proof.
  intros Hne. unfold AlignmentSystem.forEachNote. rewrite Hne.
  destruct axis.
  - rewrite checkHorizontal_other.
    apply checkVertical_view, targetBoundsOf_id.
  - rewrite checkHorizontal_view by apply targetBoundsOf_id.
    rewrite checkVertical_other. reflexivity.
Qed.

Lemma forEachNote_dragged (f : AlignmentSystem.Frame) (note : HTMLDivElement.t) :
  HTMLDivElement.same note draggedNote = true ->
  AlignmentSystem.forEachNote thr draggedNote d f note = f.
Proof. intros He. unfold AlignmentSystem.forEachNote. now rewrite He. Qed.

Lemma settle_settle (axis : AlignmentGuide.kind) (v : AxisView)
    (t : NoteBounds.t) (rest : list NoteBounds.t) :
  settle axis d (settle axis d v (matchWith thr axis d t))
         (Spec.firstMatch thr axis d rest)
  = settle axis d v (Spec.firstMatch thr axis d (t :: rest)).
Proof.
  destruct v as [[b c] gs]. unfold matchWith. simpl.
  destruct b; simpl; [reflexivity|].
  destruct (Spec.firstCheck thr axis d t); reflexivity.
Qed.

(** The whole [forEach]: each axis ends up settled by the first match
    among the candidates. *)
Lemma forEach_view (axis : AlignmentGuide.kind)
    (allNotes : list HTMLDivElement.t) :
  forall f : AlignmentSystem.Frame,
    viewOf axis (fold_left (AlignmentSystem.forEachNote thr draggedNote d)
                           allNotes f)
    = settle axis d (viewOf axis f)
        (Spec.firstMatch thr axis d (candidatesOf draggedNote allNotes)).
Proof.
  induction allNotes as [|note rest IH]; intros f.
  - simpl. unfold settle. destruct (viewOf axis f) as [[b c] gs].
    destruct b; reflexivity.
  - cbn [fold_left]. rewrite IH. unfold candidatesOf. cbn [filter].
    destruct (HTMLDivElement.same note draggedNote) eqn:Hs; cbn [negb map].
    + rewrite forEachNote_dragged by assumption. reflexivity.
    + rewrite forEachNote_view by assumption. apply settle_settle.
Qed.

End Scan.

(* ================================================================== *)
(** ** The result and the final state of [calculateSnap] *)
(* ================================================================== *)

Lemma calculateSnap_disabled
    (this : AlignmentSystem.t) (draggedNote : HTMLDivElement.t)
    (allNotes : list HTMLDivElement.t) (currentX currentY : JS.number) :
  AlignmentSystem.enabled this = false ->
  AlignmentSystem.calculateSnap this draggedNote allNotes currentX currentY
  = (SnapResult.mk false (JS.of_Z 0) (JS.of_Z 0) [], this).
Proof.
  intros He. unfold AlignmentSystem.calculateSnap. now rewrite He.
Qed.

Lemma calculateSnap_enabled
    (this : AlignmentSystem.t) (draggedNote : HTMLDivElement.t)
    (allNotes : list HTMLDivElement.t) (currentX currentY : JS.number) :
  AlignmentSystem.enabled this = true ->
  let f := finalFrameOf this draggedNote allNotes currentX currentY in
  fst (AlignmentSystem.calculateSnap this draggedNote allNotes currentX currentY)
  = SnapResult.mk
      (AlignmentSystem.snappedX f || AlignmentSystem.snappedY f)
      (JS.sub (AlignmentSystem.snapX f) currentX)
      (JS.sub (AlignmentSystem.snapY f) currentY)
      (AlignmentSystem.f_guides f).
Proof.
  intros He f. unfold AlignmentSystem.calculateSnap. rewrite He.
  reflexivity.
Qed.

(** Where the [forEach] leaves an axis: settled by the first match among
    the candidates, or as it started. *)
Lemma finalFrame_view (axis : AlignmentGuide.kind)
    (this : AlignmentSystem.t) (draggedNote : HTMLDivElement.t)
    (allNotes : list HTMLDivElement.t) (currentX currentY : JS.number) :
  viewOf axis (finalFrameOf this draggedNote allNotes currentX currentY)
  = match matchOf axis this draggedNote allNotes currentX currentY with
    | Some m =>
        (true,
         snapTarget axis
           (AlignmentSystem.draggedBoundsOf draggedNote currentX currentY) m,
         [Spec.guideOf axis m])
    | None =>
        (false,
         match axis with
         | AlignmentGuide.vertical => currentX
         | AlignmentGuide.horizontal => currentY
         end,
         [])
    end.
Proof.
  unfold finalFrameOf, matchOf. rewrite forEach_view.
  destruct axis; destruct (Spec.firstMatch _ _ _ _); reflexivity.
Qed.

(** Every field of the result of an enabled call, axis by axis. *)
Lemma calculateSnap_axes
    (this : AlignmentSystem.t) (draggedNote : HTMLDivElement.t)
    (allNotes : list HTMLDivElement.t) (currentX currentY : JS.number) :
  AlignmentSystem.enabled this = true ->
  let r := fst (AlignmentSystem.calculateSnap this draggedNote allNotes
                  currentX currentY) in
  let d := AlignmentSystem.draggedBoundsOf draggedNote currentX currentY in
  let mV := matchOf AlignmentGuide.vertical this draggedNote allNotes
              currentX currentY in
  let mH := matchOf AlignmentGuide.horizontal this draggedNote allNotes
              currentX currentY in
  SnapResult.snapped r = Spec.found mV || Spec.found mH
  /\ SnapResult.deltaX r
     = JS.sub (match mV with
               | Some m => snapTarget AlignmentGuide.vertical d m
               | None => currentX
               end) currentX
  /\ SnapResult.deltaY r
     = JS.sub (match mH with
               | Some m => snapTarget AlignmentGuide.horizontal d m
               | None => currentY
               end) currentY
  /\ filter (onAxis AlignmentGuide.vertical) (SnapResult.guides r)
     = Spec.guidesOf AlignmentGuide.vertical mV
  /\ filter (onAxis AlignmentGuide.horizontal) (SnapResult.guides r)
     = Spec.guidesOf AlignmentGuide.horizontal mH.
Proof.
  intros He r d mV mH. unfold r.
  rewrite (calculateSnap_enabled this draggedNote allNotes currentX currentY He).
  cbn [SnapResult.snapped SnapResult.deltaX SnapResult.deltaY SnapResult.guides].
  pose proof (finalFrame_view AlignmentGuide.vertical this draggedNote
                allNotes currentX currentY) as HV.
  pose proof (finalFrame_view AlignmentGuide.horizontal this draggedNote
                allNotes currentX currentY) as HH.
  unfold viewOf in HV, HH. fold d mV in HV. fold d mH in HH.
  destruct mV as [mv|], mH as [mh|];
    injection HV as -> -> ->; injection HH as -> -> ->;
    repeat split; reflexivity.
Qed.

(* ================================================================== *)
(** ** First match wins *)
(* ================================================================== *)

Lemma firstMatch_skip (thr : JS.number) (axis : AlignmentGuide.kind)
    (d : NoteBounds.t) (pre : list NoteBounds.t) (c : NoteBounds.t)
    (k : Spec.Check) (rest : list NoteBounds.t) :
  Forall (fun p => Spec.firstCheck thr axis d p = None) pre ->
  Spec.firstCheck thr axis d c = Some k ->
  Spec.firstMatch thr axis d (pre ++ c :: rest) = Some (k, c).
Proof.
  intros Hpre Hc. induction Hpre as [|p pre Hp _ IH]; simpl.
  - now rewrite Hc.
  - now rewrite Hp.
Qed.

Lemma firstMatch_In (thr : JS.number) (axis : AlignmentGuide.kind)
    (d : NoteBounds.t) (cands : list NoteBounds.t) (m : Spec.Check * NoteBounds.t) :
  Spec.firstMatch thr axis d cands = Some m ->
  In (snd m) cands /\ Spec.firstCheck thr axis d (snd m) = Some (fst m).
Proof.
  induction cands as [|c rest IH]; simpl; [discriminate|].
  destruct (Spec.firstCheck thr axis d c) eqn:Hc.
  - intros [= <-]. simpl. auto.
  - intros Hm. destruct (IH Hm). auto.
Qed.

Lemma firstCheck_isMatch (thr : JS.number) (axis : AlignmentGuide.kind)
    (d t : NoteBounds.t) (k : Spec.Check) :
  Spec.firstCheck thr axis d t = Some k -> Spec.isMatch thr axis d t k = true.
Proof. unfold Spec.firstCheck. intros Hf. now apply find_some in Hf. Qed.

Lemma firstCheck_none (thr : JS.number) (axis : AlignmentGuide.kind)
    (d t : NoteBounds.t) :
  Spec.firstCheck thr axis d t = None ->
  forall k, Spec.isMatch thr axis d t k = false.
Proof.
  unfold Spec.firstCheck. intros Hf k.
  apply (find_none _ _ Hf). unfold Spec.checkOrder.
  destruct k; simpl; auto 6.
Qed.

Lemma calculateSnap_guides_on (axis : AlignmentGuide.kind)
    (this : AlignmentSystem.t) (draggedNote : HTMLDivElement.t)
    (allNotes : list HTMLDivElement.t) (currentX currentY : JS.number) :
  AlignmentSystem.enabled this = true ->
  filter (onAxis axis)
    (SnapResult.guides
       (fst (AlignmentSystem.calculateSnap this draggedNote allNotes
               currentX currentY)))
  = Spec.guidesOf axis (matchOf axis this draggedNote allNotes currentX currentY).
Proof.
  intros He.
  destruct (calculateSnap_axes this draggedNote allNotes currentX currentY He)
    as (_ & _ & _ & HV & HH).
  destruct axis; assumption.
Qed.

(** C1. With snapping enabled, the match of each axis is the first
    match in the sense of the specification: candidates (the notes other
    than the dragged one) in the supplied order, and within a candidate
    the checks in the fixed order start-to-start, end-to-end,
    start-to-end, end-to-start, center-to-center, with
    [<= snapThreshold] as the test.  That match determines both the
    guide of the axis and the coordinate the box is snapped to: the
    delta is the value the branch of that check assigns ([snapTarget]:
    the neighbor's edge for start-to-start and start-to-end, that edge
    minus the dragged size for end-to-end and end-to-start, the
    neighbor's center minus half the size for center-to-center) minus
    the requested coordinate.  In particular, once a candidate has a
    matching check and no candidate before it has one, guide and delta
    of the axis are that candidate's, whatever candidates follow and
    however close they are. *)
Theorem calculateSnap_first_match_wins
    (this : AlignmentSystem.t) (draggedNote : HTMLDivElement.t)
    (allNotes : list HTMLDivElement.t) (currentX currentY : JS.number) :
  AlignmentSystem.enabled this = true ->
  let r := fst (AlignmentSystem.calculateSnap this draggedNote allNotes
                  currentX currentY) in
  let d := AlignmentSystem.draggedBoundsOf draggedNote currentX currentY in
  let thr := AlignmentSystem.snapThreshold this in
  let cands := candidatesOf draggedNote allNotes in
  (forall axis,
      filter (onAxis axis) (SnapResult.guides r)
      = Spec.guidesOf axis (Spec.firstMatch thr axis d cands)
      /\ deltaOn axis r
         = JS.sub (match Spec.firstMatch thr axis d cands with
                   | Some m => snapTarget axis d m
                   | None => requested axis currentX currentY
                   end)
                  (requested axis currentX currentY))
  /\ (forall axis pre c k rest,
         cands = pre ++ c :: rest ->
         Forall (fun p => Spec.firstCheck thr axis d p = None) pre ->
         Spec.firstCheck thr axis d c = Some k ->
         filter (onAxis axis) (SnapResult.guides r)
         = [AlignmentGuide.mk axis (Spec.neighborCoord axis k c)
              (JS.of_Z 1) (NoteBounds.id c)]
         /\ deltaOn axis r
            = JS.sub (snapTarget axis d (k, c))
                     (requested axis currentX currentY)).
Proof.
  intros He r d thr cands.
  assert (Hall : forall axis,
      filter (onAxis axis) (SnapResult.guides r)
      = Spec.guidesOf axis (Spec.firstMatch thr axis d cands)
      /\ deltaOn axis r
         = JS.sub (match Spec.firstMatch thr axis d cands with
                   | Some m => snapTarget axis d m
                   | None => requested axis currentX currentY
                   end)
                  (requested axis currentX currentY)).
  { intros axis.
    destruct (calculateSnap_axes this draggedNote allNotes currentX currentY He)
      as (_ & HdX & HdY & HgV & HgH).
    unfold matchOf in HdX, HdY, HgV, HgH.
    fold r d thr cands in HdX, HdY, HgV, HgH.
    destruct axis; split; assumption. }
  split; [exact Hall|].
  intros axis pre c k rest Hc Hpre Hk.
  destruct (Hall axis) as [Hg Hd]. rewrite Hg, Hd, Hc.
  rewrite (firstMatch_skip thr axis d pre c k rest Hpre Hk).
  split; reflexivity.
Qed.

Lemma calculateSnap_first_match_wins_witness :
  let r := fst (AlignmentSystem.calculateSnap Scenario.engine Scenario.sliver
                  [Scenario.neighbor; Scenario.sliver; Scenario.closer]
                  (JS.of_Z 216) (JS.of_Z 300)) in
  filter (onAxis AlignmentGuide.vertical) (SnapResult.guides r)
  = [AlignmentGuide.mk AlignmentGuide.vertical (JS.of_Z 220) (JS.of_Z 1)
       "note-a"]
  /\ SnapResult.deltaX r = JS.of_Z 0.
Proof.
  exact (proj2
    (calculateSnap_first_match_wins Scenario.engine Scenario.sliver
       [Scenario.neighbor; Scenario.sliver; Scenario.closer]
       (JS.of_Z 216) (JS.of_Z 300) eq_refl)
    AlignmentGuide.vertical []
    (AlignmentSystem.targetBoundsOf Scenario.neighbor) Spec.EndToEnd
    [AlignmentSystem.targetBoundsOf Scenario.closer]
    eq_refl (Forall_nil _) eq_refl).
Defined.

(** The order of the checks on concrete notes: a box 4 pixels wide
    dragged to x = 216 has its right edge on note-a's right edge (220)
    and its left edge within 4 pixels of it; right-to-right is examined
    first, so the box stays at 216 and is not moved to 220. *)
Example right_to_right_before_left_to_right :
  let d := AlignmentSystem.draggedBoundsOf Scenario.sliver
             (JS.of_Z 216) (JS.of_Z 300) in
  let t := AlignmentSystem.targetBoundsOf Scenario.neighbor in
  let r := fst (AlignmentSystem.calculateSnap Scenario.engine Scenario.sliver
                  [Scenario.neighbor] (JS.of_Z 216) (JS.of_Z 300)) in
  AlignmentSystem.near (JS.of_Z 4) (NoteBounds.right d) (NoteBounds.right t)
  = true
  /\ AlignmentSystem.near (JS.of_Z 4) (NoteBounds.left d) (NoteBounds.right t)
     = true
  /\ SnapResult.deltaX r = JS.of_Z 0
  /\ SnapResult.deltaX r <> JS.of_Z 4.
Proof. vm_compute. repeat split; try reflexivity. discriminate. Qed.


(** The quirk on concrete notes: dragged to x = 103, note-a (left 100)
    and note-b (left 102) are both within 4 pixels; the guide is
    note-a's although note-b is closer, and note-b's once the order of
    the two is swapped. *)
Example first_match_not_closest :
  let call notes :=
    fst (AlignmentSystem.calculateSnap Scenario.engine Scenario.dragged notes
           (JS.of_Z 103) (JS.of_Z 200)) in
  SnapResult.guides (call [Scenario.neighbor; Scenario.closer])
  = [AlignmentGuide.mk AlignmentGuide.vertical (JS.of_Z 100) (JS.of_Z 1) "note-a"]
  /\ SnapResult.deltaX (call [Scenario.neighbor; Scenario.closer]) = JS.of_Z (-3)
  /\ SnapResult.guides (call [Scenario.closer; Scenario.neighbor])
     = [AlignmentGuide.mk AlignmentGuide.vertical (JS.of_Z 102) (JS.of_Z 1) "note-b"]
  /\ SnapResult.deltaX (call [Scenario.closer; Scenario.neighbor]) = JS.of_Z (-1).
Proof. vm_compute. repeat split; reflexivity. Qed.

(* ================================================================== *)
(** ** The snap correction *)
(* ================================================================== *)

(** What the code subtracts from [snapX] / [snapY] is the correction of
    the specification. *)
Lemma snapTarget_delta (axis : AlignmentGuide.kind)
    (draggedNote : HTMLDivElement.t) (currentX currentY : JS.number)
    (m : Spec.Check * NoteBounds.t) :
  let d := AlignmentSystem.draggedBoundsOf draggedNote currentX currentY in
  JS.sub (snapTarget axis d m)
         (match axis with
          | AlignmentGuide.vertical => currentX
          | AlignmentGuide.horizontal => currentY
          end)
  = Spec.delta axis d m.
Proof.
  destruct m as [k t]. unfold snapTarget, Spec.delta.
  destruct axis, k; cbn [fst snd Spec.draggedCoord Spec.neighborCoord
    Spec.startOf Spec.endOf Spec.centerOf AlignmentSystem.draggedBoundsOf
    NoteBounds.left NoteBounds.top NoteBounds.right NoteBounds.bottom
    NoteBounds.width NoteBounds.height NoteBounds.centerX NoteBounds.centerY];
    first [reflexivity | apply sub_sub_add].
Qed.



(** The deltas of an enabled call, by the first match of each axis. *)
Lemma delta_by_first_match
    (this : AlignmentSystem.t) (draggedNote : HTMLDivElement.t)
    (allNotes : list HTMLDivElement.t) (currentX currentY : JS.number) :
  AlignmentSystem.enabled this = true ->
  let r := fst (AlignmentSystem.calculateSnap this draggedNote allNotes
                  currentX currentY) in
  let d := AlignmentSystem.draggedBoundsOf draggedNote currentX currentY in
  let thr := AlignmentSystem.snapThreshold this in
  let cands := candidatesOf draggedNote allNotes in
  SnapResult.deltaX r
  = match Spec.firstMatch thr AlignmentGuide.vertical d cands with
    | Some m => Spec.delta AlignmentGuide.vertical d m
    | None => if JS.isNaN currentX then JS.NaN else JS.of_Z 0
    end
  /\ SnapResult.deltaY r
     = match Spec.firstMatch thr AlignmentGuide.horizontal d cands with
       | Some m => Spec.delta AlignmentGuide.horizontal d m
       | None => if JS.isNaN currentY then JS.NaN else JS.of_Z 0
       end.
Proof.
  intros He r d thr cands.
  destruct (calculateSnap_axes this draggedNote allNotes currentX currentY He)
    as (_ & HdX & HdY & _).
  unfold matchOf in HdX, HdY. fold d thr cands r in HdX, HdY.
  split.
  - rewrite HdX. destruct (Spec.firstMatch thr AlignmentGuide.vertical d cands).
    + apply (snapTarget_delta AlignmentGuide.vertical).
    + apply sub_same.
  - rewrite HdY.
    destruct (Spec.firstMatch thr AlignmentGuide.horizontal d cands).
    + apply (snapTarget_delta AlignmentGuide.horizontal).
    + apply sub_same.
Qed.

(** On the grid a coordinate is a number. *)
Lemma isPixel_Num (a : JS.number) : isPixel a = true -> JS.isNaN a = false.
Proof. destruct a; [reflexivity | discriminate]. Qed.

Lemma onScreen_Num (draggedNote : HTMLDivElement.t)
    (allNotes : list HTMLDivElement.t) (currentX currentY : JS.number) :
  onScreen draggedNote allNotes currentX currentY = true ->
  JS.isNaN currentX = false /\ JS.isNaN currentY = false.
Proof.
  unfold onScreen. intros H.
  apply andb_true_iff in H. destruct H as [H _].
  apply andb_true_iff in H. destruct H as [Hx Hy].
  split; now apply isPixel_Num.
Qed.

(** C2 (as amended).  With snapping enabled and the arguments on the
    pixel grid (whole or half pixels, where the engine's arithmetic is
    exact), on an axis whose first match is check [k] against neighbor
    [t] the delta is [t]'s matched coordinate minus the dragged box's
    matched coordinate, and on an axis with no match it is zero.  On or
    off the grid, the delta of an axis with no match is zero when the
    requested coordinate is a finite number and [NaN] when it is [NaN].
    If the dragged box's left edge equals the left edge of a neighbor
    and no candidate scanned before that neighbor has a vertical match,
    the call reports a vertical guide at that edge and [deltaX] is 0. *)
Theorem calculateSnap_delta
    (this : AlignmentSystem.t) (draggedNote : HTMLDivElement.t)
    (allNotes : list HTMLDivElement.t) (currentX currentY : JS.number) :
  AlignmentSystem.enabled this = true ->
  let r := fst (AlignmentSystem.calculateSnap this draggedNote allNotes
                  currentX currentY) in
  let d := AlignmentSystem.draggedBoundsOf draggedNote currentX currentY in
  let thr := AlignmentSystem.snapThreshold this in
  let cands := candidatesOf draggedNote allNotes in
  (onScreen draggedNote allNotes currentX currentY = true ->
   forall axis,
     deltaOn axis r
     = match Spec.firstMatch thr axis d cands with
       | Some m => Spec.delta axis d m
       | None => JS.of_Z 0
       end)
  /\ (forall axis,
        Spec.firstMatch thr axis d cands = None ->
        deltaOn axis r
        = if JS.isNaN (requested axis currentX currentY)
          then JS.NaN else JS.of_Z 0)
  /\ (forall pre c rest,
         cands = pre ++ c :: rest ->
         Forall (fun p => Spec.firstCheck thr AlignmentGuide.vertical d p = None)
                pre ->
         JS.eqb (NoteBounds.left d) (NoteBounds.left c) = true ->
         JS.le (JS.of_Z 0) thr = true ->
         SnapResult.snapped r = true
         /\ SnapResult.deltaX r = JS.of_Z 0
         /\ filter (onAxis AlignmentGuide.vertical) (SnapResult.guides r)
            = [AlignmentGuide.mk AlignmentGuide.vertical (NoteBounds.left c)
                 (JS.of_Z 1) (NoteBounds.id c)]).
Proof.
  intros He r d thr cands.
  destruct (calculateSnap_axes this draggedNote allNotes currentX currentY He)
    as (Hs & _ & _ & HgV & _).
  unfold matchOf in Hs, HgV. fold d thr cands r in Hs, HgV.
  destruct (delta_by_first_match this draggedNote allNotes currentX
              currentY He) as (HX & HY).
  fold d thr cands r in HX, HY.
  split; [|split].
  - intros Hon axis.
    destruct (onScreen_Num _ _ _ _ Hon) as [Hx Hy].
    destruct axis; cbn [deltaOn]; [rewrite HX, Hx | rewrite HY, Hy];
      reflexivity.
  - intros axis Hm.
    destruct axis; cbn [deltaOn requested]; [rewrite HX | rewrite HY];
      rewrite Hm; reflexivity.
  - intros pre c rest Hc Hpre Hleft Hthr.
    destruct (sub_eqb _ _ Hleft) as [Hdc Hcd].
    assert (Hk : Spec.firstCheck thr AlignmentGuide.vertical d c
                 = Some Spec.StartToStart).
    { unfold Spec.firstCheck, Spec.checkOrder, Spec.isMatch, Spec.difference.
      cbn [find Spec.draggedCoord Spec.neighborCoord Spec.startOf].
      rewrite Hdc. change (JS.abs (JS.of_Z 0)) with (JS.of_Z 0).
      now rewrite Hthr. }
    pose proof (firstMatch_skip thr AlignmentGuide.vertical d pre c
                  Spec.StartToStart rest Hpre Hk) as Hm.
    rewrite <- Hc in Hm.
    rewrite HX, Hs, HgV, Hm. unfold Spec.delta.
    cbn [fst snd Spec.draggedCoord Spec.neighborCoord Spec.startOf
         Spec.found Spec.guidesOf Spec.guideOf orb].
    rewrite Hcd. repeat split; reflexivity.
Qed.

Lemma calculateSnap_delta_witness :
  (let r := fst (AlignmentSystem.calculateSnap Scenario.engine Scenario.dragged
                   [Scenario.narrow] (JS.of_Z 106) (JS.of_Z 200)) in
   let d := AlignmentSystem.draggedBoundsOf Scenario.dragged
              (JS.of_Z 106) (JS.of_Z 200) in
   SnapResult.deltaX r
   = JS.sub (NoteBounds.right (AlignmentSystem.targetBoundsOf Scenario.narrow))
            (NoteBounds.right d))
  /\ (let r := fst (AlignmentSystem.calculateSnap Scenario.engine
                      Scenario.dragged [Scenario.closer; Scenario.neighbor]
                      (JS.of_Z 102) (JS.of_Z 200)) in
      SnapResult.snapped r = true
      /\ SnapResult.deltaX r = JS.of_Z 0
      /\ filter (onAxis AlignmentGuide.vertical) (SnapResult.guides r)
         = [AlignmentGuide.mk AlignmentGuide.vertical (JS.of_Z 102) (JS.of_Z 1)
              "note-b"]).
Proof.
  split.
  - exact (proj1
      (calculateSnap_delta Scenario.engine Scenario.dragged
         [Scenario.narrow] (JS.of_Z 106) (JS.of_Z 200) eq_refl)
      eq_refl AlignmentGuide.vertical).
  - exact (proj2 (proj2
      (calculateSnap_delta Scenario.engine Scenario.dragged
         [Scenario.closer; Scenario.neighbor] (JS.of_Z 102) (JS.of_Z 200)
         eq_refl))
      [] (AlignmentSystem.targetBoundsOf Scenario.closer)
      [AlignmentSystem.targetBoundsOf Scenario.neighbor]
      eq_refl (Forall_nil _) eq_refl eq_refl).
Defined.


(** The second sentence of C2 as stated fails: note-a's left edge is
    exactly the dragged box's (100), yet note-c, scanned first and two
    pixels to the left, takes the vertical match and [deltaX] is -2. *)
Lemma zero_delta_when_aligned_counterexample :
  let r := fst (AlignmentSystem.calculateSnap Scenario.engine Scenario.dragged
                  [Scenario.lefter; Scenario.neighbor]
                  (JS.of_Z 100) (JS.of_Z 200)) in
  JS.eqb
    (NoteBounds.left
       (AlignmentSystem.draggedBoundsOf Scenario.dragged (JS.of_Z 100) (JS.of_Z 200)))
    (NoteBounds.left (AlignmentSystem.targetBoundsOf Scenario.neighbor))
  = true
  /\ SnapResult.deltaX r = JS.of_Z (-2)
  /\ SnapResult.deltaX r <> JS.of_Z 0.
Proof.
  vm_compute. repeat split; try reflexivity. discriminate.
Qed.

(* ================================================================== *)
(** ** The end-to-end scenario *)
(* ================================================================== *)

(** C3. With snapping enabled and threshold 4, the neighbor at left 100,
    top 50, right 220, bottom 90 and the dragged box at left 103,
    top 200, right 183, bottom 240 give a left-to-left match on the
    x-axis with [deltaX = -3], no match on the y-axis with [deltaY = 0],
    and exactly one guide, vertical, at position 100, from the
    neighbor. *)
Theorem end_to_end_scenario (this : AlignmentSystem.t) :
  AlignmentSystem.snapThreshold this = JS.of_Z 4 ->
  AlignmentSystem.enabled this = true ->
  let x := JS.of_Z 103 in
  let y := JS.of_Z 200 in
  let n := AlignmentSystem.targetBoundsOf Scenario.neighbor in
  let d := AlignmentSystem.draggedBoundsOf Scenario.dragged x y in
  (NoteBounds.left n, NoteBounds.top n, NoteBounds.right n, NoteBounds.bottom n)
  = (JS.of_Z 100, JS.of_Z 50, JS.of_Z 220, JS.of_Z 90)
  /\ (NoteBounds.left d, NoteBounds.top d, NoteBounds.right d, NoteBounds.bottom d)
     = (JS.of_Z 103, JS.of_Z 200, JS.of_Z 183, JS.of_Z 240)
  /\ fst (AlignmentSystem.calculateSnap this Scenario.dragged
            [Scenario.neighbor] x y)
     = SnapResult.mk true (JS.of_Z (-3)) (JS.of_Z 0)
         [AlignmentGuide.mk AlignmentGuide.vertical (JS.of_Z 100) (JS.of_Z 1)
            (HTMLDivElement.id Scenario.neighbor)]
  /\ matchOf AlignmentGuide.vertical this Scenario.dragged
       [Scenario.neighbor] x y
     = Some (Spec.StartToStart, n)
  /\ matchOf AlignmentGuide.horizontal this Scenario.dragged
       [Scenario.neighbor] x y
     = None.
Proof.
  intros Hthr He x y n d.
  split; [reflexivity|]. split; [reflexivity|].
  unfold matchOf, AlignmentSystem.calculateSnap. rewrite He, Hthr.
  cbn [negb]. repeat split; vm_compute; reflexivity.
Qed.

Lemma end_to_end_scenario_witness :
  fst (AlignmentSystem.calculateSnap Scenario.engine Scenario.dragged
         [Scenario.neighbor] (JS.of_Z 103) (JS.of_Z 200))
  = SnapResult.mk true (JS.of_Z (-3)) (JS.of_Z 0)
      [AlignmentGuide.mk AlignmentGuide.vertical (JS.of_Z 100) (JS.of_Z 1)
         "note-a"].
Proof.
  exact (proj1 (proj2 (proj2
    (end_to_end_scenario Scenario.engine eq_refl eq_refl)))).
Defined.

(* ================================================================== *)
(** ** The threshold is inclusive *)
(* ================================================================== *)

Lemma firstMatch_found (thr : JS.number) (axis : AlignmentGuide.kind)
    (d : NoteBounds.t) (cands : list NoteBounds.t) (c : NoteBounds.t)
    (k : Spec.Check) :
  In c cands ->
  Spec.isMatch thr axis d c k = true ->
  Spec.found (Spec.firstMatch thr axis d cands) = true.
Proof.
  intros Hin Hk. induction cands as [|p rest IH]; [contradiction|].
  simpl. destruct (Spec.firstCheck thr axis d p) eqn:Hp; [reflexivity|].
  destruct Hin as [-> | Hin]; [|now apply IH].
  rewrite (firstCheck_none thr axis d c Hp k) in Hk. discriminate.
Qed.

Lemma firstMatch_none (thr : JS.number) (axis : AlignmentGuide.kind)
    (d : NoteBounds.t) (cands : list NoteBounds.t) :
  (forall c k, In c cands -> Spec.isMatch thr axis d c k = false) ->
  Spec.firstMatch thr axis d cands = None.
Proof.
  induction cands as [|p rest IH]; intros Hno; [reflexivity|]. simpl.
  destruct (Spec.firstCheck thr axis d p) as [k|] eqn:Hp.
  - apply firstCheck_isMatch in Hp.
    rewrite (Hno p k (or_introl eq_refl)) in Hp. discriminate.
  - apply IH. intros c k Hin. apply Hno. now right.
Qed.

(** C4 (as amended).  With snapping enabled, as soon as some check of
    some candidate has a difference of exactly [snapThreshold], the call
    reports a match on that axis (one guide of that axis).  When the
    left edges differ by [snapThreshold + 1] the left-to-left check is
    not a match; the call reports no vertical match when moreover no
    other vertical check of a candidate is within the threshold. *)
Theorem threshold_is_inclusive
    (this : AlignmentSystem.t) (draggedNote : HTMLDivElement.t)
    (allNotes : list HTMLDivElement.t) (currentX currentY : JS.number) :
  AlignmentSystem.enabled this = true ->
  let r := fst (AlignmentSystem.calculateSnap this draggedNote allNotes
                  currentX currentY) in
  let d := AlignmentSystem.draggedBoundsOf draggedNote currentX currentY in
  let thr := AlignmentSystem.snapThreshold this in
  let cands := candidatesOf draggedNote allNotes in
  (forall axis c k,
      In c cands ->
      JS.eqb (Spec.difference axis k d c) thr = true ->
      Spec.found (Spec.firstMatch thr axis d cands) = true
      /\ SnapResult.snapped r = true
      /\ List.length (filter (onAxis axis) (SnapResult.guides r)) = 1%nat)
  /\ (forall c,
         JS.eqb (Spec.difference AlignmentGuide.vertical Spec.StartToStart d c)
                (JS.add thr (JS.of_Z 1)) = true ->
         Spec.isMatch thr AlignmentGuide.vertical d c Spec.StartToStart = false)
  /\ ((forall c k, In c cands ->
                   Spec.isMatch thr AlignmentGuide.vertical d c k = false) ->
      Spec.firstMatch thr AlignmentGuide.vertical d cands = None
      /\ filter (onAxis AlignmentGuide.vertical) (SnapResult.guides r) = []).
Proof.
  intros He r d thr cands.
  destruct (calculateSnap_axes this draggedNote allNotes currentX currentY He)
    as (Hs & _ & _ & HgV & HgH).
  unfold matchOf in Hs, HgV, HgH. fold d thr cands r in Hs, HgV, HgH.
  split; [|split].
  - intros axis c k Hin Hdiff.
    assert (Hf : Spec.found (Spec.firstMatch thr axis d cands) = true).
    { apply (firstMatch_found thr axis d cands c k Hin).
      unfold Spec.isMatch. now apply eqb_le. }
    split; [exact Hf|]. split.
    + rewrite Hs. destruct axis; rewrite Hf; [reflexivity | apply orb_true_r].
    + destruct axis.
      * rewrite HgV.
        destruct (Spec.firstMatch thr AlignmentGuide.vertical d cands);
          [reflexivity | discriminate].
      * rewrite HgH.
        destruct (Spec.firstMatch thr AlignmentGuide.horizontal d cands);
          [reflexivity | discriminate].
  - intros c Hc. unfold Spec.isMatch. now apply eqb_succ_le.
  - intros Hno.
    rewrite HgV, (firstMatch_none thr AlignmentGuide.vertical d cands Hno).
    split; reflexivity.
Qed.

Lemma threshold_is_inclusive_witness :
  let r := fst (AlignmentSystem.calculateSnap Scenario.engine Scenario.dragged
                  [Scenario.neighbor] (JS.of_Z 104) (JS.of_Z 200)) in
  SnapResult.snapped r = true
  /\ List.length (filter (onAxis AlignmentGuide.vertical) (SnapResult.guides r))
     = 1%nat.
Proof.
  exact (proj2 (proj1
    (threshold_is_inclusive Scenario.engine Scenario.dragged
       [Scenario.neighbor] (JS.of_Z 104) (JS.of_Z 200) eq_refl)
    AlignmentGuide.vertical
    (AlignmentSystem.targetBoundsOf Scenario.neighbor) Spec.StartToStart
    (or_introl eq_refl) eq_refl)).
Defined.

(** The second half of C4 as stated fails: the left edges of the
    dragged box (105) and of note-f (100) differ by 4 + 1 pixels, yet
    both right edges are at 185 and the call reports a vertical match,
    right-to-right. *)
Lemma threshold_plus_one_counterexample :
  let this := Scenario.engine in
  let d := AlignmentSystem.draggedBoundsOf Scenario.dragged
             (JS.of_Z 105) (JS.of_Z 200) in
  let r := fst (AlignmentSystem.calculateSnap this Scenario.dragged
                  [Scenario.narrow] (JS.of_Z 105) (JS.of_Z 200)) in
  JS.eqb (Spec.difference AlignmentGuide.vertical Spec.StartToStart d
            (AlignmentSystem.targetBoundsOf Scenario.narrow))
         (JS.add (AlignmentSystem.snapThreshold this) (JS.of_Z 1)) = true
  /\ SnapResult.snapped r = true
  /\ SnapResult.guides r
     = [AlignmentGuide.mk AlignmentGuide.vertical (JS.of_Z 185) (JS.of_Z 1)
          "note-f"].
Proof. vm_compute. repeat split; reflexivity. Qed.

(* ================================================================== *)
(** ** Disabled engine, no candidates *)
(* ================================================================== *)

(** C5 (as amended).  If [enabled] is false the call returns the no-op
    result for every input.  If the candidate sequence is empty (and
    the engine is enabled) it reports no snap and no guide, and each
    delta is zero when the requested coordinate is a number; a [NaN]
    coordinate gives a [NaN] delta. *)
Theorem calculateSnap_noop
    (this : AlignmentSystem.t) (draggedNote : HTMLDivElement.t)
    (allNotes : list HTMLDivElement.t) (currentX currentY : JS.number) :
  AlignmentSystem.enabled this = false \/ allNotes = [] ->
  fst (AlignmentSystem.calculateSnap this draggedNote allNotes
         currentX currentY)
  = SnapResult.mk false
      (if AlignmentSystem.enabled this && JS.isNaN currentX
       then JS.NaN else JS.of_Z 0)
      (if AlignmentSystem.enabled this && JS.isNaN currentY
       then JS.NaN else JS.of_Z 0)
      [].
Proof.
  intros [He | ->].
  - rewrite calculateSnap_disabled by assumption. now rewrite He.
  - unfold AlignmentSystem.calculateSnap.
    destruct (AlignmentSystem.enabled this); cbn [negb andb fst];
      [|reflexivity].
    cbn [fold_left AlignmentSystem.snappedX AlignmentSystem.snappedY
         AlignmentSystem.snapX AlignmentSystem.snapY AlignmentSystem.f_guides
         orb AlignmentSystem.set_guides AlignmentSystem.guides
         SnapResult.snapped].
    now rewrite !sub_same.
Qed.

Lemma calculateSnap_noop_witness :
  fst (AlignmentSystem.calculateSnap Scenario.disabledEngine Scenario.dragged
         [Scenario.neighbor] (JS.of_Z 100) (JS.of_Z 50))
  = SnapResult.mk false (JS.of_Z 0) (JS.of_Z 0) [].
Proof.
  exact (calculateSnap_noop Scenario.disabledEngine Scenario.dragged
           [Scenario.neighbor] (JS.of_Z 100) (JS.of_Z 50)
           (or_introl eq_refl)).
Defined.

(** C5 as stated fails for an enabled engine with no candidates when
    the requested left is [NaN] (the drag handler passes
    [parseInt(style.left) + dx]): [deltaX] is [NaN - NaN], not 0. *)
Lemma no_candidates_counterexample :
  let r := fst (AlignmentSystem.calculateSnap Scenario.engine Scenario.dragged
                  [] (JS.add (JS.parseInt EmptyString) (JS.of_Z 3)) (JS.of_Z 200)) in
  SnapResult.deltaX r = JS.NaN /\ SnapResult.deltaX r <> JS.of_Z 0.
Proof. vm_compute. split; [reflexivity | discriminate]. Qed.

(* ================================================================== *)
(** ** Effects of [calculateSnap] on the engine *)
(* ================================================================== *)

(** The engine a call leaves behind. *)
Lemma calculateSnap_state
    (this : AlignmentSystem.t) (draggedNote : HTMLDivElement.t)
    (allNotes : list HTMLDivElement.t) (currentX currentY : JS.number) :
  let call := AlignmentSystem.calculateSnap this draggedNote allNotes
                currentX currentY in
  let stored := AlignmentSystem.set_guides (SnapResult.guides (fst call)) this in
  snd call
  = (if AlignmentSystem.enabled this
     then if SnapResult.snapped (fst call)
          then AlignmentSystem.renderGuides stored
          else stored
     else this).
Proof.
  intros call stored. unfold stored, call, AlignmentSystem.calculateSnap.
  destruct (AlignmentSystem.enabled this); reflexivity.
Qed.

(** No method writes [snapThreshold]: it is 4 in every state of an
    engine, so the threshold hypotheses of the theorems above hold
    there. *)
Lemma reachable_snapThreshold (this : AlignmentSystem.t) :
  AlignmentSystem.reachable this ->
  AlignmentSystem.snapThreshold this = JS.of_Z 4.
Proof.
  induction 1 as [canvas ctx w h this Hnew | w h this _ IH | b this _ IH
                 | this _ IH | dn notes x y this _ IH].
  - injection Hnew as <-. reflexivity.
  - exact IH.
  - unfold AlignmentSystem.setEnabled. destruct b; exact IH.
  - exact IH.
  - rewrite calculateSnap_state.
    destruct (AlignmentSystem.enabled this);
      [destruct (SnapResult.snapped _)|]; exact IH.
Qed.

Example new_engine :
  AlignmentSystem.new (Canvas.mkCanvas 300 150) (Some Canvas.blank) 1280 720
  = Some Scenario.engine
  /\ AlignmentSystem.new (Canvas.mkCanvas 300 150) None 1280 720 = None.
Proof. split; reflexivity. Qed.


(* ================================================================== *)
(** ** Shape of the result *)
(* ================================================================== *)

Lemma guides_by_axis (l : list AlignmentGuide.t) :
  List.length l
  = (List.length (filter (onAxis AlignmentGuide.vertical) l)
     + List.length (filter (onAxis AlignmentGuide.horizontal) l))%nat.
Proof.
  induction l as [|g l IH]; [reflexivity|].
  cbn [filter onAxis]. unfold AlignmentGuide.isVertical,
    AlignmentGuide.isHorizontal.
  destruct (AlignmentGuide.type g); cbn [List.length]; rewrite IH; lia.
Qed.

Lemma guidesOf_length (axis : AlignmentGuide.kind)
    (m : option (Spec.Check * NoteBounds.t)) :
  List.length (Spec.guidesOf axis m) = if Spec.found m then 1%nat else 0%nat.
Proof. destruct m; reflexivity. Qed.

(** C7 (as amended).  The result carries one flag, [snapped], which is
    true exactly when some axis matched; which axis matched is read off
    the guides.  There is exactly one vertical guide when the vertical
    axis matched and none otherwise, likewise for the horizontal axis,
    and no other guide: zero, one or two entries, two when both axes
    matched (from the same neighbor or from two). *)
Theorem snap_result_shape
    (this : AlignmentSystem.t) (draggedNote : HTMLDivElement.t)
    (allNotes : list HTMLDivElement.t) (currentX currentY : JS.number) :
  let r := fst (AlignmentSystem.calculateSnap this draggedNote allNotes
                  currentX currentY) in
  let mV := matchOf AlignmentGuide.vertical this draggedNote allNotes
              currentX currentY in
  let mH := matchOf AlignmentGuide.horizontal this draggedNote allNotes
              currentX currentY in
  let nV := List.length (filter (onAxis AlignmentGuide.vertical)
                                (SnapResult.guides r)) in
  let nH := List.length (filter (onAxis AlignmentGuide.horizontal)
                                (SnapResult.guides r)) in
  nV = (if AlignmentSystem.enabled this && Spec.found mV then 1 else 0)%nat
  /\ nH = (if AlignmentSystem.enabled this && Spec.found mH then 1 else 0)%nat
  /\ List.length (SnapResult.guides r) = (nV + nH)%nat
  /\ (List.length (SnapResult.guides r) <= 2)%nat
  /\ SnapResult.snapped r = ((0 <? nV)%nat || (0 <? nH)%nat)
  /\ (AlignmentSystem.enabled this && Spec.found mV && Spec.found mH = true ->
      List.length (SnapResult.guides r) = 2%nat).
Proof.
  intros r mV mH nV nH.
  assert (Hlen : List.length (SnapResult.guides r) = (nV + nH)%nat)
    by apply guides_by_axis.
  destruct (AlignmentSystem.enabled this) eqn:He.
  - destruct (calculateSnap_axes this draggedNote allNotes currentX currentY He)
      as (Hs & _ & _ & HgV & HgH).
    fold r mV mH in Hs, HgV, HgH.
    assert (HnV : nV = if Spec.found mV then 1%nat else 0%nat).
    { unfold nV. rewrite HgV. apply guidesOf_length. }
    assert (HnH : nH = if Spec.found mH then 1%nat else 0%nat).
    { unfold nH. rewrite HgH. apply guidesOf_length. }
    cbn [andb]. rewrite Hlen, Hs, HnV, HnH.
    destruct (Spec.found mV), (Spec.found mH); cbn;
      repeat split; try lia; discriminate.
  - assert (Hr : r = SnapResult.mk false (JS.of_Z 0) (JS.of_Z 0) []).
    { unfold r. now rewrite calculateSnap_disabled. }
    unfold nV, nH in *. rewrite Hr. cbn.
    repeat split; try lia; discriminate.
Qed.

Lemma snap_result_shape_witness :
  List.length
    (SnapResult.guides
       (fst (AlignmentSystem.calculateSnap Scenario.engine Scenario.dragged
               [Scenario.neighbor; Scenario.below] (JS.of_Z 103) (JS.of_Z 200))))
  = 2%nat.
Proof.
  exact (proj2 (proj2 (proj2 (proj2 (proj2
    (snap_result_shape Scenario.engine Scenario.dragged
       [Scenario.neighbor; Scenario.below] (JS.of_Z 103) (JS.of_Z 200))))))
    eq_refl).
Defined.

(** C7 as stated fails on the flags: the result has the single flag
    [snapped].  It is true both for the end-to-end scenario, where only
    the vertical axis matched, and for the same notes with the box
    dragged to (500, 52), where only the horizontal axis matched. *)
Lemma per_axis_flags_counterexample :
  let call x y :=
    AlignmentSystem.calculateSnap Scenario.engine Scenario.dragged
      [Scenario.neighbor] (JS.of_Z x) (JS.of_Z y) in
  let found axis x y :=
    Spec.found (matchOf axis Scenario.engine Scenario.dragged
                  [Scenario.neighbor] (JS.of_Z x) (JS.of_Z y)) in
  (SnapResult.snapped (fst (call 103 200)) = true
   /\ SnapResult.snapped (fst (call 500 52)) = true
   /\ found AlignmentGuide.vertical 103 200 = true
   /\ found AlignmentGuide.horizontal 103 200 = false
   /\ found AlignmentGuide.vertical 500 52 = false
   /\ found AlignmentGuide.horizontal 500 52 = true)%Z.
Proof. vm_compute. repeat split; reflexivity. Qed.

(** Both axes in one call, from two neighbors: note-a gives the
    vertical guide, note-e the horizontal one. *)
Example independent_axes_two_neighbors :
  fst (AlignmentSystem.calculateSnap Scenario.engine Scenario.dragged
         [Scenario.neighbor; Scenario.below] (JS.of_Z 103) (JS.of_Z 200))
  = SnapResult.mk true (JS.of_Z (-3)) (JS.of_Z 3)
      [AlignmentGuide.mk AlignmentGuide.vertical (JS.of_Z 100) (JS.of_Z 1) "note-a";
       AlignmentGuide.mk AlignmentGuide.horizontal (JS.of_Z 203) (JS.of_Z 1) "note-e"].
Proof. vm_compute. reflexivity. Qed.

(* ================================================================== *)
(** ** Unparsed positions *)
(* ================================================================== *)

Lemma add_isNaN (a b : JS.number) :
  JS.isNaN (JS.add a b) = JS.isNaN a || JS.isNaN b.
Proof. destruct a, b; reflexivity. Qed.

Lemma draggedCoord_isNaN (axis : AlignmentGuide.kind) (k : Spec.Check)
    (draggedNote : HTMLDivElement.t) (currentX currentY : JS.number) :
  JS.isNaN (Spec.draggedCoord axis k
              (AlignmentSystem.draggedBoundsOf draggedNote currentX currentY))
  = JS.isNaN (match axis with
              | AlignmentGuide.vertical => currentX
              | AlignmentGuide.horizontal => currentY
              end).
Proof.
  destruct axis, k; cbn [Spec.draggedCoord Spec.startOf Spec.endOf
    Spec.centerOf AlignmentSystem.draggedBoundsOf NoteBounds.left
    NoteBounds.top NoteBounds.right NoteBounds.bottom NoteBounds.centerX
    NoteBounds.centerY]; rewrite ?add_isNaN, ?half_Num;
    cbn [JS.isNaN JS.of_Z]; rewrite ?orb_false_r; reflexivity.
Qed.

Lemma isMatch_Num (thr : JS.number) (axis : AlignmentGuide.kind)
    (d t : NoteBounds.t) (k : Spec.Check) :
  Spec.isMatch thr axis d t k = true ->
  JS.isNaN (Spec.draggedCoord axis k d) = false
  /\ JS.isNaN (Spec.neighborCoord axis k t) = false.
Proof. unfold Spec.isMatch, Spec.difference. apply near_Num. Qed.


Lemma guide_of_candidate
    (this : AlignmentSystem.t) (draggedNote : HTMLDivElement.t)
    (allNotes : list HTMLDivElement.t) (currentX currentY : JS.number)
    (g : AlignmentGuide.t) :
  In g (SnapResult.guides
          (fst (AlignmentSystem.calculateSnap this draggedNote allNotes
                  currentX currentY))) ->
  exists c k,
    In c (candidatesOf draggedNote allNotes)
    /\ g = AlignmentGuide.mk (AlignmentGuide.type g)
             (Spec.neighborCoord (AlignmentGuide.type g) k c)
             (JS.of_Z 1) (NoteBounds.id c).
Proof.
  intros Hin.
  destruct (AlignmentSystem.enabled this) eqn:He.
  - assert (Hax : In g (filter (onAxis (AlignmentGuide.type g))
                     (SnapResult.guides
                        (fst (AlignmentSystem.calculateSnap this draggedNote
                                allNotes currentX currentY))))).
    { apply filter_In. split; [exact Hin|].
      unfold onAxis, AlignmentGuide.isVertical, AlignmentGuide.isHorizontal.
      destruct (AlignmentGuide.type g); reflexivity. }
    rewrite (calculateSnap_guides_on (AlignmentGuide.type g) this draggedNote
               allNotes currentX currentY He) in Hax.
    unfold matchOf in Hax.
    destruct (Spec.firstMatch _ _ _ _) as [[k c]|] eqn:Hm; [|contradiction].
    destruct Hax as [<- | []].
    apply firstMatch_In in Hm. destruct Hm as [Hc _].
    exists c, k. split; [exact Hc | reflexivity].
  - rewrite calculateSnap_disabled in Hin by assumption. contradiction.
Qed.


Lemma targetBoundsOf_boxAt (note : HTMLDivElement.t) :
  AlignmentSystem.targetBoundsOf note
  = boxAt note
      (JS.or (JS.parseInt (CSSStyle.left (HTMLDivElement.style note)))
             (JS.of_Z 0))
      (JS.or (JS.parseInt (CSSStyle.top (HTMLDivElement.style note)))
             (JS.of_Z 0)).
Proof. reflexivity. Qed.




(** An unparsed position on concrete notes: note-g has no inline
    [left], [parseInt] gives [NaN] for it, and the box dragged to x = 2
    matches it left-to-left at coordinate 0. *)
Example unparsed_position_matches_at_zero :
  let r := fst (AlignmentSystem.calculateSnap Scenario.engine Scenario.dragged
                  [Scenario.unplaced] (JS.of_Z 2) (JS.of_Z 200)) in
  JS.parseInt (CSSStyle.left (HTMLDivElement.style Scenario.unplaced)) = JS.NaN
  /\ SnapResult.snapped r = true
  /\ SnapResult.deltaX r = JS.of_Z (-2)
  /\ SnapResult.guides r
     = [AlignmentGuide.mk AlignmentGuide.vertical (JS.of_Z 0) (JS.of_Z 1)
          (HTMLDivElement.id Scenario.unplaced)].
Proof. vm_compute. repeat split; reflexivity. Qed.

(* ================================================================== *)
(** ** [clearGuides] *)
(* ================================================================== *)

Lemma le_zero_add (z : Z) :
  JS.le (JS.of_Z z) (JS.add (JS.of_Z 0) (JS.of_Z z)) = true.
Proof.
  unfold JS.le, JS.add, JS.of_Z. apply Qle_bool_iff.
  rewrite Qred_correct, Qplus_0_l. apply Qle_refl.
Qed.

(** Clearing the rectangle of the whole canvas blanks the bitmap and
    leaves the rest of the context alone. *)
Lemma clearRect_canvas (cv : Canvas.HTMLCanvasElement) (c : Canvas.Context2D) :
  Canvas.clearRect cv (JS.of_Z 0) (JS.of_Z 0)
    (JS.of_Z (Canvas.width cv)) (JS.of_Z (Canvas.height cv)) c
  = Canvas.mkCtx (Canvas.state c) (Canvas.stack c) (Canvas.path c) [].
Proof.
  unfold Canvas.clearRect. rewrite !le_zero_add.
  change (JS.le (JS.of_Z 0) (JS.of_Z 0)) with true. reflexivity.
Qed.

Lemma clearGuides_eq (this : AlignmentSystem.t) :
  AlignmentSystem.clearGuides this
  = AlignmentSystem.mk (AlignmentSystem.snapThreshold this) []
      (AlignmentSystem.canvas this)
      (Canvas.mkCtx (Canvas.state (AlignmentSystem.ctx this))
                    (Canvas.stack (AlignmentSystem.ctx this))
                    (Canvas.path (AlignmentSystem.ctx this)) [])
      (AlignmentSystem.enabled this).
Proof.
  unfold AlignmentSystem.clearGuides, AlignmentSystem.set_ctx,
    AlignmentSystem.set_guides.
  cbn [AlignmentSystem.canvas AlignmentSystem.ctx AlignmentSystem.guides
       AlignmentSystem.snapThreshold AlignmentSystem.enabled].
  now rewrite clearRect_canvas.
Qed.

(** C9. After [clearGuides] the engine holds no guide and the overlay
    is blank, and a second [clearGuides] changes nothing:
    [clearGuides] composed with itself is [clearGuides]. *)
Theorem clearGuides_idempotent (this : AlignmentSystem.t) :
  AlignmentSystem.guides (AlignmentSystem.clearGuides this) = []
  /\ Canvas.bitmap (AlignmentSystem.ctx (AlignmentSystem.clearGuides this)) = []
  /\ AlignmentSystem.clearGuides (AlignmentSystem.clearGuides this)
     = AlignmentSystem.clearGuides this.
Proof.
  rewrite (clearGuides_eq (AlignmentSystem.clearGuides this)).
  rewrite (clearGuides_eq this). repeat split.
Qed.

(* ================================================================== *)
(** ** The dragged note among the candidates *)
(* ================================================================== *)

Lemma forEach_without_dragged (thr : JS.number)
    (draggedNote : HTMLDivElement.t) (d : NoteBounds.t)
    (allNotes : list HTMLDivElement.t) :
  forall f,
    fold_left (AlignmentSystem.forEachNote thr draggedNote d)
      (filter (fun note => negb (HTMLDivElement.same note draggedNote)) allNotes)
      f
    = fold_left (AlignmentSystem.forEachNote thr draggedNote d) allNotes f.
Proof.
  induction allNotes as [|note rest IH]; intros f; [reflexivity|].
  cbn [filter fold_left].
  destruct (HTMLDivElement.same note draggedNote) eqn:Hs; cbn [negb].
  - rewrite (forEachNote_dragged thr draggedNote d f note Hs). apply IH.
  - cbn [fold_left]. apply IH.
Qed.

(** C10. The dragged note is skipped when it appears among the notes
    passed to [calculateSnap]: the call returns what it returns without
    it (and leaves the engine in the same state), and every guide of the
    result is sourced from a note other than the dragged one, at one of
    that note's coordinates. *)
Theorem dragged_note_is_skipped
    (this : AlignmentSystem.t) (draggedNote : HTMLDivElement.t)
    (allNotes : list HTMLDivElement.t) (currentX currentY : JS.number) :
  let others :=
    filter (fun note => negb (HTMLDivElement.same note draggedNote)) allNotes in
  AlignmentSystem.calculateSnap this draggedNote allNotes currentX currentY
  = AlignmentSystem.calculateSnap this draggedNote others currentX currentY
  /\ forall g,
      In g (SnapResult.guides
              (fst (AlignmentSystem.calculateSnap this draggedNote allNotes
                      currentX currentY))) ->
      exists note k,
        In note allNotes
        /\ HTMLDivElement.same note draggedNote = false
        /\ AlignmentGuide.sourceId g = HTMLDivElement.id note
        /\ AlignmentGuide.position g
           = Spec.neighborCoord (AlignmentGuide.type g) k
               (AlignmentSystem.targetBoundsOf note).
Proof.
  intros others. split.
  - unfold AlignmentSystem.calculateSnap, others.
    now rewrite forEach_without_dragged.
  - intros g Hin.
    destruct (guide_of_candidate this draggedNote allNotes currentX currentY
                g Hin) as (c & k & Hc & Hg).
    unfold candidatesOf in Hc. apply in_map_iff in Hc.
    destruct Hc as (note & <- & Hnote). apply filter_In in Hnote.
    destruct Hnote as [Hnote Hs]. apply negb_true_iff in Hs.
    exists note, k. rewrite Hg.
    repeat split; try assumption; reflexivity.
Qed.

Lemma dragged_note_is_skipped_witness :
  let g := AlignmentGuide.mk AlignmentGuide.vertical (JS.of_Z 100) (JS.of_Z 1)
             "note-a" in
  exists note k,
    In note [Scenario.dragged; Scenario.neighbor]
    /\ HTMLDivElement.same note Scenario.dragged = false
    /\ AlignmentGuide.sourceId g = HTMLDivElement.id note
    /\ AlignmentGuide.position g
       = Spec.neighborCoord (AlignmentGuide.type g) k
           (AlignmentSystem.targetBoundsOf note).
Proof.
  exact (proj2
    (dragged_note_is_skipped Scenario.engine Scenario.dragged
       [Scenario.dragged; Scenario.neighbor] (JS.of_Z 103) (JS.of_Z 200))
    (AlignmentGuide.mk AlignmentGuide.vertical (JS.of_Z 100) (JS.of_Z 1)
       "note-a")
    (or_introl eq_refl)).
Defined.

(** The dragged note in the middle of the list, at the very position it
    is dragged to: the result is the one of the end-to-end scenario. *)
Example dragged_among_candidates :
  let own := HTMLDivElement.mk 2 "note-d" (CSSStyle.mk "103px" "200px") 80 40 in
  fst (AlignmentSystem.calculateSnap Scenario.engine own
         [own; Scenario.neighbor; own] (JS.of_Z 103) (JS.of_Z 200))
  = SnapResult.mk true (JS.of_Z (-3)) (JS.of_Z 0)
      [AlignmentGuide.mk AlignmentGuide.vertical (JS.of_Z 100) (JS.of_Z 1)
         "note-a"].
Proof. vm_compute. reflexivity. Qed.

(* ================================================================== *)
(** ** [renderGuides] and the overlay *)
(* ================================================================== *)

(** One round of [renderGuides]: the stroke is added, the path is the
    guide's, and [save] / [restore] put the drawing state back. *)
Lemma drawGuide_eq (cv : Canvas.HTMLCanvasElement) (c : Canvas.Context2D)
    (g : AlignmentGuide.t) :
  AlignmentSystem.drawGuide cv c g
  = Canvas.mkCtx (Canvas.state c) (Canvas.stack c) (guidePath cv g)
                 (Canvas.bitmap c ++ [guideStroke cv g]).
Proof.
  unfold AlignmentSystem.drawGuide, guideStroke, guidePath.
  destruct c as [st stk pth bmp].
  destruct (AlignmentGuide.type g); reflexivity.
Qed.

Lemma last_cons_default (A : Type) (x d : A) (l : list A) :
  last (x :: l) d = last l x.
Proof.
  revert x d. induction l as [|y l IH]; intros x d; [reflexivity|].
  change (last (x :: y :: l) d) with (last (y :: l) d).
  now rewrite !IH.
Qed.

Lemma drawGuides_eq (cv : Canvas.HTMLCanvasElement)
    (gs : list AlignmentGuide.t) :
  forall c : Canvas.Context2D,
    fold_left (AlignmentSystem.drawGuide cv) gs c
    = Canvas.mkCtx (Canvas.state c) (Canvas.stack c)
        (last (map (guidePath cv) gs) (Canvas.path c))
        (Canvas.bitmap c ++ map (guideStroke cv) gs).
Proof.
  induction gs as [|g gs IH]; intros c.
  - cbn [fold_left map last]. rewrite app_nil_r. now destruct c.
  - cbn [fold_left]. rewrite IH, drawGuide_eq.
    cbn [Canvas.state Canvas.stack Canvas.path Canvas.bitmap map].
    rewrite <- app_assoc, last_cons_default. reflexivity.
Qed.

(** [renderGuides] as one assignment to the context. *)
Lemma renderGuides_eq (this : AlignmentSystem.t) :
  AlignmentSystem.renderGuides this
  = AlignmentSystem.set_ctx
      (Canvas.mkCtx
         (Canvas.state (AlignmentSystem.ctx this))
         (Canvas.stack (AlignmentSystem.ctx this))
         (last (map (guidePath (AlignmentSystem.canvas this))
                    (AlignmentSystem.guides this))
               (Canvas.path (AlignmentSystem.ctx this)))
         (map (guideStroke (AlignmentSystem.canvas this))
              (AlignmentSystem.guides this)))
      this.
Proof.
  unfold AlignmentSystem.renderGuides.
  now rewrite drawGuides_eq, clearRect_canvas.
Qed.

(** X1. [renderGuides] erases the overlay and leaves exactly one stroke
    per stored guide, in the order of the guides: a vertical guide as a
    line from the top to the bottom of the canvas at its position, a
    horizontal one from the left to the right.  The drawing state and
    the save stack of the context are what they were before, and
    nothing but the context changes in the engine. *)
Theorem renderGuides_overlay (this : AlignmentSystem.t) :
  let after := AlignmentSystem.renderGuides this in
  Canvas.bitmap (AlignmentSystem.ctx after)
  = map (guideStroke (AlignmentSystem.canvas this)) (AlignmentSystem.guides this)
  /\ Canvas.state (AlignmentSystem.ctx after)
     = Canvas.state (AlignmentSystem.ctx this)
  /\ Canvas.stack (AlignmentSystem.ctx after)
     = Canvas.stack (AlignmentSystem.ctx this)
  /\ AlignmentSystem.set_ctx (AlignmentSystem.ctx this) after = this.
Proof.
  intros after. unfold after. rewrite renderGuides_eq.
  destruct this. repeat split.
Qed.

(** C6 (as amended).  A disabled call leaves the engine as it was.  An
    enabled call stores the guides it returns in the engine and, when an
    axis snapped, redraws the overlay itself, as [renderGuides] does:
    the bitmap is cleared and holds one dashed stroke per returned
    guide, in their order, the drawing state and the save stack are as
    before; when no axis snapped the context is not touched.  Neither
    [snapThreshold], [enabled] nor the canvas element changes. *)
Theorem calculateSnap_effects
    (this : AlignmentSystem.t) (draggedNote : HTMLDivElement.t)
    (allNotes : list HTMLDivElement.t) (currentX currentY : JS.number) :
  let call := AlignmentSystem.calculateSnap this draggedNote allNotes
                currentX currentY in
  let returned := SnapResult.guides (fst call) in
  let ctx := AlignmentSystem.ctx this in
  let redrawn :=
    Canvas.mkCtx (Canvas.state ctx) (Canvas.stack ctx)
      (last (map (guidePath (AlignmentSystem.canvas this)) returned)
            (Canvas.path ctx))
      (map (guideStroke (AlignmentSystem.canvas this)) returned) in
  snd call
  = (if AlignmentSystem.enabled this
     then AlignmentSystem.mk (AlignmentSystem.snapThreshold this) returned
            (AlignmentSystem.canvas this)
            (if SnapResult.snapped (fst call) then redrawn else ctx)
            true
     else this).
Proof.
  intros call returned ctx redrawn.
  pose proof (calculateSnap_state this draggedNote allNotes currentX currentY)
    as Hsnd.
  cbv zeta in Hsnd. fold call in Hsnd. rewrite Hsnd.
  destruct (AlignmentSystem.enabled this) eqn:He; [|reflexivity].
  destruct (SnapResult.snapped (fst call)).
  - rewrite renderGuides_eq. unfold redrawn, ctx, returned.
    destruct this. cbn in *. now rewrite He.
  - unfold ctx, returned. destruct this. cbn in *. now rewrite He.
Qed.

(** C6 as stated fails: in the end-to-end scenario the call replaces
    the engine's stored guides and strokes the guide on the overlay. *)
Lemma calculateSnap_effects_counterexample :
  let this' := snd (AlignmentSystem.calculateSnap Scenario.engine
                      Scenario.dragged [Scenario.neighbor]
                      (JS.of_Z 103) (JS.of_Z 200)) in
  AlignmentSystem.guides Scenario.engine = []
  /\ AlignmentSystem.guides this'
     = [AlignmentGuide.mk AlignmentGuide.vertical (JS.of_Z 100) (JS.of_Z 1)
          "note-a"]
  /\ Canvas.bitmap (AlignmentSystem.ctx Scenario.engine) = []
  /\ Canvas.bitmap (AlignmentSystem.ctx this')
     = [Canvas.Stroked
          [Canvas.MoveTo (JS.of_Z 100) (JS.of_Z 0);
           Canvas.LineTo (JS.of_Z 100) (JS.of_Z 720)]
          "rgba(255, 0, 100, 0.8)" (JS.of_Z 1) [JS.of_Z 5; JS.of_Z 5]]
  /\ this' <> Scenario.engine.
Proof.
  vm_compute. repeat split; try reflexivity. discriminate.
Qed.

(** A result that reports no snap carries no guide. *)
Lemma snap_result_flag
    (this : AlignmentSystem.t) (draggedNote : HTMLDivElement.t)
    (allNotes : list HTMLDivElement.t) (currentX currentY : JS.number) :
  let r := fst (AlignmentSystem.calculateSnap this draggedNote allNotes
                  currentX currentY) in
  SnapResult.snapped r = false -> SnapResult.guides r = [].
Proof.
  intros r Hs.
  destruct (AlignmentSystem.enabled this) eqn:He.
  - destruct (calculateSnap_axes this draggedNote allNotes currentX currentY He)
      as (Hsn & _ & _ & HgV & HgH).
    fold r in Hsn, HgV, HgH. rewrite Hs in Hsn. symmetry in Hsn.
    apply orb_false_iff in Hsn. destruct Hsn as [HV HH].
    pose proof (guides_by_axis (SnapResult.guides r)) as Hlen.
    rewrite HgV, HgH, !guidesOf_length, HV, HH in Hlen.
    now apply length_zero_iff_nil.
  - unfold r. now rewrite calculateSnap_disabled.
Qed.

(** X2. An enabled call stores the guides it returns.  When it snapped,
    the overlay shows those guides and nothing else; when it did not,
    the overlay is not touched: strokes of an earlier call stay on it
    although no guide is stored any more. *)
Theorem calculateSnap_overlay
    (this : AlignmentSystem.t) (draggedNote : HTMLDivElement.t)
    (allNotes : list HTMLDivElement.t) (currentX currentY : JS.number) :
  AlignmentSystem.enabled this = true ->
  let call := AlignmentSystem.calculateSnap this draggedNote allNotes
                currentX currentY in
  AlignmentSystem.guides (snd call) = SnapResult.guides (fst call)
  /\ (SnapResult.snapped (fst call) = true ->
      Canvas.bitmap (AlignmentSystem.ctx (snd call))
      = map (guideStroke (AlignmentSystem.canvas this))
            (SnapResult.guides (fst call)))
  /\ (SnapResult.snapped (fst call) = false ->
      SnapResult.guides (fst call) = []
      /\ AlignmentSystem.ctx (snd call) = AlignmentSystem.ctx this).
Proof.
  intros He call.
  pose proof (calculateSnap_state this draggedNote allNotes currentX currentY)
    as Hsnd. cbv zeta in Hsnd. fold call in Hsnd. rewrite He in Hsnd.
  destruct (SnapResult.snapped (fst call)) eqn:Hs; rewrite Hsnd.
  - rewrite renderGuides_eq. split; [reflexivity|].
    split; [reflexivity | discriminate].
  - split; [reflexivity|]. split; [discriminate|]. intros _.
    split; [|reflexivity].
    apply (snap_result_flag this draggedNote allNotes currentX currentY).
    exact Hs.
Qed.

Lemma calculateSnap_overlay_witness :
  AlignmentSystem.guides (snd Session.movedAway) = []
  /\ Canvas.bitmap (AlignmentSystem.ctx (snd Session.movedAway))
     = [guideStroke (Canvas.mkCanvas 1280 720)
          (AlignmentGuide.mk AlignmentGuide.vertical (JS.of_Z 100) (JS.of_Z 1)
             "note-a")].
Proof.
  destruct (calculateSnap_overlay Session.snappedEngine Scenario.dragged
              [Scenario.neighbor] (JS.of_Z 500) (JS.of_Z 400) eq_refl)
    as (Hg & _ & Hkeep).
  destruct (Hkeep eq_refl) as [Hnil Hctx].
  split.
  - exact (eq_trans Hg Hnil).
  - exact (f_equal Canvas.bitmap Hctx).
Defined.

(* ================================================================== *)
(** ** [setEnabled] *)
(* ================================================================== *)

(** The result of a call reads the engine's [enabled] flag and
    [snapThreshold] only. *)
Lemma calculateSnap_reads
    (this that : AlignmentSystem.t) (draggedNote : HTMLDivElement.t)
    (allNotes : list HTMLDivElement.t) (currentX currentY : JS.number) :
  AlignmentSystem.enabled this = AlignmentSystem.enabled that ->
  AlignmentSystem.snapThreshold this = AlignmentSystem.snapThreshold that ->
  fst (AlignmentSystem.calculateSnap this draggedNote allNotes currentX currentY)
  = fst (AlignmentSystem.calculateSnap that draggedNote allNotes currentX currentY).
Proof.
  intros He Ht. unfold AlignmentSystem.calculateSnap. rewrite He, Ht.
  destruct (AlignmentSystem.enabled that); reflexivity.
Qed.

(** X3. [setEnabled(false)] empties the stored guides and blanks the
    overlay; from then on every call returns the no-op result and
    leaves the engine as it is.  [setEnabled(true)] afterwards gives the
    calls the results they have on any enabled engine, without bringing
    the guides or the overlay back. *)
Theorem setEnabled_false_then_true
    (this : AlignmentSystem.t) (draggedNote : HTMLDivElement.t)
    (allNotes : list HTMLDivElement.t) (currentX currentY : JS.number) :
  let off := AlignmentSystem.setEnabled false this in
  let on := AlignmentSystem.setEnabled true off in
  AlignmentSystem.guides off = []
  /\ Canvas.bitmap (AlignmentSystem.ctx off) = []
  /\ AlignmentSystem.calculateSnap off draggedNote allNotes currentX currentY
     = (SnapResult.mk false (JS.of_Z 0) (JS.of_Z 0) [], off)
  /\ AlignmentSystem.guides on = []
  /\ Canvas.bitmap (AlignmentSystem.ctx on) = []
  /\ fst (AlignmentSystem.calculateSnap on draggedNote allNotes currentX currentY)
     = fst (AlignmentSystem.calculateSnap (AlignmentSystem.set_enabled true this)
              draggedNote allNotes currentX currentY).
Proof.
  intros off on.
  assert (Hoff : off = AlignmentSystem.mk (AlignmentSystem.snapThreshold this) []
                         (AlignmentSystem.canvas this)
                         (Canvas.mkCtx
                            (Canvas.state (AlignmentSystem.ctx this))
                            (Canvas.stack (AlignmentSystem.ctx this))
                            (Canvas.path (AlignmentSystem.ctx this)) [])
                         false).
  { unfold off, AlignmentSystem.setEnabled. cbn [negb].
    now rewrite clearGuides_eq. }
  split; [now rewrite Hoff|]. split; [now rewrite Hoff|].
  split; [apply calculateSnap_disabled; now rewrite Hoff|].
  split; [unfold on; now rewrite Hoff|].
  split; [unfold on; now rewrite Hoff|].
  apply calculateSnap_reads; unfold on; now rewrite Hoff.
Qed.

(* ================================================================== *)
(** ** Size and effect of the correction *)
(* ================================================================== *)

Lemma abs_sub_swap_le (a b thr : JS.number) :
  JS.le (JS.abs (JS.sub a b)) thr = true ->
  JS.le (JS.abs (JS.sub b a)) thr = true.
Proof.
  destruct a as [p|], b as [q|], thr as [t|];
    cbn [JS.sub JS.abs JS.le]; try discriminate.
  intros H. apply Qle_bool_iff in H. apply Qle_bool_iff.
  rewrite Qred_correct in *. now rewrite Qabs_Qminus.
Qed.

(** X4. With snapping enabled, a threshold that is not negative and
    the arguments on the pixel grid (whole or half pixels, where the
    engine's arithmetic is exact), neither delta exceeds the snap
    threshold in absolute value: snapping never moves the box by more
    than [snapThreshold] pixels on an axis. *)
Theorem delta_within_threshold
    (this : AlignmentSystem.t) (draggedNote : HTMLDivElement.t)
    (allNotes : list HTMLDivElement.t) (currentX currentY : JS.number) :
  AlignmentSystem.enabled this = true ->
  JS.le (JS.of_Z 0) (AlignmentSystem.snapThreshold this) = true ->
  onScreen draggedNote allNotes currentX currentY = true ->
  let r := fst (AlignmentSystem.calculateSnap this draggedNote allNotes
                  currentX currentY) in
  JS.le (JS.abs (SnapResult.deltaX r)) (AlignmentSystem.snapThreshold this) = true
  /\ JS.le (JS.abs (SnapResult.deltaY r)) (AlignmentSystem.snapThreshold this)
     = true.
Proof.
  intros He Hthr Hon r.
  destruct (onScreen_Num _ _ _ _ Hon) as [Hx Hy].
  destruct (delta_by_first_match this draggedNote allNotes currentX currentY He)
    as (HX & HY).
  fold r in HX, HY. rewrite HX, HY, Hx, Hy.
  split.
  - destruct (Spec.firstMatch _ AlignmentGuide.vertical _ _) as [m|] eqn:Hm;
      [|exact Hthr].
    apply firstMatch_In in Hm. destruct Hm as [_ Hk].
    apply firstCheck_isMatch in Hk. now apply abs_sub_swap_le.
  - destruct (Spec.firstMatch _ AlignmentGuide.horizontal _ _) as [m|] eqn:Hm;
      [|exact Hthr].
    apply firstMatch_In in Hm. destruct Hm as [_ Hk].
    apply firstCheck_isMatch in Hk. now apply abs_sub_swap_le.
Qed.

Lemma delta_within_threshold_witness :
  let r := fst (AlignmentSystem.calculateSnap Scenario.engine Scenario.dragged
                  [Scenario.neighbor; Scenario.below]
                  (JS.of_Z 103) (JS.of_Z 200)) in
  JS.le (JS.abs (SnapResult.deltaX r)) (JS.of_Z 4) = true
  /\ JS.le (JS.abs (SnapResult.deltaY r)) (JS.of_Z 4) = true.
Proof.
  exact (delta_within_threshold Scenario.engine Scenario.dragged
           [Scenario.neighbor; Scenario.below] (JS.of_Z 103) (JS.of_Z 200)
           eq_refl eq_refl eq_refl).
Defined.

Lemma land_start (a n : JS.number) :
  JS.isNaN a = false -> JS.isNaN n = false ->
  JS.eqb (JS.add a (JS.sub n a)) n = true.
Proof.
  destruct a as [p|], n as [q|]; cbn [JS.isNaN]; try discriminate.
  intros _ _. cbn [JS.sub JS.add JS.eqb]. apply Qeq_bool_iff.
  rewrite !Qred_correct. ring.
Qed.

Lemma land_offset (a o n : JS.number) :
  JS.isNaN a = false -> JS.isNaN o = false -> JS.isNaN n = false ->
  JS.eqb (JS.add (JS.add a (JS.sub n (JS.add a o))) o) n = true.
Proof.
  destruct a as [p|], o as [w|], n as [q|]; cbn [JS.isNaN]; try discriminate.
  intros _ _ _. cbn [JS.sub JS.add JS.eqb]. apply Qeq_bool_iff.
  rewrite !Qred_correct. ring.
Qed.

(** X5. With snapping enabled and the arguments on the pixel grid
    (whole or half pixels, where the engine's arithmetic is exact), once
    the deltas are added to the requested position the dragged box sits
    on the guide of each axis that matched: the coordinate of the box
    named by the matching check equals the neighbor's matched
    coordinate, which is the position of the guide. *)
Theorem snapped_box_on_guide
    (this : AlignmentSystem.t) (draggedNote : HTMLDivElement.t)
    (allNotes : list HTMLDivElement.t) (currentX currentY : JS.number)
    (axis : AlignmentGuide.kind) (m : Spec.Check * NoteBounds.t) :
  AlignmentSystem.enabled this = true ->
  onScreen draggedNote allNotes currentX currentY = true ->
  matchOf axis this draggedNote allNotes currentX currentY = Some m ->
  let r := fst (AlignmentSystem.calculateSnap this draggedNote allNotes
                  currentX currentY) in
  let moved := AlignmentSystem.draggedBoundsOf draggedNote
                 (JS.add currentX (SnapResult.deltaX r))
                 (JS.add currentY (SnapResult.deltaY r)) in
  let g := Spec.guideOf axis m in
  In g (SnapResult.guides r)
  /\ JS.eqb (Spec.draggedCoord axis (fst m) moved) (AlignmentGuide.position g)
     = true.
Proof.
  intros He _ Hm r moved g.
  split.
  - assert (Hin : In g (filter (onAxis axis) (SnapResult.guides r))).
    { unfold r, g.
      rewrite (calculateSnap_guides_on axis this draggedNote allNotes
                 currentX currentY He), Hm.
      left. reflexivity. }
    apply filter_In in Hin. tauto.
  - destruct (delta_by_first_match this draggedNote allNotes currentX currentY He)
      as (HX & HY).
    fold r in HX, HY. unfold matchOf in Hm.
    pose proof Hm as Hk. apply firstMatch_In in Hk. destruct Hk as [_ Hk].
    apply firstCheck_isMatch, isMatch_Num in Hk. destruct Hk as [Hd Hn].
    rewrite draggedCoord_isNaN in Hd.
    destruct m as [k t]. unfold moved, g, Spec.guideOf.
    cbn [fst snd AlignmentGuide.position] in *.
    destruct axis; [rewrite HX | rewrite HY]; rewrite Hm; unfold Spec.delta;
      destruct k;
      cbn [fst snd Spec.draggedCoord Spec.neighborCoord Spec.startOf
           Spec.endOf Spec.centerOf AlignmentSystem.draggedBoundsOf
           NoteBounds.left NoteBounds.top NoteBounds.right NoteBounds.bottom
           NoteBounds.centerX NoteBounds.centerY] in *;
      first [ apply land_start; assumption
            | apply land_offset; first [assumption | reflexivity] ].
Qed.

Lemma snapped_box_on_guide_witness :
  let r := fst (AlignmentSystem.calculateSnap Scenario.engine Scenario.dragged
                  [Scenario.narrow] (JS.of_Z 106) (JS.of_Z 200)) in
  let moved := AlignmentSystem.draggedBoundsOf Scenario.dragged
                 (JS.add (JS.of_Z 106) (SnapResult.deltaX r))
                 (JS.add (JS.of_Z 200) (SnapResult.deltaY r)) in
  In (AlignmentGuide.mk AlignmentGuide.vertical (JS.of_Z 185) (JS.of_Z 1)
        "note-f") (SnapResult.guides r)
  /\ JS.eqb (NoteBounds.right moved) (JS.of_Z 185) = true.
Proof.
  exact (snapped_box_on_guide Scenario.engine Scenario.dragged
           [Scenario.narrow] (JS.of_Z 106) (JS.of_Z 200)
           AlignmentGuide.vertical
           (Spec.EndToEnd, AlignmentSystem.targetBoundsOf Scenario.narrow)
           eq_refl eq_refl eq_refl).
Defined.

(* ================================================================== *)
(** ** Invariants of the engine *)
(* ================================================================== *)

Lemma calculateSnap_guides_count
    (this : AlignmentSystem.t) (draggedNote : HTMLDivElement.t)
    (allNotes : list HTMLDivElement.t) (currentX currentY : JS.number) :
  let gs := SnapResult.guides
              (fst (AlignmentSystem.calculateSnap this draggedNote allNotes
                      currentX currentY)) in
  (List.length (filter (onAxis AlignmentGuide.vertical) gs) <= 1)%nat
  /\ (List.length (filter (onAxis AlignmentGuide.horizontal) gs) <= 1)%nat
  /\ (List.length gs <= 2)%nat.
Proof.
  intros gs.
  assert (H : (List.length (filter (onAxis AlignmentGuide.vertical) gs) <= 1
               /\ List.length (filter (onAxis AlignmentGuide.horizontal) gs) <= 1)%nat).
  { destruct (AlignmentSystem.enabled this) eqn:He.
    - unfold gs.
      rewrite !(fun axis => calculateSnap_guides_on axis this draggedNote
                              allNotes currentX currentY He).
      rewrite !guidesOf_length.
      split; destruct (Spec.found _); lia.
    - unfold gs. rewrite calculateSnap_disabled by assumption.
      split; cbn; lia. }
  destruct H as [HV HH]. rewrite (guides_by_axis gs). lia.
Qed.

(** X6. In every state an engine can reach from its constructor through
    [resizeCanvas], [setEnabled], [clearGuides] and [calculateSnap]:
    the threshold is 4; at most one guide per axis is stored, so at
    most two; the overlay carries at most two marks; the context's
    drawing state and save stack are the initial ones; and a disabled
    engine stores no guide and shows none. *)
Theorem reachable_invariant (this : AlignmentSystem.t) :
  AlignmentSystem.reachable this -> EngineInvariant this.
Proof.
  unfold EngineInvariant.
  induction 1 as [canvas ctx w h this Hnew | w h this _ IH | b this _ IH
                 | this _ IH | dn notes x y this _ IH].
  - injection Hnew as <-. cbn. intuition (try lia; try discriminate).
  - destruct IH as (Ht & HV & HH & HG & _ & _ & _ & Hoff).
    cbn. intuition lia.
  - destruct IH as (Ht & HV & HH & HG & HB & Hst & Hstk & Hoff).
    unfold AlignmentSystem.setEnabled. destruct b; cbn [negb].
    + cbn. intuition discriminate.
    + rewrite clearGuides_eq. cbn. intuition lia.
  - destruct IH as (Ht & HV & HH & HG & HB & Hst & Hstk & Hoff).
    rewrite clearGuides_eq. cbn. intuition lia.
  - destruct IH as (Ht & HV & HH & HG & HB & Hst & Hstk & Hoff).
    pose proof (calculateSnap_guides_count this dn notes x y) as Hcount.
    cbv zeta in Hcount. destruct Hcount as (HcV & HcH & HcG).
    rewrite calculateSnap_state.
    destruct (AlignmentSystem.enabled this) eqn:He.
    + set (r := fst (AlignmentSystem.calculateSnap this dn notes x y)) in *.
      destruct (SnapResult.snapped r).
      * rewrite renderGuides_eq. cbn. rewrite length_map, He.
        intuition discriminate.
      * cbn. rewrite He. intuition discriminate.
    + rewrite He. intuition.
Qed.

Lemma reachable_invariant_witness : EngineInvariant Session.snappedEngine.
Proof.
  apply reachable_invariant.
  apply (AlignmentSystem.reach_calculateSnap Scenario.dragged
           [Scenario.neighbor] (JS.of_Z 103) (JS.of_Z 200)).
  apply (AlignmentSystem.reach_new (Canvas.mkCanvas 300 150) Canvas.blank
           1280 720).
  reflexivity.
Defined.

(* ================================================================== *)
(** ** When the order of the notes does not matter *)
(* ================================================================== *)

Lemma firstMatch_None_iff (thr : JS.number) (axis : AlignmentGuide.kind)
    (d : NoteBounds.t) (cands : list NoteBounds.t) :
  Spec.firstMatch thr axis d cands = None
  <-> forall c, In c cands -> Spec.firstCheck thr axis d c = None.
Proof.
  induction cands as [|p rest IH]; cbn [Spec.firstMatch].
  - split; [intros _ c [] | reflexivity].
  - destruct (Spec.firstCheck thr axis d p) eqn:Hp.
    + split; [discriminate|]. intros Hall.
      rewrite (Hall p (or_introl eq_refl)) in Hp. discriminate.
    + rewrite IH. split.
      * intros Hall c [<- | Hin]; [exact Hp | now apply Hall].
      * intros Hall c Hin. apply Hall. now right.
Qed.

(** With at most one matching candidate, the first match depends on the
    set of candidates only. *)
Lemma firstMatch_same_set (thr : JS.number) (axis : AlignmentGuide.kind)
    (d : NoteBounds.t) (l l' : list NoteBounds.t) :
  (forall c, In c l <-> In c l') ->
  (forall c1 c2, In c1 l -> In c2 l ->
                 Spec.firstCheck thr axis d c1 <> None ->
                 Spec.firstCheck thr axis d c2 <> None -> c1 = c2) ->
  Spec.firstMatch thr axis d l = Spec.firstMatch thr axis d l'.
Proof.
  intros Hset Huniq.
  destruct (Spec.firstMatch thr axis d l) as [[k c]|] eqn:Hl.
  - apply firstMatch_In in Hl. cbn [fst snd] in Hl. destruct Hl as [Hc Hk].
    destruct (Spec.firstMatch thr axis d l') as [[k' c']|] eqn:Hl'.
    + apply firstMatch_In in Hl'. cbn [fst snd] in Hl'.
      destruct Hl' as [Hc' Hk'].
      assert (c = c').
      { apply Huniq; try assumption; [now apply Hset | |]; congruence. }
      subst c'. congruence.
    + rewrite firstMatch_None_iff in Hl'.
      rewrite (Hl' c) in Hk by now apply Hset. discriminate.
  - symmetry. rewrite firstMatch_None_iff in *.
    intros c Hc. apply Hl. now apply Hset.
Qed.

Lemma candidatesOf_same_set (draggedNote : HTMLDivElement.t)
    (l l' : list HTMLDivElement.t) :
  (forall n, In n l <-> In n l') ->
  forall c, In c (candidatesOf draggedNote l) <-> In c (candidatesOf draggedNote l').
Proof.
  intros Hset c. unfold candidatesOf. rewrite !in_map_iff.
  split; intros (n & Hn & Hin); exists n; (split; [exact Hn|]);
    rewrite filter_In in *; destruct Hin as [Hin Hf]; split; try exact Hf;
    now apply Hset.
Qed.

(** X7. If at most one candidate has a matching check on an axis, the
    guide and the delta of that axis do not depend on the order of the
    notes passed to [calculateSnap], nor on how often each occurs. *)
Theorem single_match_any_order
    (this : AlignmentSystem.t) (draggedNote : HTMLDivElement.t)
    (allNotes allNotes' : list HTMLDivElement.t)
    (currentX currentY : JS.number) (axis : AlignmentGuide.kind) :
  AlignmentSystem.enabled this = true ->
  (forall n, In n allNotes <-> In n allNotes') ->
  let d := AlignmentSystem.draggedBoundsOf draggedNote currentX currentY in
  let thr := AlignmentSystem.snapThreshold this in
  (forall c1 c2,
      In c1 (candidatesOf draggedNote allNotes) ->
      In c2 (candidatesOf draggedNote allNotes) ->
      Spec.firstCheck thr axis d c1 <> None ->
      Spec.firstCheck thr axis d c2 <> None -> c1 = c2) ->
  let r := fst (AlignmentSystem.calculateSnap this draggedNote allNotes
                  currentX currentY) in
  let r' := fst (AlignmentSystem.calculateSnap this draggedNote allNotes'
                   currentX currentY) in
  filter (onAxis axis) (SnapResult.guides r)
  = filter (onAxis axis) (SnapResult.guides r')
  /\ match axis with
     | AlignmentGuide.vertical => SnapResult.deltaX r = SnapResult.deltaX r'
     | AlignmentGuide.horizontal => SnapResult.deltaY r = SnapResult.deltaY r'
     end.
Proof.
  intros He Hset d thr Huniq r r'.
  assert (Hm : Spec.firstMatch thr axis d (candidatesOf draggedNote allNotes)
               = Spec.firstMatch thr axis d (candidatesOf draggedNote allNotes')).
  { apply firstMatch_same_set; [|exact Huniq].
    now apply candidatesOf_same_set. }
  split.
  - unfold r, r'.
    rewrite !(fun notes => calculateSnap_guides_on axis this draggedNote
                             notes currentX currentY He).
    unfold matchOf. fold d thr. now rewrite Hm.
  - destruct (delta_by_first_match this draggedNote allNotes currentX
                currentY He) as (HX & HY).
    destruct (delta_by_first_match this draggedNote allNotes' currentX
                currentY He) as (HX' & HY').
    fold r d thr in HX, HY. fold r' d thr in HX', HY'.
    destruct axis; [rewrite HX, HX' | rewrite HY, HY']; now rewrite Hm.
Qed.

Lemma single_match_any_order_witness :
  let call notes :=
    fst (AlignmentSystem.calculateSnap Scenario.engine Scenario.dragged notes
           (JS.of_Z 103) (JS.of_Z 200)) in
  filter (onAxis AlignmentGuide.vertical)
         (SnapResult.guides (call [Scenario.neighbor; Scenario.below]))
  = filter (onAxis AlignmentGuide.vertical)
           (SnapResult.guides
              (call [Scenario.below; Scenario.neighbor; Scenario.below]))
  /\ SnapResult.deltaX (call [Scenario.neighbor; Scenario.below])
     = SnapResult.deltaX
         (call [Scenario.below; Scenario.neighbor; Scenario.below]).
Proof.
  apply (single_match_any_order Scenario.engine Scenario.dragged
           [Scenario.neighbor; Scenario.below]
           [Scenario.below; Scenario.neighbor; Scenario.below]
           (JS.of_Z 103) (JS.of_Z 200) AlignmentGuide.vertical eq_refl).
  - intros n. cbn [In]. tauto.
  - intros c1 c2 H1 H2 N1 N2.
    destruct H1 as [<- | [<- | []]]; destruct H2 as [<- | [<- | []]];
      try reflexivity; exfalso; first [now apply N1 | now apply N2].
Defined.

(* ================================================================== *)
(** ** Positions written as text and read back *)
(* ================================================================== *)

Lemma Qred_inject_Z (z : Z) : Qred (inject_Z z) = inject_Z z.
Proof.
  unfold Qred, inject_Z.
  pose proof (Z.ggcd_gcd z 1) as Hg.
  pose proof (Z.ggcd_correct_divisors z 1) as Hd.
  destruct (Z.ggcd z 1) as [g [aa bb]]. cbn [fst snd] in *.
  rewrite Z.gcd_1_r in Hg. subst g. destruct Hd as [Ha Hb].
  assert (Haa : aa = z) by lia. assert (Hbb : bb = 1%Z) by lia.
  clear Ha Hb. subst aa bb. reflexivity.
Qed.

Lemma Qred_to_Z (p : Q) (z : Z) : p == inject_Z z -> Qred p = inject_Z z.
Proof. intros H. rewrite (Qred_complete _ _ H). apply Qred_inject_Z. Qed.

Lemma add_of_Z (a b : Z) : JS.add (JS.of_Z a) (JS.of_Z b) = JS.of_Z (a + b).
Proof.
  unfold JS.add, JS.of_Z. f_equal. apply Qred_to_Z.
  rewrite inject_Z_plus. reflexivity.
Qed.

Lemma sub_of_Z (a b : Z) : JS.sub (JS.of_Z a) (JS.of_Z b) = JS.of_Z (a - b).
Proof.
  unfold JS.sub, JS.of_Z. f_equal. apply Qred_to_Z.
  unfold Z.sub. rewrite inject_Z_plus, inject_Z_opp. reflexivity.
Qed.

Lemma append_nil_r (s : string) : (s ++ "")%string = s.
Proof. induction s; cbn; [reflexivity | now f_equal]. Qed.

Lemma append_assoc (a b c : string) : ((a ++ b) ++ c = a ++ (b ++ c))%string.
Proof. induction a; cbn; [reflexivity | now f_equal]. Qed.

Lemma readDigits_step (c : ascii) (s : string) (acc : option Z) (d : Z) :
  JS.digitValue 10 c = Some d ->
  JS.readDigits 10 (String c s) acc
  = JS.readDigits 10 s
      (Some (match acc with Some a => a * 10 + d | None => d end)%Z).
Proof. intros H. cbn [JS.readDigits]. now rewrite H. Qed.

Ltac digit_value :=
  match goal with
  | |- context [(Z.of_nat (nat_of_ascii ?c) - 48)%Z] =>
      let v := eval vm_compute in (Z.of_nat (nat_of_ascii c) - 48)%Z in
      change (Z.of_nat (nat_of_ascii c) - 48)%Z with v
  end.

(** Reading the digits of a decimal numeral continues the accumulator
    the way the numeral's value is defined. *)
Lemma readDigits_acc (d : uint) : forall (p : positive) (rest : string),
  JS.readDigits 10 (NilEmpty.string_of_uint d ++ rest) (Some (Zpos p))
  = JS.readDigits 10 rest (Some (Zpos (Pos.of_uint_acc d p))).
Proof.
  induction d; intros p rest; cbn [NilEmpty.string_of_uint String.append];
    [reflexivity | ..];
    (erewrite readDigits_step by reflexivity); cbn [Pos.of_uint_acc];
    rewrite <- IHd; do 2 f_equal; digit_value; lia.
Qed.

Lemma readDigits_zero (d : uint) : forall rest : string,
  JS.readDigits 10 (NilEmpty.string_of_uint d ++ rest) (Some 0%Z)
  = JS.readDigits 10 rest (Some (Z.of_N (Pos.of_uint d))).
Proof.
  induction d; intros rest; cbn [NilEmpty.string_of_uint String.append];
    [reflexivity | ..];
    (erewrite readDigits_step by reflexivity); digit_value;
    cbn [Pos.of_uint Z.of_N Z.mul Z.add];
    first [apply IHd | apply readDigits_acc].
Qed.

Lemma readDigits_none (d : uint) (rest : string) :
  d <> Nil ->
  JS.readDigits 10 (NilEmpty.string_of_uint d ++ rest) None
  = JS.readDigits 10 (NilEmpty.string_of_uint d ++ rest) (Some 0%Z).
Proof.
  destruct d; intros Hd; [contradiction | ..];
    cbn [NilEmpty.string_of_uint String.append];
    (erewrite !readDigits_step by reflexivity); reflexivity.
Qed.

Lemma to_uint_nonnil (n : N) : N.to_uint n <> Nil.
Proof. destruct n; [discriminate | apply Unsigned.to_uint_nonnil]. Qed.

Lemma decimal_uint (n : N) :
  NumberText.decimal (Z.of_N n) = NilEmpty.string_of_uint (N.to_uint n).
Proof.
  unfold NumberText.decimal, NilZero.string_of_uint. rewrite N2Z.id.
  pose proof (to_uint_nonnil n). destruct (N.to_uint n); congruence.
Qed.

Lemma readDigits_decimal (n : N) (rest : string) :
  JS.readDigits 10 (NumberText.decimal (Z.of_N n) ++ rest) None
  = JS.readDigits 10 rest (Some (Z.of_N n)).
Proof.
  rewrite decimal_uint, readDigits_none, readDigits_zero
    by apply to_uint_nonnil.
  change (Pos.of_uint (N.to_uint n)) with (N.of_uint (N.to_uint n)).
  now rewrite DecimalN.Unsigned.of_to.
Qed.

(** [parseInt] on a decimal numeral followed by ['p'] or ['.'], with and
    without a minus sign: no white space, no radix prefix, the digits
    are read in radix 10. *)
Lemma parseInt_uint (d : uint) (t : ascii) (rest : string) :
  d <> Nil -> t = "p"%char \/ t = "."%char ->
  let s := (NilEmpty.string_of_uint d ++ String t rest)%string in
  JS.parseInt s
  = match JS.readDigits 10 s None with
    | None => JS.NaN
    | Some v => JS.of_Z (1 * v)
    end
  /\ JS.parseInt (String "-" s)
     = match JS.readDigits 10 s None with
       | None => JS.NaN
       | Some v => JS.of_Z (-1 * v)
       end.
Proof.
  intros Hd Ht s. unfold s.
  destruct d as [|l|l|l|l|l|l|l|l|l|l]; [contradiction | ..];
    try (split; reflexivity).
  destruct l as [|l|l|l|l|l|l|l|l|l|l]; try (split; reflexivity).
  destruct Ht as [-> | ->]; split; reflexivity.
Qed.

Lemma parseInt_decimal (n : N) (t : ascii) (rest : string) :
  t = "p"%char \/ t = "."%char ->
  let s := (NumberText.decimal (Z.of_N n) ++ String t rest)%string in
  JS.parseInt s = JS.of_Z (Z.of_N n)
  /\ JS.parseInt (String "-" s) = JS.of_Z (- Z.of_N n).
Proof.
  intros Ht s.
  assert (Hread : JS.readDigits 10 s None = Some (Z.of_N n)).
  { unfold s. rewrite readDigits_decimal.
    destruct Ht as [-> | ->]; reflexivity. }
  unfold s in *. rewrite decimal_uint in *.
  destruct (parseInt_uint (N.to_uint n) t rest (to_uint_nonnil n) Ht)
    as [Hpos Hneg].
  cbv zeta in Hpos, Hneg. rewrite Hpos, Hneg, Hread.
  split; f_equal; lia.
Qed.

(** [parseInt(a + 'px')] is [a] cut to its integer part, for every
    number [a]; [NaN] for [NaN]. *)
Lemma parseInt_of_px (a : JS.number) :
  JS.parseInt (NumberText.px a) = Math.trunc a.
Proof.
  destruct a as [q|]; [|reflexivity].
  unfold NumberText.px, NumberText.toString, Math.trunc.
  set (n := Qnum q). set (d := Zpos (Qden q)).
  set (whole := (Z.abs n / d)%Z).
  assert (Hw : (0 <= whole)%Z).
  { unfold whole, d. apply Z.div_pos; lia. }
  assert (Hq : (n ÷ d = Z.sgn n * whole)%Z).
  { unfold whole, d. rewrite Z.quot_div by lia.
    rewrite (Z.sgn_pos (Zpos (Qden q))) by lia.
    rewrite (Z.abs_eq (Zpos (Qden q))) by lia. lia. }
  rewrite Hq. rewrite <- (Z2N.id whole Hw).
  set (tail := ((if (Z.abs n mod d =? 0)%Z then ""
                 else "." ++ NumberText.fractionDigits 20 (Z.abs n mod d) d)
                ++ "px")%string).
  assert (Ht : exists t rest, tail = String t rest
                              /\ (t = "p"%char \/ t = "."%char)).
  { unfold tail. destruct (Z.abs n mod d =? 0)%Z.
    - exists "p"%char, "x"%string. auto.
    - eexists "."%char, _. split; [reflexivity | auto]. }
  destruct Ht as (t & rest & Htail & Ht).
  rewrite !append_assoc. fold tail. rewrite Htail.
  destruct (parseInt_decimal (Z.to_N whole) t rest Ht) as [Hpos Hneg].
  cbv zeta in Hpos, Hneg.
  destruct (n <? 0)%Z eqn:Hn; cbn [String.append].
  - rewrite Hneg. f_equal. apply Z.ltb_lt in Hn.
    rewrite Z.sgn_neg by assumption. lia.
  - rewrite Hpos. f_equal. apply Z.ltb_ge in Hn.
    destruct (Z.eq_dec n 0) as [Hz | Hz].
    + assert (whole = 0%Z) as -> by (unfold whole; rewrite Hz; reflexivity).
      lia.
    + rewrite Z.sgn_pos by lia. lia.
Qed.

Lemma trunc_of_Z (z : Z) : Math.trunc (JS.of_Z z) = JS.of_Z z.
Proof. unfold Math.trunc, JS.of_Z, inject_Z. cbn [Qnum Qden]. now rewrite Z.quot_1_r. Qed.

(** Every value of [parseInt] is an integer or [NaN]. *)
Lemma parseInt_cases (s : string) :
  JS.parseInt s = JS.NaN \/ exists z, JS.parseInt s = JS.of_Z z.
Proof.
  unfold JS.parseInt.
  destruct (match JS.trimStart s with
            | EmptyString => _
            | String _ _ => _
            end) as [sign str].
  destruct (match str with
            | EmptyString => _
            | String _ _ => _
            end) as [R str'].
  destruct (JS.readDigits R str' None) as [v|]; [right | left];
    [now exists (sign * v)%Z | reflexivity].
Qed.

(* ================================================================== *)
(** ** Coordinates written as text: the round trip *)
(* ================================================================== *)




Lemma parseInt_assignPx (a : JS.number) (old : string) :
  JS.parseInt (NumberText.assignPx a old) = written a (JS.parseInt old).
Proof.
  unfold NumberText.assignPx, written.
  destruct (JS.isNaN a); [reflexivity | apply parseInt_of_px].
Qed.

Lemma written_int (v : JS.number) (z : Z) (old : JS.number) :
  v = JS.of_Z z -> written v old = JS.of_Z z.
Proof. intros ->. unfold written. cbn [JS.isNaN JS.of_Z]. apply trunc_of_Z. Qed.

(** Adding a whole number of pixels to a parsed coordinate and writing
    it back: the coordinate reads back as the sum. *)
Lemma written_add_int (s : string) (dz : Z) :
  written (JS.add (JS.parseInt s) (JS.of_Z dz)) (JS.parseInt s)
  = JS.add (JS.parseInt s) (JS.of_Z dz).
Proof.
  destruct (parseInt_cases s) as [-> | [z ->]]; [reflexivity|].
  rewrite add_of_Z. now apply written_int.
Qed.

(** Adding whole numbers of pixels to a parsed coordinate, in two steps
    or in one. *)
Lemma parsed_add_add (s : string) (a b : Z) :
  JS.add (JS.add (JS.parseInt s) (JS.of_Z a)) (JS.of_Z b)
  = JS.add (JS.parseInt s) (JS.of_Z (a + b)).
Proof.
  destruct (parseInt_cases s) as [-> | [z ->]]; [reflexivity|].
  rewrite !add_of_Z. f_equal. lia.
Qed.

Lemma parsed_add_zero (s : string) :
  JS.add (JS.parseInt s) (JS.of_Z 0) = JS.parseInt s.
Proof.
  destruct (parseInt_cases s) as [-> | [z ->]]; [reflexivity|].
  rewrite add_of_Z. f_equal. lia.
Qed.

(* ================================================================== *)
(** ** The drag block of the [mousemove] listener, frame by frame *)
(* ================================================================== *)

(** [forEach] over a set of notes changes exactly the notes of the
    set, each once. *)
Lemma forEachNote_map (f : App.Note -> App.Note) (set : list positive) :
  (forall n, App.nodeOf (f n) = App.nodeOf n) ->
  NoDup set ->
  forall l,
    App.forEachNote f set l
    = map (fun n => if member set n then f n else n) l.
Proof.
  intros Hf Hnd. unfold App.forEachNote.
  induction Hnd as [|id set Hid Hnd IH]; intros l.
  - cbn. symmetry. erewrite map_ext; [apply map_id|]. reflexivity.
  - cbn [fold_left]. rewrite IH. unfold App.update. rewrite map_map.
    apply map_ext. intros n. unfold member. cbn [existsb].
    destruct (Pos.eqb (App.nodeOf n) id) eqn:Hn.
    + apply Pos.eqb_eq in Hn. rewrite Hf, Hn.
      cbn [orb].
      replace (existsb (Pos.eqb id) set) with false; [reflexivity|].
      symmetry. apply not_true_is_false. intros Hex.
      apply existsb_exists in Hex. destruct Hex as (x & Hx & Hxe).
      apply Pos.eqb_eq in Hxe. subst x. contradiction.
    + cbn [orb]. reflexivity.
Qed.

Ltac app_proj :=
  cbn [App.notes App.selectedNotes App.startX App.startY App.isDraggingGroup
       App.dragHandle App.currentTool App.isDraggingNote App.draggedNote
       App.resizeHandles App.alignmentSystem App.noteZIndexCounter
       App.snapEnabled App.guidesCanvasSnapDisabled App.canvasSnapDisabled
       App.moveToolActive App.snapToggleActive App.canvasMoveMode
       App.set_currentTool App.set_canvasMoveMode
       App.set_notes App.set_start App.set_dragHandle App.set_resizeHandles
       App.set_alignmentSystem App.set_noteZIndexCounter App.set_snapEnabled
       App.set_snapDisabledClasses App.set_toolbarActive
       App.clearResizeHandles] in *.

Lemma createResizeHandles_frame (set : list positive) (s : App.State) :
  exists hs, App.createResizeHandles set s = App.set_resizeHandles hs s.
Proof.
  unfold App.createResizeHandles. destruct set as [|id set].
  - exists []. reflexivity.
  - app_proj. destruct (negb (App.isMove (App.currentTool s))).
    + exists []. reflexivity.
    + eexists. reflexivity.
Qed.

(** What the rest of the drag block, after the notes were moved, leaves
    alone. *)
Lemma drag_tail_frame (e : App.MouseEvent) (dx dy : JS.number) (s : App.State) :
  let s1 := match App.dragHandle s with
            | Some handle => App.set_dragHandle (Some (App.moveHandle dx dy handle)) s
            | None => s
            end in
  let s2 := match App.currentTool s1, App.selectedNotes s1 with
            | App.move, _ :: _ => App.createResizeHandles (App.selectedNotes s1) s1
            | _, _ => s1
            end in
  let s' := App.set_start (App.clientX e) (App.clientY e) s2 in
  App.notes s' = App.notes s
  /\ App.alignmentSystem s' = App.alignmentSystem s
  /\ App.startX s' = App.clientX e
  /\ App.startY s' = App.clientY e
  /\ App.selectedNotes s' = App.selectedNotes s
  /\ App.snapEnabled s' = App.snapEnabled s
  /\ App.isDraggingGroup s' = App.isDraggingGroup s
  /\ App.isDraggingNote s' = App.isDraggingNote s
  /\ App.draggedNote s' = App.draggedNote s
  /\ App.currentTool s' = App.currentTool s
  /\ App.noteZIndexCounter s' = App.noteZIndexCounter s.
Proof.
  intros s1 s2 s'.
  assert (H1 : exists dh, s1 = App.set_dragHandle dh s).
  { unfold s1. destruct (App.dragHandle s) eqn:Hd; eexists; [reflexivity|].
    destruct s; cbn in *. now rewrite Hd. }
  destruct H1 as [dh H1].
  assert (H2 : exists hs, s2 = App.set_resizeHandles hs s1).
  { unfold s2. destruct (App.currentTool s1);
      [| destruct (App.selectedNotes s1);
         [| apply createResizeHandles_frame ] ];
      exists (App.resizeHandles s1); now destruct s1. }
  destruct H2 as [hs H2].
  unfold s'. rewrite H2, H1. repeat split.
Qed.

Lemma currentDraggedNote_classes (v : bool) (s : App.State) :
  App.currentDraggedNote (App.set_snapDisabledClasses v s)
  = App.currentDraggedNote s.
Proof. reflexivity. Qed.

Lemma free_frame (e : App.MouseEvent) (s : App.State) :
  App.isDraggingGroup s || App.isDraggingNote s = true ->
  App.altKey e = true \/ App.snapEnabled s = false ->
  let s' := App.onMouseMoveDrag e s in
  let dx := JS.sub (JS.of_Z (App.clientX e)) (JS.of_Z (App.startX s)) in
  let dy := JS.sub (JS.of_Z (App.clientY e)) (JS.of_Z (App.startY s)) in
  App.notes s'
  = App.forEachNote (App.moveFree dx dy) (App.selectedNotes s) (App.notes s)
  /\ App.alignmentSystem s'
     = option_map AlignmentSystem.clearGuides (App.alignmentSystem s)
  /\ App.startX s' = App.clientX e
  /\ App.startY s' = App.clientY e
  /\ App.selectedNotes s' = App.selectedNotes s
  /\ App.snapEnabled s' = App.snapEnabled s
  /\ App.isDraggingGroup s' = App.isDraggingGroup s
  /\ App.isDraggingNote s' = App.isDraggingNote s
  /\ App.draggedNote s' = App.draggedNote s
  /\ App.currentTool s' = App.currentTool s
  /\ App.noteZIndexCounter s' = App.noteZIndexCounter s.
Proof.
  intros Hdrag Hoff s' dx dy. unfold s', App.onMouseMoveDrag.
  rewrite Hdrag. cbv zeta. fold dx dy.
  match goal with
  | |- context [App.set_start _ _ (match App.currentTool ?s1 with _ => _ end)] =>
      match s1 with
      | match App.dragHandle ?B with _ => _ end => set (branch := B)
      end
  end.
  destruct (drag_tail_frame e dx dy branch)
    as (Hn & Ha & Hx & Hy & Hs & Hse & Hg & Hi & Hd & Ht & Hz).
  cbv zeta in *. rewrite Hn, Ha, Hx, Hy, Hs, Hse, Hg, Hi, Hd, Ht, Hz.
  assert (Hb : App.snapEnabled s && negb (App.altKey e) = false).
  { destruct Hoff as [-> | ->]; [apply andb_false_r | reflexivity]. }
  assert (Hc : App.altKey e || negb (App.snapEnabled s) = true).
  { destruct Hoff as [-> | ->]; [reflexivity | apply orb_true_r]. }
  clear Hn Ha Hx Hy Hs Hse Hg Hi Hd Ht Hz.
  subst branch. app_proj. rewrite Hb.
  destruct (App.alignmentSystem s) as [engine|] eqn:He;
    [destruct (App.currentDraggedNote (App.set_snapDisabledClasses
                                          (App.altKey e) s)) |];
    app_proj; rewrite ?Hc; app_proj; rewrite ?He;
    repeat split; reflexivity.
Qed.

Lemma snap_frame (e : App.MouseEvent) (s : App.State)
    (engine : AlignmentSystem.t) (dn : App.Note) :
  App.isDraggingGroup s || App.isDraggingNote s = true ->
  App.altKey e = false ->
  App.snapEnabled s = true ->
  App.alignmentSystem s = Some engine ->
  App.currentDraggedNote s = Some dn ->
  let s' := App.onMouseMoveDrag e s in
  let dx := JS.sub (JS.of_Z (App.clientX e)) (JS.of_Z (App.startX s)) in
  let dy := JS.sub (JS.of_Z (App.clientY e)) (JS.of_Z (App.startY s)) in
  let call := AlignmentSystem.calculateSnap engine (App.el dn)
                (App.canvasNotes s)
                (JS.add (parsedLeft dn) dx) (JS.add (parsedTop dn) dy) in
  let moved := App.forEachNote (App.moveSnapped dx dy (fst call))
                 (App.selectedNotes s) (App.notes s) in
  let layered := fold_left App.ensureZIndex (App.selectedNotes s)
                   (App.noteZIndexCounter s, moved) in
  App.notes s' = snd layered
  /\ App.alignmentSystem s' = Some (snd call)
  /\ App.startX s' = App.clientX e
  /\ App.startY s' = App.clientY e
  /\ App.selectedNotes s' = App.selectedNotes s
  /\ App.snapEnabled s' = App.snapEnabled s
  /\ App.isDraggingGroup s' = App.isDraggingGroup s
  /\ App.isDraggingNote s' = App.isDraggingNote s
  /\ App.draggedNote s' = App.draggedNote s
  /\ App.currentTool s' = App.currentTool s
  /\ App.noteZIndexCounter s' = fst layered.
Proof.
  intros Hdrag Halt Hon He Hdn s' dx dy call moved layered.
  unfold s', App.onMouseMoveDrag.
  rewrite Hdrag. cbv zeta. fold dx dy.
  match goal with
  | |- context [App.set_start _ _ (match App.currentTool ?s1 with _ => _ end)] =>
      match s1 with
      | match App.dragHandle ?B with _ => _ end => set (branch := B)
      end
  end.
  destruct (drag_tail_frame e dx dy branch)
    as (Hn & Ha & Hx & Hy & Hs & Hse & Hg & Hi & Hd & Ht & Hz).
  cbv zeta in *. rewrite Hn, Ha, Hx, Hy, Hs, Hse, Hg, Hi, Hd, Ht, Hz.
  clear Hn Ha Hx Hy Hs Hse Hg Hi Hd Ht Hz.
  subst branch. app_proj. rewrite He, Hon, Halt. cbn [negb andb].
  rewrite currentDraggedNote_classes, Hdn.
  change (App.canvasNotes (App.set_snapDisabledClasses false s))
    with (App.canvasNotes s).
  change (JS.parseInt (App.styleLeft dn)) with (parsedLeft dn).
  change (JS.parseInt (App.styleTop dn)) with (parsedTop dn).
  fold call. destruct call as [snapResult engine'] eqn:Hcall.
  app_proj. cbn [fst snd] in *. fold moved. fold layered.
  destruct layered as [counter l]. app_proj.
  repeat split; first [reflexivity | exact Hon].
Qed.

Lemma Forall2_map_right (A B : Type) (R : A -> B -> Prop) (f : A -> B)
    (l : list A) :
  (forall a, In a l -> R a (f a)) -> Forall2 R l (map f l).
Proof.
  induction l as [|a l IH]; intros H; cbn; constructor.
  - apply H. now left.
  - apply IH. intros b Hb. apply H. now right.
Qed.

Lemma Forall2_map_left (A B C : Type) (R : B -> C -> Prop) (f : A -> B)
    (l : list A) (l' : list C) :
  Forall2 R (map f l) l' -> Forall2 (fun a c => R (f a) c) l l'.
Proof.
  revert l'. induction l as [|a l IH]; intros l' H; inversion H; subst;
    constructor; auto.
Qed.

Lemma Forall2_weaken (A B : Type) (R R' : A -> B -> Prop) (l : list A)
    (l' : list B) :
  (forall a b, R a b -> R' a b) -> Forall2 R l l' -> Forall2 R' l l'.
Proof. intros H F. induction F; constructor; auto. Qed.

Lemma Forall2_weaken_In (A B : Type) (R R' : A -> B -> Prop) (l : list A)
    (l' : list B) :
  (forall a b, In a l -> R a b -> R' a b) -> Forall2 R l l' -> Forall2 R' l l'.
Proof.
  intros H F. induction F as [|a b l l' Hab _ IH]; constructor.
  - apply H; [now left | exact Hab].
  - apply IH. intros a' b' Hin. apply H. now right.
Qed.

Lemma Forall2_compose (A : Type) (R R' R'' : A -> A -> Prop)
    (l1 l2 l3 : list A) :
  (forall a b c, R a b -> R' b c -> R'' a c) ->
  Forall2 R l1 l2 -> Forall2 R' l2 l3 -> Forall2 R'' l1 l3.
Proof.
  intros H F. revert l3.
  induction F as [|a b l1 l2 Hab _ IH]; intros l3 F'; inversion F'; subst;
    constructor; eauto.
Qed.

Lemma member_nodeOf (set : list positive) (n n' : App.Note) :
  App.nodeOf n' = App.nodeOf n -> member set n' = member set n.
Proof. intros H. unfold member. now rewrite H. Qed.

(** The z-index loop leaves every element where it is and touches the
    notes of the set only. *)
Lemma ensureZIndex_rel (set : list positive) :
  forall (c : Z) (l : list App.Note),
    Forall2 (fun n n' => App.el n' = App.el n
                         /\ App.attached n' = App.attached n
                         /\ App.contentEditable n' = App.contentEditable n
                         /\ (member set n = false -> n' = n))
            l (snd (fold_left App.ensureZIndex set (c, l))).
Proof.
  induction set as [|id set IH]; intros c l.
  - cbn. rewrite <- (map_id l) at 2. apply Forall2_map_right. auto.
  - cbn [fold_left].
    assert (Hweak : forall l1 c1,
               Forall2 (fun n n1 => App.el n1 = App.el n
                                    /\ App.attached n1 = App.attached n
                                    /\ App.contentEditable n1
                                       = App.contentEditable n
                                    /\ (Pos.eqb (App.nodeOf n) id = false
                                        -> n1 = n))
                       l l1 ->
               Forall2 (fun n n' => App.el n' = App.el n
                                    /\ App.attached n' = App.attached n
                                    /\ App.contentEditable n'
                                       = App.contentEditable n
                                    /\ (member (id :: set) n = false -> n' = n))
                       l (snd (fold_left App.ensureZIndex set (c1, l1)))).
    { intros l1 c1 H1.
      eapply Forall2_compose; [|exact H1|apply (IH c1 l1)].
      cbv beta. intros n n1 n' (He & Ha & Hc & Hn) (He' & Ha' & Hc' & Hn').
      split; [congruence|]. split; [congruence|]. split; [congruence|].
      unfold member. cbn [existsb]. intros Hm.
      apply orb_false_iff in Hm. destruct Hm as [Hid Hset].
      rewrite <- (Hn Hid). apply Hn'.
      unfold member. rewrite (Hn Hid). exact Hset. }
    unfold App.ensureZIndex at 2.
    destruct (App.lookup id l) as [note|].
    + destruct (App.zIndex note).
      * apply Hweak. unfold App.update.
        apply Forall2_map_right. intros n _.
        destruct (Pos.eqb (App.nodeOf n) id); [|auto].
        repeat split. discriminate.
      * apply Hweak.
        rewrite <- (map_id l) at 2. apply Forall2_map_right. auto.
    + apply Hweak.
      rewrite <- (map_id l) at 2. apply Forall2_map_right. auto.
Qed.

Lemma moveSnapped_rel (dx dy : JS.number) (r : SnapResult.t) (n : App.Note) :
  let n' := App.moveSnapped dx dy r n in
  sameElement n n'
  /\ App.zIndex n' = App.zIndex n
  /\ parsedLeft n'
     = written (JS.add (JS.add (parsedLeft n) dx) (SnapResult.deltaX r))
               (parsedLeft n)
  /\ parsedTop n'
     = written (JS.add (JS.add (parsedTop n) dy) (SnapResult.deltaY r))
               (parsedTop n).
Proof.
  intros n'. unfold n', App.moveSnapped, parsedLeft, parsedTop, sameElement.
  destruct n as [[node id [l t] w h] z a ce].
  cbn [App.set_position App.styleLeft App.styleTop App.el App.zIndex
       App.attached App.nodeOf HTMLDivElement.node HTMLDivElement.id
       HTMLDivElement.style HTMLDivElement.offsetWidth
       HTMLDivElement.offsetHeight CSSStyle.left CSSStyle.top].
  rewrite !parseInt_assignPx. repeat split.
Qed.

Lemma moveFree_rel (dz dw : Z) (n : App.Note) :
  let n' := App.moveFree (JS.of_Z dz) (JS.of_Z dw) n in
  sameElement n n'
  /\ App.zIndex n' = App.zIndex n
  /\ parsedLeft n' = JS.add (parsedLeft n) (JS.of_Z dz)
  /\ parsedTop n' = JS.add (parsedTop n) (JS.of_Z dw).
Proof.
  intros n'. unfold n', App.moveFree, parsedLeft, parsedTop, sameElement.
  destruct n as [[node id [l t] w h] z a ce].
  cbn [App.set_position App.styleLeft App.styleTop App.el App.zIndex
       App.attached App.nodeOf HTMLDivElement.node HTMLDivElement.id
       HTMLDivElement.style HTMLDivElement.offsetWidth
       HTMLDivElement.offsetHeight CSSStyle.left CSSStyle.top].
  rewrite !parseInt_assignPx, !written_add_int. repeat split.
Qed.

Lemma free_frame_notes (e : App.MouseEvent) (s : App.State) :
  App.isDraggingGroup s || App.isDraggingNote s = true ->
  App.altKey e = true \/ App.snapEnabled s = false ->
  NoDup (App.selectedNotes s) ->
  let s' := App.onMouseMoveDrag e s in
  Forall2
    (fun n n' =>
       if member (App.selectedNotes s) n
       then sameElement n n'
            /\ App.zIndex n' = App.zIndex n
            /\ parsedLeft n'
               = JS.add (parsedLeft n)
                        (JS.of_Z (App.clientX e - App.startX s))
            /\ parsedTop n'
               = JS.add (parsedTop n)
                        (JS.of_Z (App.clientY e - App.startY s))
       else n' = n)
    (App.notes s) (App.notes s').
Proof.
  intros Hdrag Hoff Hnd s'.
  destruct (free_frame e s Hdrag Hoff) as (Hn & _).
  cbv zeta in *. fold s' in Hn. rewrite !sub_of_Z in Hn.
  rewrite Hn, forEachNote_map; [| | exact Hnd].
  - apply Forall2_map_right. intros n _.
    destruct (member (App.selectedNotes s) n); [|reflexivity].
    apply moveFree_rel.
  - intros n. now destruct n as [[? ? [? ?] ? ?] ? ? ?].
Qed.

(* ================================================================== *)
(** ** Dragging without snapping *)
(* ================================================================== *)

(** X9.  A frame of a drag with Alt held, or with snapping toggled off,
    moves every selected note by the mouse displacement since the last
    frame, [(clientX - startX, clientY - startY)], coordinates read with
    [parseInt]; it leaves the z-index of the selected notes and every
    other note as they are, clears the guides and the overlay of the
    engine, and makes the mouse position the new start. *)
Theorem drag_without_snapping (e : App.MouseEvent) (s : App.State) :
  App.isDraggingGroup s || App.isDraggingNote s = true ->
  App.altKey e = true \/ App.snapEnabled s = false ->
  NoDup (App.selectedNotes s) ->
  let s' := App.onMouseMoveDrag e s in
  let dx := JS.of_Z (App.clientX e - App.startX s) in
  let dy := JS.of_Z (App.clientY e - App.startY s) in
  Forall2
    (fun n n' =>
       if member (App.selectedNotes s) n
       then sameElement n n'
            /\ App.zIndex n' = App.zIndex n
            /\ parsedLeft n' = JS.add (parsedLeft n) dx
            /\ parsedTop n' = JS.add (parsedTop n) dy
       else n' = n)
    (App.notes s) (App.notes s')
  /\ App.alignmentSystem s'
     = option_map AlignmentSystem.clearGuides (App.alignmentSystem s)
  /\ App.startX s' = App.clientX e
  /\ App.startY s' = App.clientY e.
Proof.
  intros Hdrag Hoff Hnd s' dx dy.
  destruct (free_frame e s Hdrag Hoff) as (Hn & Ha & Hx & Hy & _).
  cbv zeta in *. fold s' in Hn, Ha, Hx, Hy. rewrite !sub_of_Z in Hn.
  fold dx dy in Hn.
  split; [|auto].
  rewrite Hn, forEachNote_map; [| | exact Hnd].
  - apply Forall2_map_right. intros n _.
    destruct (member (App.selectedNotes s) n); [|reflexivity].
    apply moveFree_rel.
  - intros n. now destruct n as [[? ? [? ?] ? ?] ? ? ?].
Qed.

Lemma drag_without_snapping_witness :
  let s' := App.onMouseMoveDrag (Desk.event 310 305 true) Desk.dragging in
  Forall2
    (fun n n' =>
       if member [2%positive] n
       then sameElement n n'
            /\ App.zIndex n' = App.zIndex n
            /\ parsedLeft n' = JS.add (parsedLeft n) (JS.of_Z 10)
            /\ parsedTop n' = JS.add (parsedTop n) (JS.of_Z 5)
       else n' = n)
    (App.notes Desk.dragging) (App.notes s')
  /\ App.alignmentSystem s'
     = Some (AlignmentSystem.clearGuides Scenario.engine)
  /\ App.startX s' = 310%Z
  /\ App.startY s' = 305%Z.
Proof.
  apply (drag_without_snapping (Desk.event 310 305 true) Desk.dragging).
  - reflexivity.
  - left. reflexivity.
  - constructor; [intros [] | constructor].
Defined.

Lemma free_drag (es : list App.MouseEvent) :
  forall s : App.State,
    App.isDraggingGroup s || App.isDraggingNote s = true ->
    NoDup (App.selectedNotes s) ->
    App.snapEnabled s = false
    \/ Forall (fun e => App.altKey e = true) es ->
    let s' := drag es s in
    Forall2
      (fun n n' =>
         if member (App.selectedNotes s) n
         then sameElement n n'
              /\ App.zIndex n' = App.zIndex n
              /\ parsedLeft n'
                 = JS.add (parsedLeft n)
                          (JS.of_Z (App.startX s' - App.startX s))
              /\ parsedTop n'
                 = JS.add (parsedTop n)
                          (JS.of_Z (App.startY s' - App.startY s))
         else n' = n)
      (App.notes s) (App.notes s').
Proof.
  induction es as [|e es IH]; intros s Hdrag Hnd Hoff s'.
  - unfold s', drag. cbn [fold_left]. rewrite !Z.sub_diag.
    rewrite <- (map_id (App.notes s)) at 2. apply Forall2_map_right.
    intros n _. destruct (member (App.selectedNotes s) n); [|reflexivity].
    unfold parsedLeft, parsedTop. rewrite !parsed_add_zero.
    unfold sameElement. repeat split.
  - assert (Hoff1 : App.altKey e = true \/ App.snapEnabled s = false).
    { destruct Hoff as [H | H]; [now right | left].
      now inversion H. }
    pose proof (free_frame_notes e s Hdrag Hoff1 Hnd) as F1.
    destruct (free_frame e s Hdrag Hoff1)
      as (_ & _ & Hx & Hy & Hs & Hse & Hg & Hi & _).
    cbv zeta in *.
    set (s1 := App.onMouseMoveDrag e s) in *.
    assert (Hdrag1 : App.isDraggingGroup s1 || App.isDraggingNote s1 = true)
      by now rewrite Hg, Hi.
    assert (Hnd1 : NoDup (App.selectedNotes s1)) by now rewrite Hs.
    assert (Hoff' : App.snapEnabled s1 = false
                    \/ Forall (fun e => App.altKey e = true) es).
    { destruct Hoff as [H | H]; [left; now rewrite Hse | right].
      now inversion H. }
    specialize (IH s1 Hdrag1 Hnd1 Hoff'). cbv zeta in IH.
    change (drag es s1) with s' in IH.
    rewrite Hs, Hx, Hy in IH.
    eapply Forall2_compose; [|exact F1|exact IH].
    cbv beta. intros a b c Hab Hbc.
    destruct (member (App.selectedNotes s) a) eqn:Ha.
    + destruct Hab as (Sab & Zab & Lab & Tab).
      assert (Hb : member (App.selectedNotes s) b = true).
      { rewrite <- Ha. apply member_nodeOf. apply Sab. }
      rewrite Hb in Hbc. destruct Hbc as (Sbc & Zbc & Lbc & Tbc).
      split.
      { unfold sameElement in *.
        repeat split; etransitivity; try apply Sbc; apply Sab. }
      split; [congruence|].
      rewrite Lbc, Lab, Tbc, Tab. unfold parsedLeft, parsedTop.
      rewrite !parsed_add_add. split; f_equal; f_equal; lia.
    + subst b. rewrite Ha in Hbc. exact Hbc.
Qed.

Lemma moveFree_text (dz dw : Z) (n : App.Note) :
  let n' := App.moveFree (JS.of_Z dz) (JS.of_Z dw) n in
  App.styleLeft n'
  = NumberText.assignPx (JS.add (parsedLeft n) (JS.of_Z dz)) (App.styleLeft n)
  /\ App.styleTop n'
     = NumberText.assignPx (JS.add (parsedTop n) (JS.of_Z dw)) (App.styleTop n).
Proof. destruct n as [[? ? [? ?] ? ?] ? ? ?]. split; reflexivity. Qed.

(** Writing a coordinate moved by [a], then reading it back and moving
    it by [b] more, leaves the text of the first reading moved by
    [a + b]. *)
Lemma assignPx_add (old : string) (a b : Z) :
  NumberText.assignPx
    (JS.add (JS.add (JS.parseInt old) (JS.of_Z a)) (JS.of_Z b))
    (NumberText.assignPx (JS.add (JS.parseInt old) (JS.of_Z a)) old)
  = NumberText.assignPx (JS.add (JS.parseInt old) (JS.of_Z (a + b))) old.
Proof.
  destruct (parseInt_cases old) as [-> | [z ->]]; [reflexivity|].
  rewrite !add_of_Z. unfold NumberText.assignPx. cbn [JS.isNaN JS.of_Z].
  do 2 f_equal. lia.
Qed.

Lemma free_frame_text (e : App.MouseEvent) (s : App.State) :
  App.isDraggingGroup s || App.isDraggingNote s = true ->
  App.altKey e = true \/ App.snapEnabled s = false ->
  NoDup (App.selectedNotes s) ->
  let s' := App.onMouseMoveDrag e s in
  Forall2
    (fun n n' =>
       member (App.selectedNotes s) n = true ->
       App.styleLeft n'
       = NumberText.assignPx
           (JS.add (parsedLeft n) (JS.of_Z (App.clientX e - App.startX s)))
           (App.styleLeft n)
       /\ App.styleTop n'
          = NumberText.assignPx
              (JS.add (parsedTop n) (JS.of_Z (App.clientY e - App.startY s)))
              (App.styleTop n))
    (App.notes s) (App.notes s').
Proof.
  intros Hdrag Hoff Hnd s'.
  destruct (free_frame e s Hdrag Hoff) as (Hn & _).
  cbv zeta in *. fold s' in Hn. rewrite !sub_of_Z in Hn.
  rewrite Hn, forEachNote_map; [| | exact Hnd].
  - apply Forall2_map_right. intros n _ Hm. rewrite Hm.
    apply moveFree_text.
  - intros n. now destruct n as [[? ? [? ?] ? ?] ? ? ?].
Qed.

Lemma Forall2_and (A B : Type) (R R' : A -> B -> Prop) (l : list A)
    (l' : list B) :
  Forall2 R l l' -> Forall2 R' l l' ->
  Forall2 (fun a b => R a b /\ R' a b) l l'.
Proof.
  intros F. revert R'.
  induction F; intros R' F'; inversion F'; subst; constructor; auto.
Qed.

Lemma free_drag_text (es : list App.MouseEvent) :
  forall s : App.State,
    App.isDraggingGroup s || App.isDraggingNote s = true ->
    NoDup (App.selectedNotes s) ->
    App.snapEnabled s = false
    \/ Forall (fun e => App.altKey e = true) es ->
    let s' := drag es s in
    Forall2
      (fun n n' =>
         member (App.selectedNotes s) n = true ->
         match es with
         | [] => n' = n
         | _ :: _ =>
             App.styleLeft n'
             = NumberText.assignPx
                 (JS.add (parsedLeft n)
                         (JS.of_Z (App.startX s' - App.startX s)))
                 (App.styleLeft n)
             /\ App.styleTop n'
                = NumberText.assignPx
                    (JS.add (parsedTop n)
                            (JS.of_Z (App.startY s' - App.startY s)))
                    (App.styleTop n)
         end)
      (App.notes s) (App.notes s').
Proof.
  induction es as [|e es IH]; intros s Hdrag Hnd Hoff s'.
  - unfold s', drag. cbn [fold_left].
    rewrite <- (map_id (App.notes s)) at 2. apply Forall2_map_right. auto.
  - assert (Hoff1 : App.altKey e = true \/ App.snapEnabled s = false).
    { destruct Hoff as [H | H]; [now right | left].
      now inversion H. }
    pose proof (Forall2_and _ _ _ _ _ _
                  (free_frame_notes e s Hdrag Hoff1 Hnd)
                  (free_frame_text e s Hdrag Hoff1 Hnd)) as F1.
    destruct (free_frame e s Hdrag Hoff1)
      as (_ & _ & Hx & Hy & Hs & Hse & Hg & Hi & _).
    cbv zeta in *.
    set (s1 := App.onMouseMoveDrag e s) in *.
    assert (Hdrag1 : App.isDraggingGroup s1 || App.isDraggingNote s1 = true)
      by now rewrite Hg, Hi.
    assert (Hnd1 : NoDup (App.selectedNotes s1)) by now rewrite Hs.
    assert (Hoff' : App.snapEnabled s1 = false
                    \/ Forall (fun e => App.altKey e = true) es).
    { destruct Hoff as [H | H]; [left; now rewrite Hse | right].
      now inversion H. }
    specialize (IH s1 Hdrag1 Hnd1 Hoff'). cbv zeta in IH.
    change (drag es s1) with s' in IH.
    rewrite Hs, Hx, Hy in IH.
    eapply Forall2_compose; [|exact F1|exact IH].
    cbv beta. intros a b c [Hab Tab] Hbc Ha.
    rewrite Ha in Hab. destruct Hab as (Sab & _ & Lab & Pab).
    specialize (Tab Ha). destruct Tab as [TL TT].
    assert (Hb : member (App.selectedNotes s) b = true).
    { rewrite <- Ha. apply member_nodeOf. apply Sab. }
    specialize (Hbc Hb).
    destruct es as [|e' es'].
    + subst c. unfold s', drag. cbn [fold_left]. fold s1.
      rewrite Hx, Hy. now split.
    + destruct Hbc as [CL CT].
      rewrite CL, CT, Lab, Pab, TL, TT.
      unfold parsedLeft, parsedTop.
      replace (App.startX s' - App.startX s)%Z
        with ((App.clientX e - App.startX s)
              + (App.startX s' - App.clientX e))%Z by lia.
      replace (App.startY s' - App.startY s)%Z
        with ((App.clientY e - App.startY s)
              + (App.startY s' - App.clientY e))%Z by lia.
      split; apply assignPx_add.
Qed.

(** X10.  Any number of such frames add up: after a drag with Alt
    held throughout, or with snapping off, each selected note stands
    at its start position, as [parseInt] reads it, moved by the whole
    way of the mouse from the start position to that of the last event,
    whatever the path in between.  After at least one frame its inline
    [left] and [top] are the texts of these numbers followed by [px]
    (and are kept where the start position does not parse): a
    fractional part of the start position is cut by the first frame,
    also when the mouse has not moved. *)
Theorem free_drag_follows_mouse (es : list App.MouseEvent) (s : App.State) :
  App.isDraggingGroup s || App.isDraggingNote s = true ->
  NoDup (App.selectedNotes s) ->
  App.snapEnabled s = false \/ Forall (fun e => App.altKey e = true) es ->
  let s' := drag es s in
  Forall2
    (fun n n' =>
       if member (App.selectedNotes s) n
       then sameElement n n'
            /\ App.zIndex n' = App.zIndex n
            /\ parsedLeft n'
               = JS.add (parsedLeft n)
                        (JS.of_Z (App.startX s' - App.startX s))
            /\ parsedTop n'
               = JS.add (parsedTop n)
                        (JS.of_Z (App.startY s' - App.startY s))
            /\ match es with
               | [] => n' = n
               | _ :: _ =>
                   App.styleLeft n'
                   = NumberText.assignPx
                       (JS.add (parsedLeft n)
                               (JS.of_Z (App.startX s' - App.startX s)))
                       (App.styleLeft n)
                   /\ App.styleTop n'
                      = NumberText.assignPx
                          (JS.add (parsedTop n)
                                  (JS.of_Z (App.startY s' - App.startY s)))
                          (App.styleTop n)
               end
       else n' = n)
    (App.notes s) (App.notes s')
  /\ App.startX s' = last (map App.clientX es) (App.startX s)
  /\ App.startY s' = last (map App.clientY es) (App.startY s).
Proof.
  intros Hdrag Hnd Hoff s'. split.
  { pose proof (Forall2_and _ _ _ _ _ _
                  (free_drag es s Hdrag Hnd Hoff)
                  (free_drag_text es s Hdrag Hnd Hoff)) as F.
    cbv zeta in F. fold s' in F.
    eapply Forall2_impl; [|exact F].
    cbv beta. intros n n' [H T].
    destruct (member (App.selectedNotes s) n); [|exact H].
    destruct H as (H1 & H2 & H3 & H4).
    repeat (split; [assumption|]). exact (T eq_refl). }
  unfold s'. clear s'. revert s Hdrag Hnd Hoff.
  induction es as [|e es IH]; intros s Hdrag Hnd Hoff; [split; reflexivity|].
  assert (Hoff1 : App.altKey e = true \/ App.snapEnabled s = false).
  { destruct Hoff as [H | H]; [now right | left]. now inversion H. }
  destruct (free_frame e s Hdrag Hoff1)
    as (_ & _ & Hx & Hy & Hs & Hse & Hg & Hi & _).
  cbv zeta in *.
  set (s1 := App.onMouseMoveDrag e s) in *.
  assert (Hdrag1 : App.isDraggingGroup s1 || App.isDraggingNote s1 = true)
    by now rewrite Hg, Hi.
  assert (Hnd1 : NoDup (App.selectedNotes s1)) by now rewrite Hs.
  assert (Hoff' : App.snapEnabled s1 = false
                  \/ Forall (fun e => App.altKey e = true) es).
  { destruct Hoff as [H | H]; [left; now rewrite Hse | right].
    now inversion H. }
  destruct (IH s1 Hdrag1 Hnd1 Hoff') as (IHx & IHy).
  change (drag (e :: es) s) with (drag es s1).
  rewrite IHx, IHy, Hx, Hy. cbn [map].
  now rewrite !last_cons_default.
Qed.

Lemma free_drag_follows_mouse_witness :
  let es := [Desk.event 310 305 true; Desk.event 290 340 true;
             Desk.event 303 300 true] in
  let s' := drag es Desk.dragging in
  Forall2
    (fun n n' =>
       if member [2%positive] n
       then sameElement n n'
            /\ App.zIndex n' = App.zIndex n
            /\ parsedLeft n' = JS.add (parsedLeft n) (JS.of_Z 3)
            /\ parsedTop n' = JS.add (parsedTop n) (JS.of_Z 0)
            /\ App.styleLeft n'
               = NumberText.assignPx (JS.add (parsedLeft n) (JS.of_Z 3))
                                     (App.styleLeft n)
            /\ App.styleTop n'
               = NumberText.assignPx (JS.add (parsedTop n) (JS.of_Z 0))
                                     (App.styleTop n)
       else n' = n)
    (App.notes Desk.dragging) (App.notes s')
  /\ App.startX s' = 303%Z
  /\ App.startY s' = 300%Z.
Proof.
  apply (free_drag_follows_mouse
           [Desk.event 310 305 true; Desk.event 290 340 true;
            Desk.event 303 300 true] Desk.dragging).
  - reflexivity.
  - constructor; [intros [] | constructor].
  - right. repeat constructor.
Defined.

(** A note placed at a fraction of a pixel loses the fraction at the
    first frame of a drag, even when the mouse has not moved. *)
Example fraction_cut_by_still_frame :
  let note :=
    App.mkNote
      (HTMLDivElement.mk 2 "note-d" (CSSStyle.mk "120.5px" "200px") 80 40)
      EmptyString true "false" in
  let s :=
    App.mkState [note] [2%positive] 300 300 false None App.move
      true (Some 2%positive) [] None 102 false false false true true true in
  map App.styleLeft (App.notes (drag [Desk.event 300 300 false] s))
  = ["120px"%string].
Proof. reflexivity. Qed.

(* ================================================================== *)
(** ** Dragging with snapping *)
(* ================================================================== *)

Lemma snap_frame_notes (e : App.MouseEvent) (s : App.State)
    (engine : AlignmentSystem.t) (dn : App.Note) :
  App.isDraggingGroup s || App.isDraggingNote s = true ->
  App.altKey e = false ->
  App.snapEnabled s = true ->
  App.alignmentSystem s = Some engine ->
  App.currentDraggedNote s = Some dn ->
  NoDup (App.selectedNotes s) ->
  let s' := App.onMouseMoveDrag e s in
  let dx := JS.of_Z (App.clientX e - App.startX s) in
  let dy := JS.of_Z (App.clientY e - App.startY s) in
  let call := AlignmentSystem.calculateSnap engine (App.el dn)
                (App.canvasNotes s)
                (JS.add (parsedLeft dn) dx) (JS.add (parsedTop dn) dy) in
  Forall2
    (fun n n' =>
       if member (App.selectedNotes s) n
       then sameElement n n'
            /\ parsedLeft n'
               = written (JS.add (JS.add (parsedLeft n) dx)
                                 (SnapResult.deltaX (fst call)))
                         (parsedLeft n)
            /\ parsedTop n'
               = written (JS.add (JS.add (parsedTop n) dy)
                                 (SnapResult.deltaY (fst call)))
                         (parsedTop n)
       else n' = n)
    (App.notes s) (App.notes s')
  /\ App.alignmentSystem s' = Some (snd call)
  /\ App.startX s' = App.clientX e
  /\ App.startY s' = App.clientY e.
Proof.
  intros Hdrag Halt Hon He Hdn Hnd s' dx dy call.
  destruct (snap_frame e s engine dn Hdrag Halt Hon He Hdn)
    as (Hn & Ha & Hx & Hy & _).
  cbv zeta in *. fold s' in Hn, Ha, Hx, Hy.
  rewrite !sub_of_Z in Hn, Ha. fold dx dy in Hn, Ha. fold call in Hn, Ha.
  split; [|auto].
  rewrite Hn.
  rewrite forEachNote_map;
    [| intros n; now destruct n as [[? ? [? ?] ? ?] ? ? ?] | exact Hnd].
  eapply Forall2_weaken;
    [| apply Forall2_map_left, ensureZIndex_rel ].
  cbv beta. intros n n' (Hel & Hat & Hce & Hkeep).
  rewrite (member_nodeOf (App.selectedNotes s) n) in Hkeep.
  - destruct (member (App.selectedNotes s) n); [|now apply Hkeep].
    destruct (moveSnapped_rel dx dy (fst call) n)
      as ((S1 & S2 & S3 & S4 & S5 & S6) & _ & HL & HT).
    cbv zeta in *. unfold parsedLeft, parsedTop, App.styleLeft, App.styleTop,
      sameElement, App.nodeOf in *.
    rewrite Hel, Hat, Hce. repeat split; assumption.
  - destruct (member (App.selectedNotes s) n); [|reflexivity].
    now destruct n as [[? ? [? ?] ? ?] ? ? ?].
Qed.

(** X11.  A frame of a drag with snapping on asks the engine once, for
    the dragged note at its position plus the mouse displacement and
    against the notes of the canvas, and moves every selected note by the
    mouse displacement plus the deltas of that one answer; a coordinate
    is read back cut to a whole pixel, and kept when the sum is [NaN].
    The other notes stay, the engine is the one the call left, and the
    mouse position becomes the new start. *)
Theorem drag_with_snapping (e : App.MouseEvent) (s : App.State)
    (engine : AlignmentSystem.t) (dn : App.Note) :
  App.isDraggingGroup s || App.isDraggingNote s = true ->
  App.altKey e = false ->
  App.snapEnabled s = true ->
  App.alignmentSystem s = Some engine ->
  App.currentDraggedNote s = Some dn ->
  NoDup (App.selectedNotes s) ->
  let s' := App.onMouseMoveDrag e s in
  let dx := JS.of_Z (App.clientX e - App.startX s) in
  let dy := JS.of_Z (App.clientY e - App.startY s) in
  let call := AlignmentSystem.calculateSnap engine (App.el dn)
                (App.canvasNotes s)
                (JS.add (parsedLeft dn) dx) (JS.add (parsedTop dn) dy) in
  Forall2
    (fun n n' =>
       if member (App.selectedNotes s) n
       then sameElement n n'
            /\ parsedLeft n'
               = written (JS.add (JS.add (parsedLeft n) dx)
                                 (SnapResult.deltaX (fst call)))
                         (parsedLeft n)
            /\ parsedTop n'
               = written (JS.add (JS.add (parsedTop n) dy)
                                 (SnapResult.deltaY (fst call)))
                         (parsedTop n)
       else n' = n)
    (App.notes s) (App.notes s')
  /\ App.alignmentSystem s' = Some (snd call)
  /\ App.startX s' = App.clientX e
  /\ App.startY s' = App.clientY e.
Proof. exact (snap_frame_notes e s engine dn). Qed.

Lemma drag_with_snapping_witness :
  let s' := App.onMouseMoveDrag (Desk.event 303 300 false) Desk.dragging in
  let call := AlignmentSystem.calculateSnap Scenario.engine
                (App.el Desk.noteD) (App.canvasNotes Desk.dragging)
                (JS.of_Z 103) (JS.of_Z 200) in
  Forall2
    (fun n n' =>
       if member [2%positive] n
       then sameElement n n'
            /\ parsedLeft n'
               = written (JS.add (JS.add (parsedLeft n) (JS.of_Z 3))
                                 (SnapResult.deltaX (fst call)))
                         (parsedLeft n)
            /\ parsedTop n'
               = written (JS.add (JS.add (parsedTop n) (JS.of_Z 0))
                                 (SnapResult.deltaY (fst call)))
                         (parsedTop n)
       else n' = n)
    (App.notes Desk.dragging) (App.notes s')
  /\ App.alignmentSystem s' = Some (snd call)
  /\ App.startX s' = 303%Z
  /\ App.startY s' = 300%Z.
Proof.
  apply (drag_with_snapping (Desk.event 303 300 false) Desk.dragging
           Scenario.engine Desk.noteD); try reflexivity.
  constructor; [intros [] | constructor].
Defined.


Lemma or_of_Z (z : Z) : JS.or (JS.of_Z z) (JS.of_Z 0) = JS.of_Z z.
Proof.
  unfold JS.or, JS.truthy, JS.of_Z.
  destruct (Qeq_bool (inject_Z z) 0) eqn:Hz; cbn [negb]; [|reflexivity].
  apply Qeq_bool_iff in Hz. unfold Qeq, inject_Z in Hz. cbn in Hz.
  f_equal. f_equal. lia.
Qed.

(** The box the engine computes for a note has whole coordinates. *)
Lemma targetBounds_int (note : HTMLDivElement.t) :
  exists l t : Z,
    let b := AlignmentSystem.targetBoundsOf note in
    NoteBounds.left b = JS.of_Z l
    /\ NoteBounds.top b = JS.of_Z t
    /\ NoteBounds.right b = JS.of_Z (l + HTMLDivElement.offsetWidth note)
    /\ NoteBounds.bottom b = JS.of_Z (t + HTMLDivElement.offsetHeight note)
    /\ JS.or (JS.parseInt (CSSStyle.left (HTMLDivElement.style note)))
             (JS.of_Z 0) = JS.of_Z l
    /\ JS.or (JS.parseInt (CSSStyle.top (HTMLDivElement.style note)))
             (JS.of_Z 0) = JS.of_Z t.
Proof.
  assert (H : forall s, exists z, JS.or (JS.parseInt s) (JS.of_Z 0) = JS.of_Z z).
  { intros s. destruct (parseInt_cases s) as [-> | [z ->]].
    - now exists 0%Z.
    - exists z. apply or_of_Z. }
  destruct (H (CSSStyle.left (HTMLDivElement.style note))) as [l Hl].
  destruct (H (CSSStyle.top (HTMLDivElement.style note))) as [t Ht].
  exists l, t.
  cbn [AlignmentSystem.targetBoundsOf NoteBounds.left NoteBounds.top
       NoteBounds.right NoteBounds.bottom].
  rewrite Hl, Ht, !add_of_Z. repeat split.
Qed.

Lemma lookup_Forall2 (R : App.Note -> App.Note -> Prop) (id : positive)
    (l l' : list App.Note) (n : App.Note) :
  (forall a b, R a b -> App.nodeOf b = App.nodeOf a) ->
  Forall2 R l l' ->
  App.lookup id l = Some n ->
  exists n', App.lookup id l' = Some n' /\ R n n'.
Proof.
  intros Hnode F. unfold App.lookup.
  induction F as [|a b l l' Hab _ IH]; cbn [find]; [discriminate|].
  rewrite (Hnode a b Hab).
  destruct (Pos.eqb (App.nodeOf a) id).
  - intros [= <-]. now exists b.
  - exact IH.
Qed.

Lemma currentDraggedNote_lookup (s : App.State) (dn : App.Note) :
  App.currentDraggedNote s = Some dn ->
  App.lookup (App.nodeOf dn) (App.notes s) = Some dn.
Proof.
  unfold App.currentDraggedNote.
  destruct (if App.isDraggingNote s then App.draggedNote s
            else hd_error (App.selectedNotes s)) as [id|]; [|discriminate].
  intros H. pose proof H as H'. unfold App.lookup in H'.
  apply find_some in H'. destruct H' as [_ Hid].
  apply Pos.eqb_eq in Hid. now rewrite Hid.
Qed.

(** In a snapping frame with an edge match, the box the engine would
    compute for the dragged note after the frame has its matched
    coordinate equal to that of the matched box. *)
Lemma snap_frame_edge (e : App.MouseEvent) (s : App.State)
    (engine : AlignmentSystem.t) (dn : App.Note)
    (axis : AlignmentGuide.kind) (k : Spec.Check) (t : NoteBounds.t) :
  App.isDraggingGroup s || App.isDraggingNote s = true ->
  App.altKey e = false ->
  App.snapEnabled s = true ->
  App.alignmentSystem s = Some engine ->
  AlignmentSystem.enabled engine = true ->
  App.currentDraggedNote s = Some dn ->
  NoDup (App.selectedNotes s) ->
  member (App.selectedNotes s) dn = true ->
  let s' := App.onMouseMoveDrag e s in
  let dx := JS.of_Z (App.clientX e - App.startX s) in
  let dy := JS.of_Z (App.clientY e - App.startY s) in
  matchOf axis engine (App.el dn) (App.canvasNotes s)
    (JS.add (parsedLeft dn) dx) (JS.add (parsedTop dn) dy) = Some (k, t) ->
  k <> Spec.CenterToCenter ->
  exists dn',
    App.lookup (App.nodeOf dn) (App.notes s') = Some dn'
    /\ Spec.draggedCoord axis k (AlignmentSystem.targetBoundsOf (App.el dn'))
       = Spec.neighborCoord axis k t.
Proof.
  intros Hdrag Halt Hon He Hen Hdn Hnd Hsel s' dx dy Hm Hk.
  destruct (snap_frame_notes e s engine dn Hdrag Halt Hon He Hdn Hnd)
    as (HF & _).
  cbv zeta in HF. fold s' dx dy in HF.
  set (x := JS.add (parsedLeft dn) dx) in *.
  set (y := JS.add (parsedTop dn) dy) in *.
  set (r := fst (AlignmentSystem.calculateSnap engine (App.el dn)
                   (App.canvasNotes s) x y)) in *.
  destruct (lookup_Forall2 _ (App.nodeOf dn) _ _ dn
              (fun a b (H : if member (App.selectedNotes s) a
                            then _ else b = a) =>
                 match member (App.selectedNotes s) a as m
                       return (if m then _ else b = a) -> _
                 with
                 | true => fun H => proj1 (proj1 H)
                 | false => fun H => f_equal App.nodeOf H
                 end H)
              HF (currentDraggedNote_lookup s dn Hdn))
    as (dn' & Hlook & Hrel).
  exists dn'. split; [exact Hlook|].
  rewrite Hsel in Hrel. destruct Hrel as ((_ & _ & Hw & Hh & _) & HL & HT).
  (* the deltas, by the first match *)
  destruct (delta_by_first_match engine (App.el dn) (App.canvasNotes s) x y Hen)
    as (HX & HY).
  fold r in HX, HY. unfold matchOf in Hm.
  (* everything is a whole number *)
  pose proof Hm as Hin. apply firstMatch_In in Hin. cbn [fst snd] in Hin.
  destruct Hin as [Hin Hchk].
  apply firstCheck_isMatch, isMatch_Num in Hchk. destruct Hchk as [Hd _].
  rewrite draggedCoord_isNaN in Hd.
  unfold candidatesOf in Hin. apply in_map_iff in Hin.
  destruct Hin as (c & <- & _).
  destruct (targetBounds_int c) as (cl & ct & Hcl & Hct & Hcr & Hcb & _).
  cbv zeta in *.
  destruct (targetBounds_int (App.el dn')) as (l' & t' & Hl' & Ht' & Hr' & Hb' & Hol & Hot).
  cbv zeta in *.
  destruct (parseInt_cases (App.styleLeft dn)) as [Hpx | [xz Hpx]];
    destruct (parseInt_cases (App.styleTop dn)) as [Hpy | [yz Hpy]];
    fold (parsedLeft dn) in Hpx; fold (parsedTop dn) in Hpy;
    unfold x, y, dx, dy in *; rewrite Hpx, Hpy in *;
    rewrite ?add_of_Z in *.
  all: destruct axis; cbn [JS.add JS.isNaN] in Hd; try discriminate Hd.
  all: try rewrite Hm in HX; try rewrite Hm in HY.
  all: unfold Spec.delta in *.
  all: destruct k; try contradiction;
    cbn [fst snd Spec.draggedCoord Spec.neighborCoord Spec.startOf Spec.endOf
         AlignmentSystem.draggedBoundsOf NoteBounds.left NoteBounds.right
         NoteBounds.top NoteBounds.bottom] in *.
  all: rewrite ?Hcl, ?Hct, ?Hcr, ?Hcb, ?add_of_Z, ?sub_of_Z in *.
  all: try (rewrite HX in HL; rewrite ?add_of_Z in HL;
            rewrite (written_int _ _ _ eq_refl) in HL;
            unfold parsedLeft, App.styleLeft in HL; rewrite HL, or_of_Z in Hol).
  all: try (rewrite HY in HT; rewrite ?add_of_Z in HT;
            rewrite (written_int _ _ _ eq_refl) in HT;
            unfold parsedTop, App.styleTop in HT; rewrite HT, or_of_Z in Hot).
  all: rewrite ?Hl', ?Ht', ?Hr', ?Hb'; f_equal;
    try injection Hol as Hol; try injection Hot as Hot; lia.
Qed.

Lemma Forall2_In_left (A B : Type) (R : A -> B -> Prop) (l : list A)
    (l' : list B) (a : A) :
  Forall2 R l l' -> In a l -> exists b, In b l' /\ R a b.
Proof.
  intros F. induction F as [|x y l l' Hxy _ IH]; intros Hin; [easy|].
  destruct Hin as [<- | Hin].
  - exists y. split; [now left | exact Hxy].
  - destruct (IH Hin) as (b & Hb & Hab). exists b. split; [now right | exact Hab].
Qed.

(** X12.  When the engine finds an edge match (any check but centre to
    centre) for the dragged note against a note that is not part of the
    selection, the snapping frame leaves the dragged note with that edge
    exactly on the neighbor's matched edge: the neighbor is still among
    the notes after the frame, unchanged, and the box the engine would
    compute for the dragged note after the frame has its matched
    coordinate equal to the neighbor's.  (A neighbor that is part of the
    selection moves with the group, see [group_neighbor_moves_away].) *)
Theorem dragged_edge_lands_on_guide (e : App.MouseEvent) (s : App.State)
    (engine : AlignmentSystem.t) (dn nb : App.Note)
    (axis : AlignmentGuide.kind) (k : Spec.Check) :
  App.isDraggingGroup s || App.isDraggingNote s = true ->
  App.altKey e = false ->
  App.snapEnabled s = true ->
  App.alignmentSystem s = Some engine ->
  AlignmentSystem.enabled engine = true ->
  App.currentDraggedNote s = Some dn ->
  NoDup (App.selectedNotes s) ->
  member (App.selectedNotes s) dn = true ->
  In nb (App.notes s) ->
  member (App.selectedNotes s) nb = false ->
  let s' := App.onMouseMoveDrag e s in
  let dx := JS.of_Z (App.clientX e - App.startX s) in
  let dy := JS.of_Z (App.clientY e - App.startY s) in
  matchOf axis engine (App.el dn) (App.canvasNotes s)
    (JS.add (parsedLeft dn) dx) (JS.add (parsedTop dn) dy)
  = Some (k, AlignmentSystem.targetBoundsOf (App.el nb)) ->
  k <> Spec.CenterToCenter ->
  exists dn',
    App.lookup (App.nodeOf dn) (App.notes s') = Some dn'
    /\ In nb (App.notes s')
    /\ Spec.draggedCoord axis k (AlignmentSystem.targetBoundsOf (App.el dn'))
       = Spec.neighborCoord axis k
           (AlignmentSystem.targetBoundsOf (App.el nb)).
Proof.
  intros Hdrag Halt Hon He Hen Hdn Hnd Hsel Hin Hout s' dx dy Hm Hk.
  destruct (snap_frame_edge e s engine dn axis k _
              Hdrag Halt Hon He Hen Hdn Hnd Hsel Hm Hk)
    as (dn' & Hlook & Hedge).
  exists dn'. split; [exact Hlook|]. split; [|exact Hedge].
  destruct (snap_frame_notes e s engine dn Hdrag Halt Hon He Hdn Hnd)
    as (HF & _).
  cbv zeta in HF.
  destruct (Forall2_In_left _ _ _ _ _ nb HF Hin) as (nb' & Hin' & Hrel).
  rewrite Hout in Hrel. now subst nb'.
Qed.

Lemma dragged_edge_lands_on_guide_witness :
  exists dn',
    App.lookup 2 (App.notes (App.onMouseMoveDrag (Desk.event 303 300 false)
                               Desk.dragging)) = Some dn'
    /\ In Desk.noteA
          (App.notes (App.onMouseMoveDrag (Desk.event 303 300 false)
                        Desk.dragging))
    /\ NoteBounds.left (AlignmentSystem.targetBoundsOf (App.el dn'))
       = NoteBounds.left (AlignmentSystem.targetBoundsOf Scenario.neighbor).
Proof.
  apply (dragged_edge_lands_on_guide (Desk.event 303 300 false) Desk.dragging
           Scenario.engine Desk.noteD Desk.noteA AlignmentGuide.vertical
           Spec.StartToStart);
    try reflexivity.
  - constructor; [intros [] | constructor].
  - now left.
  - discriminate.
Defined.

(** In a group drag a matched neighbor that is itself selected is
    moved by the same frame: the dragged note lands where the neighbor
    was, not where it is. *)
Example group_neighbor_moves_away :
  let noteD :=
    App.mkNote
      (HTMLDivElement.mk 2 "note-d" (CSSStyle.mk "102px" "200px") 80 40)
      EmptyString true "false" in
  let s :=
    App.mkState [Desk.noteA; noteD] [2%positive; 1%positive] 300 300 true None
      App.move true (Some 2%positive) [] (Some Scenario.engine) 102 true
      false false true true true in
  let s' := App.onMouseMoveDrag (Desk.event 300 300 false) s in
  matchOf AlignmentGuide.vertical Scenario.engine (App.el noteD)
    (App.canvasNotes s) (JS.of_Z 102) (JS.of_Z 200)
  = Some (Spec.StartToStart,
          AlignmentSystem.targetBoundsOf (App.el Desk.noteA))
  /\ map App.styleLeft (App.notes s') = ["98px"%string; "100px"%string].
Proof. split; reflexivity. Qed.

(* ================================================================== *)
(** ** A snapped note under a slow mouse *)
(* ================================================================== *)

Lemma calculateSnap_config
    (this : AlignmentSystem.t) (draggedNote : HTMLDivElement.t)
    (allNotes : list HTMLDivElement.t) (currentX currentY : JS.number) :
  let this' := snd (AlignmentSystem.calculateSnap this draggedNote allNotes
                      currentX currentY) in
  AlignmentSystem.snapThreshold this' = AlignmentSystem.snapThreshold this
  /\ AlignmentSystem.enabled this' = AlignmentSystem.enabled this.
Proof.
  intros this'. unfold this'. rewrite calculateSnap_state.
  destruct (AlignmentSystem.enabled this) eqn:He;
    [destruct (SnapResult.snapped _)|]; cbn; auto.
Qed.

Lemma le_abs_of_Z (a b : Z) :
  (Z.abs a <= b)%Z -> JS.le (JS.abs (JS.of_Z a)) (JS.of_Z b) = true.
Proof.
  intros H. unfold JS.le, JS.abs, JS.of_Z. apply Qle_bool_iff.
  unfold Qabs, inject_Z, Qle. cbn. lia.
Qed.

(** The notes other than the dragged one are the same elements before
    and after a frame that moved only the notes of the selection. *)
Lemma others_kept (id : positive) (d d' : HTMLDivElement.t)
    (P Q : App.Note -> App.Note -> Prop) (l l' : list App.Note) :
  HTMLDivElement.node d = id ->
  HTMLDivElement.node d' = id ->
  Forall2 (fun n n' => if member [id] n
                       then sameElement n n' /\ P n n' /\ Q n n'
                       else n' = n) l l' ->
  filter (fun n => negb (HTMLDivElement.same n d'))
         (map App.el (filter App.attached l'))
  = filter (fun n => negb (HTMLDivElement.same n d))
           (map App.el (filter App.attached l)).
Proof.
  intros Hd Hd' F.
  induction F as [|n n' l l' Hn _ IH]; [reflexivity|].
  unfold member in Hn. cbn [existsb] in Hn. rewrite orb_false_r in Hn.
  cbn [filter].
  destruct (Pos.eqb (App.nodeOf n) id) eqn:Hid.
  - destruct Hn as ((Hnode & _ & _ & _ & Hatt & _) & _).
    rewrite Hatt. destruct (App.attached n); [|exact IH].
    cbn [map filter].
    assert (S1 : HTMLDivElement.same (App.el n') d' = true).
    { unfold HTMLDivElement.same. unfold App.nodeOf in *.
      now rewrite Hd', Hnode. }
    assert (S2 : HTMLDivElement.same (App.el n) d = true).
    { unfold HTMLDivElement.same. unfold App.nodeOf in *. now rewrite Hd. }
    rewrite S1, S2. cbn [negb]. exact IH.
  - subst n'. destruct (App.attached n); [|exact IH].
    cbn [map filter].
    assert (S1 : HTMLDivElement.same (App.el n) d' = false).
    { unfold HTMLDivElement.same. unfold App.nodeOf in *. now rewrite Hd'. }
    assert (S2 : HTMLDivElement.same (App.el n) d = false).
    { unfold HTMLDivElement.same. unfold App.nodeOf in *. now rewrite Hd. }
    rewrite S1, S2. cbn [negb]. now rewrite IH.
Qed.

Lemma lookup_nodeOf (id : positive) (l : list App.Note) (n : App.Note) :
  App.lookup id l = Some n -> App.nodeOf n = id.
Proof.
  unfold App.lookup. intros H. apply find_some in H.
  now apply Pos.eqb_eq.
Qed.

Lemma member_single (id : positive) (n : App.Note) :
  App.nodeOf n = id -> member [id] n = true.
Proof.
  intros H. unfold member. cbn [existsb]. rewrite H, Pos.eqb_refl. reflexivity.
Qed.

(** One slow frame leaves a held note where it is. *)
Lemma heldAt_step (id : positive) (L : Z) (c : HTMLDivElement.t)
    (e : App.MouseEvent) (s : App.State) :
  heldAt id L c s ->
  (Z.abs (App.clientX e - App.startX s) <= 4)%Z ->
  App.altKey e = false ->
  heldAt id L c (App.onMouseMoveDrag e s)
  /\ App.startX (App.onMouseMoveDrag e s) = App.clientX e.
Proof.
  intros (Hdn & Hdr & Hsel & Hon & (engine & He & Hen & Hthr)
          & (dn & rest & Hlook & Hc & HL) & HcL) Hslow Halt.
  assert (Hdrag : App.isDraggingGroup s || App.isDraggingNote s = true)
    by (rewrite Hdn; apply orb_true_r).
  assert (Hcur : App.currentDraggedNote s = Some dn).
  { unfold App.currentDraggedNote. now rewrite Hdn, Hdr. }
  assert (Hnd : NoDup (App.selectedNotes s)).
  { rewrite Hsel. constructor; [intros []|constructor]. }
  pose proof (lookup_nodeOf _ _ _ Hlook) as Hid.
  destruct (snap_frame e s engine dn Hdrag Halt Hon He Hcur)
    as (_ & _ & _ & _ & Hs' & Hse' & _ & Hi' & Hd' & _).
  destruct (snap_frame_notes e s engine dn Hdrag Halt Hon He Hcur Hnd)
    as (HF & Ha & Hx & _).
  cbv zeta in *.
  set (s' := App.onMouseMoveDrag e s) in *.
  set (dz := (App.clientX e - App.startX s)%Z) in *.
  set (x := JS.add (parsedLeft dn) (JS.of_Z dz)) in *.
  set (y := JS.add (parsedTop dn)
                   (JS.of_Z (App.clientY e - App.startY s))) in *.
  rewrite Hsel in HF.
  (* the delta on the x axis *)
  destruct (delta_by_first_match engine (App.el dn) (App.canvasNotes s) x y Hen)
    as (HX & _).
  cbv zeta in HX. unfold candidatesOf in HX. rewrite Hc in HX.
  cbn [map Spec.firstMatch] in HX.
  assert (Hfirst : Spec.firstCheck (AlignmentSystem.snapThreshold engine)
                     AlignmentGuide.vertical
                     (AlignmentSystem.draggedBoundsOf (App.el dn) x y)
                     (AlignmentSystem.targetBoundsOf c)
                   = Some Spec.StartToStart).
  { unfold Spec.firstCheck, Spec.checkOrder. cbn [find].
    replace (Spec.isMatch _ _ _ _ Spec.StartToStart) with true; [reflexivity|].
    symmetry. unfold Spec.isMatch, Spec.difference.
    cbn [Spec.draggedCoord Spec.neighborCoord Spec.startOf
         AlignmentSystem.draggedBoundsOf NoteBounds.left].
    rewrite HcL, Hthr. unfold x. rewrite HL, add_of_Z, sub_of_Z.
    apply le_abs_of_Z. lia. }
  rewrite Hfirst in HX. unfold Spec.delta in HX.
  cbn [fst snd Spec.draggedCoord Spec.neighborCoord Spec.startOf
       AlignmentSystem.draggedBoundsOf NoteBounds.left] in HX.
  rewrite HcL in HX. unfold x in HX at 2. rewrite HL, add_of_Z, sub_of_Z in HX.
  (* the dragged note after the frame *)
  destruct (lookup_Forall2 _ id _ _ dn
              (fun a b (H : if member [id] a then _ else b = a) =>
                 match member [id] a as m
                       return (if m then _ else b = a) -> _
                 with
                 | true => fun H => proj1 (proj1 H)
                 | false => fun H => f_equal App.nodeOf H
                 end H)
              HF Hlook)
    as (dn' & Hlook' & Hrel).
  rewrite (member_single id dn Hid) in Hrel.
  destruct Hrel as (Hsame & HL' & _).
  rewrite HX in HL'. unfold x in HL'. rewrite HL, !add_of_Z in HL'.
  rewrite (written_int _ _ _ eq_refl) in HL'.
  split; [|exact Hx].
  unfold heldAt. rewrite Hs', Hse', Hi', Hd', Ha.
  destruct (calculateSnap_config engine (App.el dn) (App.canvasNotes s) x y)
    as (Ct & Ce).
  cbv zeta in Ct, Ce.
  repeat split; try assumption.
  - eexists. split; [reflexivity|]. split; [now rewrite Ce | now rewrite Ct].
  - exists dn', rest. split; [exact Hlook'|]. split.
    + unfold App.canvasNotes.
      rewrite (others_kept id (App.el dn) (App.el dn') _ _ _ _ Hid
                 (lookup_nodeOf _ _ _ Hlook') HF).
      exact Hc.
    + rewrite HL'. f_equal. lia.
Qed.

Lemma heldAt_drag (id : positive) (L : Z) (c : HTMLDivElement.t)
    (es : list App.MouseEvent) :
  forall s,
    heldAt id L c s ->
    slowPath 4 (App.startX s) es ->
    heldAt id L c (drag es s).
Proof.
  induction es as [|e es IH]; intros s Hs Hp; [exact Hs|].
  destruct Hp as (Hslow & Halt & Hp).
  destruct (heldAt_step id L c e s Hs Hslow Halt) as (Hs' & Hx).
  unfold drag. cbn [fold_left]. apply IH; [exact Hs'|].
  now rewrite Hx.
Qed.

(** X13.  A note dragged on its own whose left edge is on the left edge
    of the first other note of the canvas stays there as long as the
    mouse advances by at most 4 pixels per event, however far it travels
    in all: every frame measures the displacement since the previous
    frame only, finds the same match again and takes the displacement
    back. *)
Theorem slow_drag_stays_snapped
    (id : positive) (L : Z) (c : HTMLDivElement.t)
    (rest : list HTMLDivElement.t) (dn : App.Note)
    (engine : AlignmentSystem.t) (es : list App.MouseEvent) (s : App.State) :
  App.isDraggingNote s = true ->
  App.draggedNote s = Some id ->
  App.selectedNotes s = [id] ->
  App.snapEnabled s = true ->
  App.alignmentSystem s = Some engine ->
  AlignmentSystem.enabled engine = true ->
  AlignmentSystem.snapThreshold engine = JS.of_Z 4 ->
  App.lookup id (App.notes s) = Some dn ->
  filter (fun n => negb (HTMLDivElement.same n (App.el dn)))
         (App.canvasNotes s) = c :: rest ->
  parsedLeft dn = JS.of_Z L ->
  NoteBounds.left (AlignmentSystem.targetBoundsOf c) = JS.of_Z L ->
  slowPath 4 (App.startX s) es ->
  exists dn',
    App.lookup id (App.notes (drag es s)) = Some dn'
    /\ parsedLeft dn' = JS.of_Z L.
Proof.
  intros H1 H2 H3 H4 H5 H6 H7 H8 H9 H10 H11 Hp.
  assert (Hs : heldAt id L c s).
  { unfold heldAt. repeat split; try assumption.
    - now exists engine.
    - now exists dn, rest. }
  destruct (heldAt_drag id L c es s Hs Hp)
    as (_ & _ & _ & _ & _ & (dn' & _ & Hl & _ & HL) & _).
  now exists dn'.
Qed.

Lemma slow_drag_stays_snapped_witness :
  exists dn',
    App.lookup 2
      (App.notes (drag [Desk.event 304 300 false; Desk.event 308 301 false;
                        Desk.event 312 310 false; Desk.event 316 310 false]
                       Desk.dragging))
    = Some dn'
    /\ parsedLeft dn' = JS.of_Z 100.
Proof.
  apply (slow_drag_stays_snapped 2 100 Scenario.neighbor [Scenario.below]
           Desk.noteD Scenario.engine
           [Desk.event 304 300 false; Desk.event 308 301 false;
            Desk.event 312 310 false; Desk.event 316 310 false]
           Desk.dragging);
    try reflexivity.
  cbn. repeat split; lia.
Defined.

(* ================================================================== *)
(** ** The z-index of the notes of a snapping frame *)
(* ================================================================== *)

Lemma lookup_unique (id : positive) (l : list App.Note) (note n : App.Note) :
  NoDup (map App.nodeOf l) ->
  App.lookup id l = Some note ->
  In n l -> App.nodeOf n = id -> n = note.
Proof.
  unfold App.lookup. induction l as [|a l IH]; intros Hnd Hl Hin Hid; [easy|].
  cbn [map] in Hnd. inversion Hnd as [|? ? Hnotin Hnd']; subst.
  cbn [find] in Hl. destruct Hin as [-> | Hin].
  - rewrite Pos.eqb_refl in Hl. now injection Hl.
  - destruct (Pos.eqb (App.nodeOf a) (App.nodeOf n)) eqn:Ha.
    + apply Pos.eqb_eq in Ha. exfalso. apply Hnotin. rewrite Ha.
      now apply in_map.
    + now apply IH.
Qed.

Lemma lookup_none (id : positive) (l : list App.Note) (n : App.Note) :
  App.lookup id l = None -> In n l -> Pos.eqb (App.nodeOf n) id = false.
Proof.
  unfold App.lookup. intros H Hin. exact (find_none _ _ H n Hin).
Qed.

Lemma toString_of_Z_nonempty (k : Z) :
  NumberText.toString (JS.of_Z k) <> EmptyString.
Proof.
  unfold NumberText.toString, JS.of_Z, inject_Z. cbn [Qnum Qden].
  rewrite Z.div_1_r, Z.mod_1_r. cbn [Z.eqb].
  assert (H : NumberText.decimal (Z.abs k) <> EmptyString).
  { rewrite <- (Z2N.id (Z.abs k)) by lia. rewrite decimal_uint.
    pose proof (to_uint_nonnil (Z.to_N (Z.abs k))) as Hn.
    destruct (N.to_uint (Z.to_N (Z.abs k))); cbn; congruence. }
  destruct (NumberText.decimal (Z.abs k)) eqn:Hd; [congruence|].
  destruct (k <? 0)%Z; cbn; discriminate.
Qed.

(** What the z-index loop does to the notes and the counter. *)
Lemma ensureZIndex_layers (set : list positive) :
  forall (c : Z) (l : list App.Note),
    NoDup (map App.nodeOf l) ->
    let r := fold_left App.ensureZIndex set (c, l) in
    (c <= fst r)%Z
    /\ Forall2
         (fun n n' =>
            (App.zIndex n <> EmptyString -> n' = n)
            /\ (member set n = false -> n' = n)
            /\ (member set n = true -> App.zIndex n = EmptyString ->
                exists k, (c < k <= fst r)%Z
                          /\ n' = App.set_zIndex
                                    (NumberText.toString (JS.of_Z k)) n))
         l (snd r).
Proof.
  induction set as [|id set IH]; intros c l Hnd r.
  - unfold r. cbn [fold_left fst snd]. split; [lia|].
    rewrite <- (map_id l) at 2. apply Forall2_map_right.
    intros n _. unfold member. cbn [existsb]. repeat split; discriminate.
  - unfold r. clear r. cbn [fold_left].
    assert (Hstep :
      App.ensureZIndex (c, l) id
      = match App.lookup id l with
        | Some note =>
            match App.zIndex note with
            | EmptyString =>
                ((c + 1)%Z,
                 App.update id
                   (App.set_zIndex (NumberText.toString (JS.of_Z (c + 1)))) l)
            | String _ _ => (c, l)
            end
        | None => (c, l)
        end) by reflexivity.
    rewrite Hstep. clear Hstep.
    destruct (App.lookup id l) as [note|] eqn:Hl;
      [destruct (App.zIndex note) eqn:Hz|].
    + (* a fresh z-index *)
      set (g := fun n => if Pos.eqb (App.nodeOf n) id
                         then App.set_zIndex
                                (NumberText.toString (JS.of_Z (c + 1))) n
                         else n).
      assert (Hnd1 : NoDup (map App.nodeOf (map g l))).
      { rewrite map_map.
        erewrite map_ext; [exact Hnd|]. intros n. unfold g.
        now destruct (Pos.eqb (App.nodeOf n) id). }
      change (App.update id _ l) with (map g l).
      destruct (IH (c + 1)%Z (map g l) Hnd1) as (Hc & F).
      cbv zeta in *. split; [lia|].
      apply Forall2_map_left in F.
      eapply Forall2_weaken_In; [|exact F].
      cbv beta. intros n n' Hin (K1 & K2 & K3).
      unfold member in *. cbn [existsb]. unfold g in *.
      destruct (Pos.eqb (App.nodeOf n) id) eqn:Hid.
      * apply Pos.eqb_eq in Hid.
        assert (n = note) as -> by now apply (lookup_unique id l).
        assert (Hn' : n' = App.set_zIndex
                             (NumberText.toString (JS.of_Z (c + 1))) note).
        { apply K1. cbn [App.zIndex App.set_zIndex].
          apply toString_of_Z_nonempty. }
        split; [congruence|]. split; [discriminate|].
        intros _ _. exists (c + 1)%Z. split; [lia | exact Hn'].
      * cbn [orb]. split; [exact K1|]. split; [exact K2|].
        intros Hm He. destruct (K3 Hm He) as (k & Hk & Hn').
        exists k. split; [lia | exact Hn'].
    + (* it has one already *)
      destruct (IH c l Hnd) as (Hc & F). cbv zeta in *. split; [exact Hc|].
      eapply Forall2_weaken_In; [|exact F].
      cbv beta. intros n n' Hin (K1 & K2 & K3).
      unfold member in *. cbn [existsb].
      destruct (Pos.eqb (App.nodeOf n) id) eqn:Hid.
      * apply Pos.eqb_eq in Hid.
        assert (n = note) as -> by now apply (lookup_unique id l).
        split; [exact K1|]. split; [discriminate|]. congruence.
      * cbn [orb]. auto.
    + (* not a note *)
      destruct (IH c l Hnd) as (Hc & F). cbv zeta in *. split; [exact Hc|].
      eapply Forall2_weaken_In; [|exact F].
      cbv beta. intros n n' Hin (K1 & K2 & K3).
      unfold member in *. cbn [existsb].
      rewrite (lookup_none id l n Hl Hin). cbn [orb]. auto.
Qed.

(** X14.  After a snapping frame every selected note has a z-index: the
    one it had, or, if it had none, the text of a fresh value of
    [noteZIndexCounter], above the old counter and at most the new one.
    The counter never decreases and the other notes are untouched. *)
Theorem snapping_frame_layers (e : App.MouseEvent) (s : App.State)
    (engine : AlignmentSystem.t) (dn : App.Note) :
  App.isDraggingGroup s || App.isDraggingNote s = true ->
  App.altKey e = false ->
  App.snapEnabled s = true ->
  App.alignmentSystem s = Some engine ->
  App.currentDraggedNote s = Some dn ->
  NoDup (App.selectedNotes s) ->
  NoDup (map App.nodeOf (App.notes s)) ->
  let s' := App.onMouseMoveDrag e s in
  (App.noteZIndexCounter s <= App.noteZIndexCounter s')%Z
  /\ Forall2
       (fun n n' =>
          if member (App.selectedNotes s) n
          then App.zIndex n' <> EmptyString
               /\ (App.zIndex n <> EmptyString -> App.zIndex n' = App.zIndex n)
               /\ (App.zIndex n = EmptyString ->
                   exists k,
                     (App.noteZIndexCounter s < k
                      <= App.noteZIndexCounter s')%Z
                     /\ App.zIndex n' = NumberText.toString (JS.of_Z k))
          else n' = n)
       (App.notes s) (App.notes s').
Proof.
  intros Hdrag Halt Hon He Hdn Hsel Hnd s'.
  destruct (snap_frame e s engine dn Hdrag Halt Hon He Hdn)
    as (Hn & _ & _ & _ & _ & _ & _ & _ & _ & _ & Hz).
  cbv zeta in *. fold s' in Hn, Hz. rewrite Hn, Hz.
  set (dx := JS.sub (JS.of_Z (App.clientX e)) (JS.of_Z (App.startX s))) in *.
  set (dy := JS.sub (JS.of_Z (App.clientY e)) (JS.of_Z (App.startY s))) in *.
  set (r := fst (AlignmentSystem.calculateSnap engine (App.el dn)
                   (App.canvasNotes s) (JS.add (parsedLeft dn) dx)
                   (JS.add (parsedTop dn) dy))) in *.
  assert (Hnode : forall n, App.nodeOf (App.moveSnapped dx dy r n)
                            = App.nodeOf n)
    by (intros n; now destruct n as [[? ? [? ?] ? ?] ? ? ?]).
  rewrite forEachNote_map by assumption.
  set (g := fun n => if member (App.selectedNotes s) n
                     then App.moveSnapped dx dy r n else n).
  assert (Hnd1 : NoDup (map App.nodeOf (map g (App.notes s)))).
  { rewrite map_map. erewrite map_ext; [exact Hnd|]. intros n. unfold g.
    destruct (member (App.selectedNotes s) n); [apply Hnode | reflexivity]. }
  destruct (ensureZIndex_layers (App.selectedNotes s)
              (App.noteZIndexCounter s) (map g (App.notes s)) Hnd1)
    as (Hc & F).
  cbv zeta in *. split; [exact Hc|].
  apply Forall2_map_left in F.
  eapply Forall2_weaken; [|exact F].
  cbv beta. intros n n' (K1 & K2 & K3).
  assert (Hm : member (App.selectedNotes s) (g n)
               = member (App.selectedNotes s) n).
  { apply member_nodeOf. unfold g.
    destruct (member (App.selectedNotes s) n); [apply Hnode | reflexivity]. }
  assert (Hzi : App.zIndex (g n) = App.zIndex n).
  { unfold g. destruct (member (App.selectedNotes s) n); reflexivity. }
  rewrite Hm, Hzi in *.
  destruct (member (App.selectedNotes s) n) eqn:Hmem.
  - destruct (App.zIndex n) eqn:Hzn.
    + destruct (K3 eq_refl eq_refl) as (k & Hk & ->).
      cbn [App.zIndex App.set_zIndex].
      split; [apply toString_of_Z_nonempty|]. split; [congruence|].
      intros _. now exists k.
    + rewrite K1 by discriminate. rewrite Hzi.
      split; [discriminate|]. split; [reflexivity | discriminate].
  - rewrite K2 by reflexivity. unfold g. now rewrite Hmem.
Qed.

Lemma snapping_frame_layers_witness :
  let s' := App.onMouseMoveDrag (Desk.event 303 300 false) Desk.dragging in
  (102 <= App.noteZIndexCounter s')%Z
  /\ Forall2
       (fun n n' =>
          if member [2%positive] n
          then App.zIndex n' <> EmptyString
               /\ (App.zIndex n <> EmptyString -> App.zIndex n' = App.zIndex n)
               /\ (App.zIndex n = EmptyString ->
                   exists k,
                     (102 < k <= App.noteZIndexCounter s')%Z
                     /\ App.zIndex n' = NumberText.toString (JS.of_Z k))
          else n' = n)
       (App.notes Desk.dragging) (App.notes s').
Proof.
  apply (snapping_frame_layers (Desk.event 303 300 false) Desk.dragging
           Scenario.engine Desk.noteD); try reflexivity.
  - constructor; [intros [] | constructor].
  - repeat constructor; cbn; intuition discriminate.
Defined.

(* ================================================================== *)
(** ** The snap toggle *)
(* ================================================================== *)

(** What a frame of the drag block does to the engine: nothing, a
    [clearGuides], or a [calculateSnap]. *)
Lemma drag_frame_engine (e : App.MouseEvent) (s : App.State) :
  let s' := App.onMouseMoveDrag e s in
  App.snapEnabled s' = App.snapEnabled s
  /\ (App.alignmentSystem s' = App.alignmentSystem s
      \/ App.alignmentSystem s'
         = option_map AlignmentSystem.clearGuides (App.alignmentSystem s)
      \/ exists engine d l x y,
           App.alignmentSystem s = Some engine
           /\ App.alignmentSystem s'
              = Some (snd (AlignmentSystem.calculateSnap engine d l x y))).
Proof.
  intros s'. unfold s', App.onMouseMoveDrag.
  destruct (App.isDraggingGroup s || App.isDraggingNote s); [|auto].
  cbv zeta.
  set (dx := JS.sub (JS.of_Z (App.clientX e)) (JS.of_Z (App.startX s))).
  set (dy := JS.sub (JS.of_Z (App.clientY e)) (JS.of_Z (App.startY s))).
  match goal with
  | |- context [App.set_start _ _ (match App.currentTool ?s1 with _ => _ end)] =>
      match s1 with
      | match App.dragHandle ?B with _ => _ end => set (branch := B)
      end
  end.
  destruct (drag_tail_frame e dx dy branch)
    as (_ & Ha & _ & _ & _ & Hse & _).
  cbv zeta in *. rewrite Ha, Hse. clear Ha Hse.
  subst branch. app_proj.
  destruct (App.alignmentSystem s) as [engine|] eqn:He.
  - destruct (App.snapEnabled s && negb (App.altKey e)) eqn:Hb.
    + destruct (App.currentDraggedNote
                  (App.set_snapDisabledClasses (App.altKey e) s)) as [dn|].
      * match goal with
        | |- context [AlignmentSystem.calculateSnap ?a ?b ?c ?d ?f] =>
            destruct (AlignmentSystem.calculateSnap a b c d f)
              as [r engine'] eqn:Hcall
        end.
        app_proj.
        match goal with
        | |- context [fold_left App.ensureZIndex ?a ?b] =>
            destruct (fold_left App.ensureZIndex a b) as [counter l]
        end.
        app_proj. split; [reflexivity|]. right. right.
        do 5 eexists. split; [reflexivity|]. rewrite Hcall. reflexivity.
      * app_proj.
        apply andb_true_iff in Hb. destruct Hb as [Hon Halt].
        rewrite Hon. apply negb_true_iff in Halt. rewrite Halt.
        cbn [negb orb]. app_proj. rewrite ?He, ?Hon. auto.
    + app_proj.
      destruct (App.altKey e || negb (App.snapEnabled s)); app_proj;
        rewrite ?He; cbn [option_map]; auto.
  - app_proj. rewrite ?He. auto.
Qed.

Lemma drag_frame_flags (e : App.MouseEvent) (s : App.State) :
  flagsAgree s -> flagsAgree (App.onMouseMoveDrag e s).
Proof.
  intros H. destruct (drag_frame_engine e s) as (Hse & Ha).
  cbv zeta in *. unfold flagsAgree in *. rewrite Hse.
  intros engine' He'.
  destruct Ha as [Ha | [Ha | (engine & d & l & x & y & He & Ha)]];
    rewrite Ha in He'.
  - now apply H.
  - destruct (App.alignmentSystem s) as [engine|]; [|discriminate].
    injection He' as <-. rewrite clearGuides_eq. cbn. now apply H.
  - injection He' as <-.
    destruct (calculateSnap_config engine d l x y) as (_ & Hen).
    cbv zeta in Hen. rewrite Hen. now apply H.
Qed.

Lemma setEnabled_eq (b : bool) (this : AlignmentSystem.t) :
  AlignmentSystem.setEnabled b this
  = if b then AlignmentSystem.set_enabled true this
    else AlignmentSystem.mk (AlignmentSystem.snapThreshold this) []
           (AlignmentSystem.canvas this)
           (Canvas.mkCtx (Canvas.state (AlignmentSystem.ctx this))
                         (Canvas.stack (AlignmentSystem.ctx this))
                         (Canvas.path (AlignmentSystem.ctx this)) [])
           false.
Proof.
  unfold AlignmentSystem.setEnabled. destruct b; cbn [negb]; [reflexivity|].
  now rewrite clearGuides_eq.
Qed.

Lemma toggle_flags (s : App.State) : flagsAgree (App.onSnapToggleClick s).
Proof.
  unfold flagsAgree, App.onSnapToggleClick, App.updateToolbarActiveStates,
    App.withEngine.
  cbv zeta. app_proj.
  destruct (App.alignmentSystem s) as [engine|] eqn:He; app_proj.
  - rewrite setEnabled_eq.
    destruct (App.snapEnabled s); cbn [negb]; app_proj;
      rewrite ?clearGuides_eq; intros engine' [= <-]; reflexivity.
  - rewrite He. destruct (App.snapEnabled s); cbn [negb]; app_proj;
      rewrite ?He; discriminate.
Qed.

(** X15.  A click on the snap toggle flips [snapEnabled], shows the new
    value as the button's active class, and leaves the notes and the
    resize handles alone.  An engine, if there is one, is enabled or
    disabled to match and keeps its threshold; turned on it keeps its
    guides and its overlay, turned off it has no guides and a blank
    overlay. *)
Theorem snap_toggle_click (s : App.State) :
  let s' := App.onSnapToggleClick s in
  App.snapEnabled s' = negb (App.snapEnabled s)
  /\ App.snapToggleActive s' = App.snapEnabled s'
  /\ App.moveToolActive s' = App.isMove (App.currentTool s)
  /\ App.notes s' = App.notes s
  /\ App.resizeHandles s' = App.resizeHandles s
  /\ match App.alignmentSystem s, App.alignmentSystem s' with
     | Some engine, Some engine' =>
         AlignmentSystem.enabled engine' = App.snapEnabled s'
         /\ AlignmentSystem.snapThreshold engine'
            = AlignmentSystem.snapThreshold engine
         /\ (if App.snapEnabled s'
             then AlignmentSystem.guides engine' = AlignmentSystem.guides engine
                  /\ AlignmentSystem.ctx engine' = AlignmentSystem.ctx engine
             else AlignmentSystem.guides engine' = []
                  /\ Canvas.bitmap (AlignmentSystem.ctx engine') = [])
     | None, None => True
     | _, _ => False
     end.
Proof.
  intros s'. unfold s', App.onSnapToggleClick, App.updateToolbarActiveStates,
    App.withEngine.
  cbv zeta. app_proj.
  destruct (App.alignmentSystem s) as [engine|] eqn:He; app_proj.
  - rewrite setEnabled_eq.
    destruct (App.snapEnabled s); cbn [negb]; app_proj;
      rewrite ?clearGuides_eq; cbn; repeat split; reflexivity.
  - rewrite He. destruct (App.snapEnabled s); cbn [negb]; app_proj;
      rewrite ?He; repeat split; try reflexivity.
Qed.

(** What a click on the move tool leaves alone. *)
Lemma toggleMoveTool_frame (s : App.State) :
  let s' := App.toggleMoveTool s in
  App.alignmentSystem s' = App.alignmentSystem s
  /\ App.snapEnabled s' = App.snapEnabled s
  /\ App.selectedNotes s' = App.selectedNotes s
  /\ App.noteZIndexCounter s' = App.noteZIndexCounter s.
Proof.
  unfold App.toggleMoveTool, App.setToolMode, App.updateToolbarActiveStates,
    App.updateCanvasClasses.
  destruct (App.currentTool s); cbn; repeat split.
Qed.

Lemma toggleMoveTool_flags (s : App.State) :
  flagsAgree s -> flagsAgree (App.toggleMoveTool s).
Proof.
  destruct (toggleMoveTool_frame s) as (Ha & Hs & _).
  unfold flagsAgree. cbv zeta in *. now rewrite Ha, Hs.
Qed.

Lemma run_flags (inputs : list Input) :
  forall s, flagsAgree s -> flagsAgree (run inputs s).
Proof.
  induction inputs as [|i inputs IH]; intros s H; [exact H|].
  unfold run. cbn [fold_left]. apply IH.
  destruct i;
    [apply toggle_flags | now apply toggleMoveTool_flags
    | now apply drag_frame_flags].
Qed.

(** X16.  The toggle and the engine never disagree: if [snapEnabled]
    and the engine's [enabled] are equal to begin with, or the user
    clicks the snap toggle at least once, they are equal after any
    sequence of clicks on the snap toggle, clicks on the move tool and
    mouse moves. *)
Theorem flags_agree_invariant (inputs : list Input) (s : App.State) :
  flagsAgree s \/ In Click inputs ->
  flagsAgree (run inputs s).
Proof.
  intros [H | H]; [now apply run_flags|].
  apply in_split in H. destruct H as (l1 & l2 & ->).
  unfold run. rewrite fold_left_app. cbn [fold_left handle].
  apply run_flags, toggle_flags.
Qed.

Lemma flags_agree_invariant_witness :
  flagsAgree (run [Move (Desk.event 303 300 false); Click;
                   Move (Desk.event 306 300 false); ToggleTool;
                   Move (Desk.event 309 300 true)]
                  Desk.dragging).
Proof.
  apply (flags_agree_invariant
           [Move (Desk.event 303 300 false); Click;
            Move (Desk.event 306 300 false); ToggleTool;
            Move (Desk.event 309 300 true)]
           Desk.dragging).
  right. right. left. reflexivity.
Defined.

(* ================================================================== *)
(** ** The resize handles around the selection *)
(* ================================================================== *)

Lemma of_Z_inj (a b : Z) : JS.of_Z a = JS.of_Z b -> a = b.
Proof. unfold JS.of_Z, inject_Z. now intros [= H]. Qed.

Lemma min_of_Z (a b : Z) :
  Math.min (JS.of_Z a) (JS.of_Z b) = JS.of_Z (Z.min a b).
Proof.
  unfold Math.min, JS.of_Z, Qle_bool, inject_Z. cbn [Qnum Qden].
  destruct (Z.leb_spec (a * 1) (b * 1)); f_equal; f_equal; lia.
Qed.

Lemma max_of_Z (a b : Z) :
  Math.max (JS.of_Z a) (JS.of_Z b) = JS.of_Z (Z.max a b).
Proof.
  unfold Math.max, JS.of_Z, Qle_bool, inject_Z. cbn [Qnum Qden].
  destruct (Z.leb_spec (a * 1) (b * 1)); f_equal; f_equal; lia.
Qed.

(** The four variables of the bounding-box loop do not depend on each
    other. *)
Lemma extent_fold (l : list App.Note) (set : list positive) :
  forall b : App.Extent,
    let b' := fold_left
                (fun b id => match App.lookup id l with
                             | Some note => App.extend b note
                             | None => b
                             end) set b in
    App.minX b'
    = fold_left (fun a id => match App.lookup id l with
                             | Some n => App.minInf a (parsedLeft n)
                             | None => a
                             end) set (App.minX b)
    /\ App.minY b'
       = fold_left (fun a id => match App.lookup id l with
                                | Some n => App.minInf a (parsedTop n)
                                | None => a
                                end) set (App.minY b)
    /\ App.maxX b'
       = fold_left (fun a id =>
                      match App.lookup id l with
                      | Some n =>
                          Math.max a
                            (JS.add (parsedLeft n)
                               (JS.of_Z (HTMLDivElement.offsetWidth (App.el n))))
                      | None => a
                      end) set (App.maxX b)
    /\ App.maxY b'
       = fold_left (fun a id =>
                      match App.lookup id l with
                      | Some n =>
                          Math.max a
                            (JS.add (parsedTop n)
                               (JS.of_Z (HTMLDivElement.offsetHeight (App.el n))))
                      | None => a
                      end) set (App.maxY b).
Proof.
  induction set as [|id set IH]; intros b; [repeat split|].
  cbn [fold_left]. destruct (App.lookup id l) as [n|]; [|apply IH].
  apply (IH (App.extend b n)).
Qed.

(** A minimum folded over the notes of a set. *)
Lemma fold_min (f : App.Note -> JS.number) (l : list App.Note)
    (set : list positive) :
  (forall id, In id set ->
     exists n x, App.lookup id l = Some n /\ f n = JS.of_Z x) ->
  forall a : option Z,
    exists a' : option Z,
      fold_left (fun a id => match App.lookup id l with
                             | Some n => App.minInf a (f n)
                             | None => a
                             end) set (option_map JS.of_Z a)
      = option_map JS.of_Z a'
      /\ (set <> [] -> a' <> None)
      /\ (a <> None -> a' <> None)
      /\ forall m, a' = Some m ->
           (forall x, a = Some x -> (m <= x)%Z)
           /\ (forall id n x, In id set -> App.lookup id l = Some n ->
                 f n = JS.of_Z x -> (m <= x)%Z)
           /\ (a = Some m
               \/ exists id n, In id set /\ App.lookup id l = Some n
                               /\ f n = JS.of_Z m).
Proof.
  induction set as [|id set IH]; intros H a.
  - exists a. cbn. split; [reflexivity|]. split; [congruence|].
    split; [auto|]. intros m ->. split; [intros x [= ->]; lia|].
    split; [intros ? ? ? []|now left].
  - destruct (H id (or_introl eq_refl)) as (n & x & Hn & Hx).
    cbn [fold_left]. rewrite Hn, Hx.
    set (a1 := match a with Some a0 => Z.min a0 x | None => x end).
    assert (Ha1 : App.minInf (option_map JS.of_Z a) (JS.of_Z x)
                   = option_map JS.of_Z (Some a1)).
    { unfold a1. destruct a as [a0|]; cbn [option_map App.minInf];
        [now rewrite min_of_Z | reflexivity]. }
    rewrite Ha1.
    destruct (IH (fun i Hi => H i (or_intror Hi)) (Some a1))
      as (a' & Hf & _ & Hsome & Hm).
    exists a'. split; [exact Hf|].
    assert (Ha' : a' <> None) by (apply Hsome; discriminate).
    split; [auto|]. split; [auto|].
    intros m Hm'. destruct (Hm m Hm') as (Hle & Hall & Hatt).
    specialize (Hle a1 eq_refl).
    split; [|split].
    + intros x0 ->. unfold a1 in Hle. lia.
    + intros i n' x' [<- | Hi] Hn' Hx'.
      * rewrite Hn in Hn'. injection Hn' as <-. rewrite Hx in Hx'.
        apply of_Z_inj in Hx'. subst x'. unfold a1 in Hle.
        destruct a; lia.
      * now apply (Hall i n' x' Hi).
    + destruct Hatt as [[= Hatt] | (i & n' & Hi & Hn' & Hx')].
      * unfold a1 in Hatt. destruct a as [a0|].
        -- destruct (Z.min_spec a0 x) as [[_ Hmin] | [_ Hmin]].
           ++ left. f_equal. lia.
           ++ right. exists id, n. split; [now left|]. split; [exact Hn|].
              rewrite Hx. f_equal. lia.
        -- right. exists id, n. split; [now left|]. split; [exact Hn|].
           rewrite Hx. now f_equal.
      * right. exists i, n'. split; [now right|]. now split.
Qed.

(** A maximum folded over the notes of a set. *)
Lemma fold_max (f : App.Note -> JS.number) (l : list App.Note)
    (set : list positive) :
  (forall id, In id set ->
     exists n x, App.lookup id l = Some n /\ f n = JS.of_Z x) ->
  forall a : Z,
    exists m : Z,
      fold_left (fun a id => match App.lookup id l with
                             | Some n => Math.max a (f n)
                             | None => a
                             end) set (JS.of_Z a)
      = JS.of_Z m
      /\ (a <= m)%Z
      /\ (forall id n x, In id set -> App.lookup id l = Some n ->
            f n = JS.of_Z x -> (x <= m)%Z)
      /\ (m = a
          \/ exists id n, In id set /\ App.lookup id l = Some n
                          /\ f n = JS.of_Z m).
Proof.
  induction set as [|id set IH]; intros H a.
  - exists a. cbn. split; [reflexivity|]. split; [lia|].
    split; [intros ? ? ? []|now left].
  - destruct (H id (or_introl eq_refl)) as (n & x & Hn & Hx).
    cbn [fold_left]. rewrite Hn, Hx, max_of_Z.
    destruct (IH (fun i Hi => H i (or_intror Hi)) (Z.max a x))
      as (m & Hf & Hle & Hall & Hatt).
    exists m. split; [exact Hf|]. split; [lia|]. split.
    + intros i n' x' [<- | Hi] Hn' Hx'.
      * rewrite Hn in Hn'. injection Hn' as <-. rewrite Hx in Hx'.
        apply of_Z_inj in Hx'. lia.
      * now apply (Hall i n' x' Hi).
    + destruct Hatt as [Hatt | (i & n' & Hi & Hn' & Hx')].
      * destruct (Z.max_spec a x) as [[_ Hmax] | [_ Hmax]].
        -- right. exists id, n. split; [now left|]. split; [exact Hn|].
           rewrite Hx. f_equal. lia.
        -- left. lia.
      * right. exists i, n'. split; [now right|]. now split.
Qed.

Lemma newHandle_int (cls : string) (x y : Z) :
  JS.parseInt (App.h_left (App.newHandle cls (JS.of_Z x) (JS.of_Z y)))
  = JS.of_Z x
  /\ JS.parseInt (App.h_top (App.newHandle cls (JS.of_Z x) (JS.of_Z y)))
     = JS.of_Z y.
Proof.
  unfold App.newHandle. cbn [App.h_left App.h_top].
  rewrite !parseInt_assignPx. split; now apply written_int.
Qed.

(** X17.  In move mode, for a non-empty selection of notes with
    parseable positions, [createResizeHandles] leaves exactly eight
    handles, whose corners sit 4 pixels up and left of the corners of a
    box [(x0, y0) - (x1, y1)] that contains every selected note.  The box
    is tight at its left and top sides, each the least coordinate of a
    selected note; its right and bottom sides are never negative, each
    the greatest right or bottom edge of a selected note or else 0: the
    box reaches to the origin when the selection lies left of or above
    it. *)
Theorem resize_handles_enclose (set : list positive) (s : App.State) :
  App.currentTool s = App.move ->
  set <> [] ->
  (forall id, In id set ->
     exists n x y, App.lookup id (App.notes s) = Some n
                   /\ parsedLeft n = JS.of_Z x /\ parsedTop n = JS.of_Z y) ->
  exists (x0 y0 x1 y1 : Z) (nw n_ ne e_ se s_ sw w_ : App.Handle),
    App.resizeHandles (App.createResizeHandles set s)
    = [nw; n_; ne; e_; se; s_; sw; w_]
    /\ handleAt nw (x0 - 4) (y0 - 4)
    /\ handleAt ne (x1 - 4) (y0 - 4)
    /\ handleAt se (x1 - 4) (y1 - 4)
    /\ handleAt sw (x0 - 4) (y1 - 4)
    /\ (forall id n x y,
          In id set -> App.lookup id (App.notes s) = Some n ->
          parsedLeft n = JS.of_Z x -> parsedTop n = JS.of_Z y ->
          (x0 <= x /\ y0 <= y
           /\ x + HTMLDivElement.offsetWidth (App.el n) <= x1
           /\ y + HTMLDivElement.offsetHeight (App.el n) <= y1)%Z)
    /\ (exists id n, In id set /\ App.lookup id (App.notes s) = Some n
                     /\ parsedLeft n = JS.of_Z x0)
    /\ (exists id n, In id set /\ App.lookup id (App.notes s) = Some n
                     /\ parsedTop n = JS.of_Z y0)
    /\ (0 <= x1 /\ 0 <= y1)%Z
    /\ (x1 = 0%Z
        \/ exists id n x, In id set /\ App.lookup id (App.notes s) = Some n
             /\ parsedLeft n = JS.of_Z x
             /\ (x + HTMLDivElement.offsetWidth (App.el n))%Z = x1)
    /\ (y1 = 0%Z
        \/ exists id n y, In id set /\ App.lookup id (App.notes s) = Some n
             /\ parsedTop n = JS.of_Z y
             /\ (y + HTMLDivElement.offsetHeight (App.el n))%Z = y1).
Proof.
  intros Htool Hne H.
  destruct (extent_fold (App.notes s) set
              (App.mkExtent None None (JS.of_Z 0) (JS.of_Z 0)))
    as (EminX & EminY & EmaxX & EmaxY).
  cbv zeta in *. fold (App.extentOf set (App.notes s)) in *.
  cbn [App.minX App.minY App.maxX App.maxY] in *.
  (* the four folds *)
  destruct (fold_min parsedLeft (App.notes s) set) with (a := @None Z)
    as (ox & Fx & Nx & _ & Mx).
  { intros id Hid. destruct (H id Hid) as (n & x & y & Hn & Hx & Hy).
    now exists n, x. }
  destruct (fold_min parsedTop (App.notes s) set) with (a := @None Z)
    as (oy & Fy & Ny & _ & My).
  { intros id Hid. destruct (H id Hid) as (n & x & y & Hn & Hx & Hy).
    now exists n, y. }
  destruct (fold_max
              (fun n => JS.add (parsedLeft n)
                          (JS.of_Z (HTMLDivElement.offsetWidth (App.el n))))
              (App.notes s) set) with (a := 0%Z)
    as (x1 & FX & LX & AX & TX).
  { intros id Hid. destruct (H id Hid) as (n & x & y & Hn & Hx & Hy).
    exists n, (x + HTMLDivElement.offsetWidth (App.el n))%Z.
    split; [exact Hn|]. now rewrite Hx, add_of_Z. }
  destruct (fold_max
              (fun n => JS.add (parsedTop n)
                          (JS.of_Z (HTMLDivElement.offsetHeight (App.el n))))
              (App.notes s) set) with (a := 0%Z)
    as (y1 & FY & LY & AY & TY).
  { intros id Hid. destruct (H id Hid) as (n & x & y & Hn & Hx & Hy).
    exists n, (y + HTMLDivElement.offsetHeight (App.el n))%Z.
    split; [exact Hn|]. now rewrite Hy, add_of_Z. }
  cbn [option_map] in Fx, Fy.
  rewrite Fx in EminX. rewrite Fy in EminY.
  rewrite FX in EmaxX. rewrite FY in EmaxY.
  destruct ox as [x0|]; [|now destruct (Nx Hne)].
  destruct oy as [y0|]; [|now destruct (Ny Hne)].
  destruct (Mx x0 eq_refl) as (_ & Ax & Tx).
  destruct (My y0 eq_refl) as (_ & Ay & Ty).
  cbn [option_map] in EminX, EminY.
  exists x0, y0, x1, y1.
  unfold App.createResizeHandles. destruct set as [|id0 set']; [congruence|].
  app_proj. rewrite Htool. cbn [App.isMove negb].
  cbv zeta. rewrite EminX, EminY, EmaxX, EmaxY. cbn [App.finite].
  rewrite !sub_of_Z. app_proj.
  do 8 eexists. split; [reflexivity|].
  split; [apply newHandle_int|]. split; [apply newHandle_int|].
  split; [apply newHandle_int|]. split; [apply newHandle_int|].
  split.
  { intros id n x y Hid Hn Hx Hy. repeat split.
    - now apply (Ax id n x).
    - now apply (Ay id n y).
    - apply (AX id n _ Hid Hn). now rewrite Hx, add_of_Z.
    - apply (AY id n _ Hid Hn). now rewrite Hy, add_of_Z. }
  split.
  { destruct Tx as [Tx | Tx]; [discriminate | exact Tx]. }
  split.
  { destruct Ty as [Ty | Ty]; [discriminate | exact Ty]. }
  split; [split; assumption|].
  split.
  - destruct TX as [TX | (id & n & Hid & Hn & Hv)]; [now left | right].
    destruct (H id Hid) as (n' & x & y & Hn' & Hx & Hy).
    rewrite Hn in Hn'. injection Hn' as <-.
    exists id, n, x. repeat split; try assumption.
    rewrite Hx, add_of_Z in Hv. now apply of_Z_inj in Hv.
  - destruct TY as [TY | (id & n & Hid & Hn & Hv)]; [now left | right].
    destruct (H id Hid) as (n' & x & y & Hn' & Hx & Hy).
    rewrite Hn in Hn'. injection Hn' as <-.
    exists id, n, y. repeat split; try assumption.
    rewrite Hy, add_of_Z in Hv. now apply of_Z_inj in Hv.
Qed.

Lemma resize_handles_enclose_witness :
  exists (x0 y0 x1 y1 : Z) (nw n_ ne e_ se s_ sw w_ : App.Handle),
    App.resizeHandles (App.createResizeHandles [2%positive] Desk.dragging)
    = [nw; n_; ne; e_; se; s_; sw; w_]
    /\ handleAt nw (x0 - 4) (y0 - 4)
    /\ handleAt ne (x1 - 4) (y0 - 4)
    /\ handleAt se (x1 - 4) (y1 - 4)
    /\ handleAt sw (x0 - 4) (y1 - 4)
    /\ (forall id n x y,
          In id [2%positive] ->
          App.lookup id (App.notes Desk.dragging) = Some n ->
          parsedLeft n = JS.of_Z x -> parsedTop n = JS.of_Z y ->
          (x0 <= x /\ y0 <= y
           /\ x + HTMLDivElement.offsetWidth (App.el n) <= x1
           /\ y + HTMLDivElement.offsetHeight (App.el n) <= y1)%Z)
    /\ (exists id n, In id [2%positive]
                     /\ App.lookup id (App.notes Desk.dragging) = Some n
                     /\ parsedLeft n = JS.of_Z x0)
    /\ (exists id n, In id [2%positive]
                     /\ App.lookup id (App.notes Desk.dragging) = Some n
                     /\ parsedTop n = JS.of_Z y0)
    /\ (0 <= x1 /\ 0 <= y1)%Z
    /\ (x1 = 0%Z
        \/ exists id n x, In id [2%positive]
             /\ App.lookup id (App.notes Desk.dragging) = Some n
             /\ parsedLeft n = JS.of_Z x
             /\ (x + HTMLDivElement.offsetWidth (App.el n))%Z = x1)
    /\ (y1 = 0%Z
        \/ exists id n y, In id [2%positive]
             /\ App.lookup id (App.notes Desk.dragging) = Some n
             /\ parsedTop n = JS.of_Z y
             /\ (y + HTMLDivElement.offsetHeight (App.el n))%Z = y1).
Proof.
  apply (resize_handles_enclose [2%positive] Desk.dragging).
  - reflexivity.
  - discriminate.
  - intros id [<- | []]. exists Desk.noteD, 100%Z, 200%Z.
    repeat split.
Defined.

(* ================================================================== *)
(** ** The tool mode and what the page shows *)
(* ================================================================== *)

Lemma Forall2_refl_eq (A : Type) (R : A -> A -> Prop) (l : list A) :
  (forall a, R a a) -> Forall2 R l l.
Proof. intros H. induction l; constructor; auto. Qed.

(** A [forEach] over a set of notes keeps whatever its body keeps. *)
Lemma forEachNote_rel (R : App.Note -> App.Note -> Prop)
    (f : App.Note -> App.Note) (set : list positive) :
  (forall n, R n n) ->
  (forall a b c, R a b -> R b c -> R a c) ->
  (forall n, R n (f n)) ->
  forall l, Forall2 R l (App.forEachNote f set l).
Proof.
  intros Hrefl Htrans Hf. unfold App.forEachNote.
  induction set as [|id set IH]; intros l; cbn [fold_left].
  - now apply Forall2_refl_eq.
  - eapply Forall2_compose; [exact Htrans| |apply IH].
    unfold App.update. apply Forall2_map_right. intros n _.
    destruct (Pos.eqb (App.nodeOf n) id); auto.
Qed.

Lemma drag_tail_page (e : App.MouseEvent) (dx dy : JS.number) (s : App.State) :
  let s1 := match App.dragHandle s with
            | Some handle => App.set_dragHandle (Some (App.moveHandle dx dy handle)) s
            | None => s
            end in
  let s2 := match App.currentTool s1, App.selectedNotes s1 with
            | App.move, _ :: _ => App.createResizeHandles (App.selectedNotes s1) s1
            | _, _ => s1
            end in
  let s' := App.set_start (App.clientX e) (App.clientY e) s2 in
  App.canvasMoveMode s' = App.canvasMoveMode s
  /\ App.moveToolActive s' = App.moveToolActive s
  /\ App.snapToggleActive s' = App.snapToggleActive s
  /\ (App.currentTool s = App.default ->
      App.resizeHandles s' = App.resizeHandles s).
Proof.
  intros s1 s2 s'.
  assert (H1 : exists dh, s1 = App.set_dragHandle dh s).
  { unfold s1. destruct (App.dragHandle s) eqn:Hd; eexists; [reflexivity|].
    destruct s; cbn in *. now rewrite Hd. }
  destruct H1 as [dh H1].
  assert (H2 : (exists hs, s2 = App.set_resizeHandles hs s1)
               /\ (App.currentTool s = App.default -> s2 = s1)).
  { unfold s2. rewrite H1. app_proj.
    destruct (App.currentTool s);
      [| destruct (App.selectedNotes s);
         [| split; [apply createResizeHandles_frame | discriminate] ] ];
      (split; [|reflexivity]);
      exists (App.resizeHandles s); now destruct s. }
  destruct H2 as [[hs H2] H3].
  unfold s'. repeat split; try (rewrite H2, H1; reflexivity).
  intros Ht. rewrite (H3 Ht), H1. reflexivity.
Qed.

Lemma drag_frame_page (e : App.MouseEvent) (s : App.State) :
  let s' := App.onMouseMoveDrag e s in
  App.currentTool s' = App.currentTool s
  /\ App.snapEnabled s' = App.snapEnabled s
  /\ App.canvasMoveMode s' = App.canvasMoveMode s
  /\ App.moveToolActive s' = App.moveToolActive s
  /\ App.snapToggleActive s' = App.snapToggleActive s
  /\ (App.currentTool s = App.default ->
      App.resizeHandles s' = App.resizeHandles s)
  /\ Forall2 kept (App.notes s) (App.notes s').
Proof.
  assert (Hrefl : forall n, kept n n) by (split; reflexivity).
  assert (Htrans : forall a b c, kept a b -> kept b c -> kept a c).
  { intros a b c [H1 H2] [H3 H4]. split; congruence. }
  intros s'. unfold s', App.onMouseMoveDrag.
  destruct (App.isDraggingGroup s || App.isDraggingNote s);
    [|repeat split; try reflexivity; now apply Forall2_refl_eq].
  cbv zeta.
  set (dx := JS.sub (JS.of_Z (App.clientX e)) (JS.of_Z (App.startX s))).
  set (dy := JS.sub (JS.of_Z (App.clientY e)) (JS.of_Z (App.startY s))).
  match goal with
  | |- context [App.set_start _ _ (match App.currentTool ?s1 with _ => _ end)] =>
      match s1 with
      | match App.dragHandle ?B with _ => _ end => set (branch := B)
      end
  end.
  destruct (drag_tail_frame e dx dy branch)
    as (Hn & _ & _ & _ & _ & Hse & _ & _ & _ & Ht & _).
  destruct (drag_tail_page e dx dy branch) as (Hc & Hm & Hg & Hh).
  cbv zeta in *. rewrite Hn, Hse, Ht, Hc, Hm, Hg.
  assert (Hb : App.currentTool branch = App.currentTool s
               /\ App.snapEnabled branch = App.snapEnabled s
               /\ App.canvasMoveMode branch = App.canvasMoveMode s
               /\ App.moveToolActive branch = App.moveToolActive s
               /\ App.snapToggleActive branch = App.snapToggleActive s
               /\ App.resizeHandles branch = App.resizeHandles s
               /\ Forall2 kept (App.notes s) (App.notes branch)).
  { clear Hn Hse Ht Hc Hm Hg Hh. subst branch. app_proj.
    assert (Hfree : Forall2 kept (App.notes s)
                      (App.forEachNote (App.moveFree dx dy)
                         (App.selectedNotes s) (App.notes s))).
    { apply forEachNote_rel; auto; intros n; split; reflexivity. }
    destruct (App.alignmentSystem s) as [engine|] eqn:He.
    - destruct (App.snapEnabled s && negb (App.altKey e)) eqn:Hb.
      + destruct (App.currentDraggedNote
                    (App.set_snapDisabledClasses (App.altKey e) s)) as [dn|].
        * match goal with
          | |- context [AlignmentSystem.calculateSnap ?a ?b ?c ?d ?f] =>
              destruct (AlignmentSystem.calculateSnap a b c d f)
                as [r engine'] eqn:Hcall
          end.
          app_proj.
          match goal with
          | |- context [fold_left App.ensureZIndex ?a (?c, ?l)] =>
              pose proof (ensureZIndex_rel a c l) as Hz;
              destruct (fold_left App.ensureZIndex a (c, l)) as [counter l']
          end.
          app_proj. cbn [snd] in Hz. repeat split; try reflexivity.
          eapply Forall2_compose; [exact Htrans| |].
          -- apply (forEachNote_rel kept (App.moveSnapped dx dy r)); auto;
               intros n; split; reflexivity.
          -- eapply Forall2_weaken; [|exact Hz]. cbv beta.
             intros a b (_ & Ha & Hc & _). now split.
        * app_proj.
          apply andb_true_iff in Hb. destruct Hb as [Hon Halt].
          rewrite Hon. apply negb_true_iff in Halt. rewrite Halt.
          cbn [negb orb]. app_proj. repeat split; try reflexivity; auto.
      + app_proj.
        destruct (App.altKey e || negb (App.snapEnabled s)); app_proj;
          repeat split; try reflexivity; auto.
    - app_proj. repeat split; try reflexivity; auto. }
  destruct Hb as (B1 & B2 & B3 & B4 & B5 & B6 & B7).
  rewrite B1, B2, B3, B4, B5. repeat split; try assumption.
  intros Hd. rewrite Hh by now rewrite B1. exact B6.
Qed.

Lemma toggle_consistent (s : App.State) : toolConsistent (App.toggleMoveTool s).
Proof.
  unfold toolConsistent, App.toggleMoveTool, App.setToolMode,
    App.updateToolbarActiveStates, App.updateCanvasClasses.
  destruct (App.currentTool s); cbn;
    (repeat split; try reflexivity; try discriminate);
    apply Forall_forall; intros n Hin Hatt;
    apply in_map_iff in Hin; destruct Hin as (m & <- & _);
    destruct (App.attached m) eqn:Hm; [reflexivity | congruence
                                      | reflexivity | congruence].
Qed.

Lemma click_consistent (s : App.State) :
  toolConsistent s -> toolConsistent (App.onSnapToggleClick s).
Proof.
  intros (H1 & H2 & H3 & H4 & H5).
  unfold toolConsistent, App.onSnapToggleClick, App.updateToolbarActiveStates,
    App.withEngine.
  cbv zeta. app_proj.
  destruct (App.alignmentSystem s) as [engine|] eqn:He; app_proj;
    rewrite ?He; destruct (App.snapEnabled s); cbn [negb]; app_proj;
    rewrite ?He; app_proj; repeat split; assumption.
Qed.

Lemma move_consistent (e : App.MouseEvent) (s : App.State) :
  toolConsistent s -> toolConsistent (App.onMouseMoveDrag e s).
Proof.
  intros (H1 & H2 & H3 & H4 & H5).
  destruct (drag_frame_page e s) as (Ft & Fs & Fc & Fm & Fg & Fh & Fn).
  cbv zeta in *. unfold toolConsistent. rewrite Ft, Fs, Fc, Fm, Fg.
  repeat split; try assumption.
  - intros Hd. rewrite (Fh Hd). now apply H4.
  - revert H5. generalize (editableIn (App.currentTool s)). intros v H5.
    induction Fn as [|n n' l l' [Ha Hc] _ IH]; [constructor|].
    inversion H5; subst. constructor; [|now apply IH].
    rewrite Ha, Hc. assumption.
Qed.

Lemma run_consistent (inputs : list Input) :
  forall s, toolConsistent s -> toolConsistent (run inputs s).
Proof.
  induction inputs as [|i inputs IH]; intros s H; [exact H|].
  unfold run. cbn [fold_left]. apply IH.
  destruct i;
    [now apply click_consistent | apply toggle_consistent
    | now apply move_consistent].
Qed.

(** X18.  What the page shows follows the tool: once the user has
    clicked the move tool, or from a state where it holds already, after
    any sequence of clicks on the move tool, clicks on the snap toggle
    and mouse moves the canvas has the class [move-mode] exactly in move
    mode, the two buttons are active exactly when the move tool is
    current and snapping is on, the notes of the canvas are editable
    exactly in default mode, and there are no resize handles in default
    mode. *)
Theorem tool_consistent_invariant (inputs : list Input) (s : App.State) :
  toolConsistent s \/ In ToggleTool inputs ->
  toolConsistent (run inputs s).
Proof.
  intros [H | H]; [now apply run_consistent|].
  apply in_split in H. destruct H as (l1 & l2 & ->).
  unfold run. rewrite fold_left_app. cbn [fold_left handle].
  apply run_consistent, toggle_consistent.
Qed.

Lemma tool_consistent_invariant_witness :
  toolConsistent (run [Move (Desk.event 303 300 false); ToggleTool;
                       Move (Desk.event 306 300 false); Click;
                       Move (Desk.event 309 300 true)]
                      Desk.dragging).
Proof.
  apply (tool_consistent_invariant
           [Move (Desk.event 303 300 false); ToggleTool;
            Move (Desk.event 306 300 false); Click;
            Move (Desk.event 309 300 true)]
           Desk.dragging).
  right. right. left. reflexivity.
Defined.

Lemma set_contentEditable_same (n : App.Note) (v w : string) :
  App.contentEditable n = v ->
  App.set_contentEditable v (App.set_contentEditable w n) = n.
Proof. intros <-. now destruct n. Qed.

(** X19.  Two clicks on the move tool undo each other, except for the
    resize handles: from a state where the page agrees with the tool,
    they lead back to the same state without resize handles.  Leaving
    move mode removes the handles and entering it creates none; they
    come back with the next drag frame. *)
Theorem move_tool_twice (s : App.State) :
  toolConsistent s ->
  App.toggleMoveTool (App.toggleMoveTool s) = App.set_resizeHandles [] s.
Proof.
  intros (H1 & H2 & H3 & H4 & H5).
  assert (Hnotes : forall w,
    map (fun note => if App.attached note
                     then App.set_contentEditable
                            (editableIn (App.currentTool s)) note
                     else note)
        (map (fun note => if App.attached note
                          then App.set_contentEditable w note
                          else note) (App.notes s))
    = App.notes s).
  { intros w. rewrite map_map. rewrite <- (map_id (App.notes s)) at 2.
    apply map_ext_in. intros n Hin.
    rewrite Forall_forall in H5. specialize (H5 n Hin).
    destruct (App.attached n) eqn:Ha.
    - cbn [App.set_contentEditable App.attached]. rewrite Ha.
      apply set_contentEditable_same. now apply H5.
    - now rewrite Ha. }
  unfold App.toggleMoveTool, App.setToolMode, App.updateToolbarActiveStates,
    App.updateCanvasClasses.
  unfold editableIn in Hnotes.
  destruct s as [notes sel sx sy dg dh tool dn dr hs eng zc se gc cc mt sa cm].
  cbn in *. destruct tool; cbn in *.
  - rewrite (Hnotes "false"%string), (H4 eq_refl). subst. reflexivity.
  - rewrite (Hnotes "true"%string). subst. reflexivity.
Qed.

Lemma move_tool_twice_witness :
  let s := App.createResizeHandles [2%positive] Desk.dragging in
  List.length (App.resizeHandles s) = 8%nat
  /\ App.toggleMoveTool (App.toggleMoveTool s) = App.set_resizeHandles [] s.
Proof.
  split; [reflexivity|].
  apply (move_tool_twice (App.createResizeHandles [2%positive] Desk.dragging)).
  unfold toolConsistent. cbn. repeat split; try discriminate.
  repeat constructor.
Defined.


(* ================================================================== *)
(** ** The layers of the notes *)
(* ================================================================== *)

Lemma le_of_Z (a b : Z) : JS.le (JS.of_Z a) (JS.of_Z b) = (a <=? b)%Z.
Proof.
  unfold JS.le, JS.of_Z, Qle_bool, inject_Z. cbn [Qnum Qden].
  now rewrite !Z.mul_1_r.
Qed.

Lemma eqb_of_Z (a b : Z) : JS.eqb (JS.of_Z a) (JS.of_Z b) = (a =? b)%Z.
Proof.
  unfold JS.eqb, JS.of_Z, Qeq_bool, inject_Z. cbn [Qnum Qden].
  rewrite !Z.mul_1_r.
  destruct (Z.eqb_spec a b) as [-> | Hne].
  - destruct (Z.eq_dec b b); [reflexivity | contradiction].
  - destruct (Z.eq_dec a b); [contradiction | reflexivity].
Qed.

Lemma lt_of_Z (a b : Z) : App.lt (JS.of_Z a) (JS.of_Z b) = (a <? b)%Z.
Proof.
  unfold App.lt. rewrite le_of_Z, eqb_of_Z.
  destruct (Z.leb_spec a b), (Z.eqb_spec a b), (Z.ltb_spec a b);
    cbn; try reflexivity; lia.
Qed.

Lemma parseInt_uint_end (d : uint) :
  d <> Nil ->
  let s := NilEmpty.string_of_uint d in
  JS.parseInt s
  = match JS.readDigits 10 s None with
    | None => JS.NaN
    | Some v => JS.of_Z (1 * v)
    end
  /\ JS.parseInt (String "-" s)
     = match JS.readDigits 10 s None with
       | None => JS.NaN
       | Some v => JS.of_Z (-1 * v)
       end.
Proof.
  intros Hd s. unfold s.
  destruct d as [|l|l|l|l|l|l|l|l|l|l]; [contradiction | ..];
    try (split; reflexivity).
  destruct l as [|l|l|l|l|l|l|l|l|l|l]; split; reflexivity.
Qed.

(** [parseInt(k.toString())] is [k], for every integer [k]. *)
Lemma parseInt_toString (k : Z) :
  JS.parseInt (NumberText.toString (JS.of_Z k)) = JS.of_Z k.
Proof.
  unfold NumberText.toString, JS.of_Z, inject_Z. cbn [Qnum Qden].
  rewrite Z.div_1_r, Z.mod_1_r. cbn [Z.eqb]. rewrite append_nil_r.
  rewrite <- (Z2N.id (Z.abs k)) by lia.
  set (n := Z.to_N (Z.abs k)).
  assert (Hread : JS.readDigits 10 (NumberText.decimal (Z.of_N n)) None
                  = Some (Z.of_N n)).
  { rewrite <- (append_nil_r (NumberText.decimal (Z.of_N n))).
    now rewrite readDigits_decimal. }
  rewrite decimal_uint in *.
  destruct (parseInt_uint_end (N.to_uint n) (to_uint_nonnil n)) as [Hpos Hneg].
  cbv zeta in Hpos, Hneg.
  destruct (k <? 0)%Z eqn:Hk; cbn [String.append].
  - rewrite Hneg, Hread. unfold JS.of_Z, inject_Z. f_equal. f_equal.
    apply Z.ltb_lt in Hk. unfold n. lia.
  - rewrite Hpos, Hread. unfold JS.of_Z, inject_Z. f_equal. f_equal.
    apply Z.ltb_ge in Hk. unfold n. lia.
Qed.

Lemma layer_int (n : App.Note) : exists z, App.layerOf n = JS.of_Z z.
Proof.
  unfold App.layerOf.
  destruct (parseInt_cases (App.zIndex n)) as [-> | [z ->]].
  - now exists 0%Z.
  - exists z. apply or_of_Z.
Qed.

Lemma layerOf_set_zIndex (k : Z) (n : App.Note) :
  App.layerOf (App.set_zIndex (NumberText.toString (JS.of_Z k)) n)
  = JS.of_Z k.
Proof.
  unfold App.layerOf. cbn [App.zIndex App.set_zIndex].
  rewrite parseInt_toString. apply or_of_Z.
Qed.

Lemma NoDup_map_eq (A B : Type) (f : A -> B) (l : list A) (a b : A) :
  NoDup (map f l) -> In a l -> In b l -> f a = f b -> a = b.
Proof.
  induction l as [|x l IH]; intros Hnd Ha Hb Hf; [easy|].
  cbn [map] in Hnd. inversion Hnd as [|? ? Hnotin Hnd']; subst.
  destruct Ha as [-> | Ha], Hb as [-> | Hb]; auto.
  - exfalso. apply Hnotin. rewrite Hf. now apply in_map.
  - exfalso. apply Hnotin. rewrite <- Hf. now apply in_map.
Qed.

Lemma NoDup_map_in (A B : Type) (f : A -> B) (l : list A) :
  NoDup l ->
  (forall a b, In a l -> In b l -> f a = f b -> a = b) ->
  NoDup (map f l).
Proof.
  induction 1 as [|x l Hx Hnd IH]; intros Hinj; cbn [map]; constructor.
  - intros Hin. apply in_map_iff in Hin. destruct Hin as (y & Hy & Hyl).
    assert (y = x) by (apply Hinj; [now right | now left | exact Hy]).
    now subst.
  - apply IH. intros a b Ha Hb. apply Hinj; now right.
Qed.

Lemma filter_map_kept (F : App.Note -> App.Note) (l : list App.Note) :
  (forall n, App.attached (F n) = App.attached n) ->
  filter App.attached (map F l) = map F (filter App.attached l).
Proof.
  intros H. induction l as [|n l IH]; [reflexivity|].
  cbn [map filter]. rewrite H. destruct (App.attached n); cbn [map];
    now rewrite IH.
Qed.

Lemma reorderNote_kept (dn : App.Note) (d t : JS.number) (up : bool)
    (n : App.Note) :
  let n' := App.reorderNote dn d t up n in
  App.el n' = App.el n
  /\ App.attached n' = App.attached n
  /\ App.contentEditable n' = App.contentEditable n.
Proof.
  unfold App.reorderNote.
  destruct (Pos.eqb (App.nodeOf n) (App.nodeOf dn)); [repeat split|].
  destruct (up && App.lt d (App.layerOf n) && JS.le (App.layerOf n) t);
    [repeat split|].
  destruct (negb up && JS.le t (App.layerOf n) && App.lt (App.layerOf n) d);
    repeat split.
Qed.

(** The layer the body of the loop leaves a note on. *)
Lemma reorderNote_layer (dn : App.Note) (d t z : Z) (n : App.Note) :
  App.layerOf n = JS.of_Z z ->
  App.layerOf (App.reorderNote dn (JS.of_Z d) (JS.of_Z t) (d <? t)%Z n)
  = JS.of_Z (if Pos.eqb (App.nodeOf n) (App.nodeOf dn) then t
             else if ((d <? t) && (d <? z) && (z <=? t))%Z then z - 1
             else if (negb (d <? t) && (t <=? z) && (z <? d))%Z then z + 1
             else z)%Z.
Proof.
  intros Hz. unfold App.reorderNote. rewrite Hz, !lt_of_Z, !le_of_Z.
  destruct (Pos.eqb (App.nodeOf n) (App.nodeOf dn));
    [apply layerOf_set_zIndex|].
  destruct ((d <? t) && (d <? z) && (z <=? t))%Z;
    [rewrite sub_of_Z; apply layerOf_set_zIndex|].
  destruct (negb (d <? t) && (t <=? z) && (z <? d))%Z;
    [rewrite add_of_Z; apply layerOf_set_zIndex | exact Hz].
Qed.

Ltac by_cases_Z :=
  repeat match goal with
         | |- context [(?a <? ?b)%Z] => destruct (Z.ltb_spec a b)
         | |- context [(?a <=? ?b)%Z] => destruct (Z.leb_spec a b)
         | H : context [(?a <? ?b)%Z] |- _ => destruct (Z.ltb_spec a b)
         | H : context [(?a <=? ?b)%Z] |- _ => destruct (Z.leb_spec a b)
         end;
  cbn [andb negb] in *; try lia.

(** The shift of the layers between the two notes keeps the order of
    the layers and keeps distinct layers distinct. *)
Lemma shift_mono (d t za zb : Z) :
  (za <= zb)%Z ->
  ((if ((d <? t) && (d <? za) && (za <=? t))%Z then za - 1
    else if (negb (d <? t) && (t <=? za) && (za <? d))%Z then za + 1
    else za)
   <= (if ((d <? t) && (d <? zb) && (zb <=? t))%Z then zb - 1
       else if (negb (d <? t) && (t <=? zb) && (zb <? d))%Z then zb + 1
       else zb))%Z.
Proof. intros H. by_cases_Z. Qed.

Lemma shift_inj (d t za zb : Z) (ea eb : bool) :
  d <> t ->
  (if ea then za = d else za <> d) ->
  (if eb then zb = d else zb <> d) ->
  (if ea then t
   else if ((d <? t) && (d <? za) && (za <=? t))%Z then za - 1
   else if (negb (d <? t) && (t <=? za) && (za <? d))%Z then za + 1
   else za)%Z
  = (if eb then t
     else if ((d <? t) && (d <? zb) && (zb <=? t))%Z then zb - 1
     else if (negb (d <? t) && (t <=? zb) && (zb <? d))%Z then zb + 1
     else zb)%Z ->
  za = zb.
Proof. intros Hne Ha Hb. destruct ea, eb; by_cases_Z. Qed.

(** X20.  [reorderNotesZIndex] changes z-indexes only, and nothing when
    the dragged note and the target are on the same layer.  Each note
    [n] becomes [F n], the same element at the same place, and a note
    off the canvas is not touched.  The dragged note ends on the layer
    the target had.  The notes of the canvas other than the dragged one
    keep their order.  A target on another layer ends below the dragged
    note when that moved up and above it when it moved down.  All this
    holds also when notes share a layer; if the notes of the canvas
    were on distinct layers they still are. *)
Theorem reorder_layers (dn tn : App.Note) (s : App.State) :
  App.attached dn = true ->
  let s' := App.reorderNotesZIndex dn tn s in
  (App.layerOf dn = App.layerOf tn -> s' = s)
  /\ exists F : App.Note -> App.Note,
       App.notes s' = map F (App.notes s)
       /\ (forall n, App.el (F n) = App.el n
                     /\ App.attached (F n) = App.attached n
                     /\ App.contentEditable (F n) = App.contentEditable n)
       /\ (forall n, App.attached n = false -> F n = n)
       /\ App.layerOf (F dn) = App.layerOf tn
       /\ (forall a b,
             App.attached a = true -> App.attached b = true ->
             App.nodeOf a <> App.nodeOf dn -> App.nodeOf b <> App.nodeOf dn ->
             JS.le (App.layerOf a) (App.layerOf b) = true ->
             JS.le (App.layerOf (F a)) (App.layerOf (F b)) = true)
       /\ (App.attached tn = true ->
           App.nodeOf tn <> App.nodeOf dn ->
           App.layerOf tn <> App.layerOf dn ->
           if App.lt (App.layerOf dn) (App.layerOf tn)
           then App.lt (App.layerOf (F tn)) (App.layerOf (F dn)) = true
           else App.lt (App.layerOf (F dn)) (App.layerOf (F tn)) = true)
       /\ (In dn (App.notes s) ->
           NoDup (map App.nodeOf (App.notes s)) ->
           NoDup (map App.layerOf (filter App.attached (App.notes s))) ->
           NoDup (map App.layerOf (filter App.attached (App.notes s')))).
Proof.
  intros Hatt s'.
  destruct (layer_int dn) as [d Hd]. destruct (layer_int tn) as [t Ht].
  unfold s', App.reorderNotesZIndex. cbv zeta. rewrite Hd, Ht.
  rewrite eqb_of_Z, lt_of_Z.
  split.
  { intros Heq. apply of_Z_inj in Heq. subst t. now rewrite Z.eqb_refl. }
  destruct (Z.eqb_spec d t) as [Heq | Hne].
  - (* the same layer: nothing to do *)
    exists (fun n => n). split; [now rewrite map_id|].
    split; [repeat split|]. split; [reflexivity|].
    split; [congruence|]. split; [auto|]. split; [|auto].
    intros _ _ Hlay. exfalso. apply Hlay. congruence.
  - set (F := fun note =>
                if App.attached note
                then App.reorderNote dn (JS.of_Z d) (JS.of_Z t) (d <? t)%Z note
                else note).
    assert (Hkept : forall n, App.el (F n) = App.el n
                              /\ App.attached (F n) = App.attached n
                              /\ App.contentEditable (F n)
                                 = App.contentEditable n).
    { intros n. unfold F.
      pose proof (reorderNote_kept dn (JS.of_Z d) (JS.of_Z t) (d <? t)%Z n)
        as K.
      cbv zeta in K.
      destruct (App.attached n) eqn:Ha; [exact K | repeat split; assumption]. }
    assert (Hlay : forall n z,
               App.attached n = true -> App.layerOf n = JS.of_Z z ->
               App.layerOf (F n)
               = JS.of_Z (if Pos.eqb (App.nodeOf n) (App.nodeOf dn) then t
                          else if ((d <? t) && (d <? z) && (z <=? t))%Z
                               then z - 1
                          else if (negb (d <? t) && (t <=? z) && (z <? d))%Z
                               then z + 1
                          else z)%Z).
    { intros n z Ha Hz. unfold F. rewrite Ha. now apply reorderNote_layer. }
    exists F. app_proj. split; [reflexivity|]. split; [exact Hkept|].
    split; [intros n Ha; unfold F; now rewrite Ha|].
    split.
    { rewrite (Hlay dn d Hatt Hd), Pos.eqb_refl. reflexivity. }
    split.
    { intros a b Haa Hab Ha Hb Hle.
      destruct (layer_int a) as [za Hza]. destruct (layer_int b) as [zb Hzb].
      rewrite Hza, Hzb, le_of_Z in Hle. apply Z.leb_le in Hle.
      apply Pos.eqb_neq in Ha, Hb.
      rewrite (Hlay a za Haa Hza), (Hlay b zb Hab Hzb), Ha, Hb, le_of_Z.
      apply Z.leb_le. now apply shift_mono. }
    split.
    { intros Htatt Hnode _. apply Pos.eqb_neq in Hnode.
      rewrite (Hlay tn t Htatt Ht), (Hlay dn d Hatt Hd), Hnode, Pos.eqb_refl.
      rewrite !lt_of_Z. by_cases_Z. }
    intros Hdn Hnodes Hlayers.
    assert (HL : NoDup (filter App.attached (App.notes s)))
      by (eapply NoDup_map_inv; exact Hlayers).
    assert (HdL : In dn (filter App.attached (App.notes s)))
      by (apply filter_In; now split).
    rewrite filter_map_kept by (intros n; apply Hkept).
    rewrite map_map. apply NoDup_map_in; [exact HL|].
    intros a b Ha Hb Heq.
    pose proof Ha as Ha'. pose proof Hb as Hb'.
    apply filter_In in Ha', Hb'. destruct Ha' as [Hina Haa], Hb' as [Hinb Hab].
    destruct (layer_int a) as [za Hza]. destruct (layer_int b) as [zb Hzb].
    rewrite (Hlay a za Haa Hza), (Hlay b zb Hab Hzb) in Heq.
    apply of_Z_inj in Heq.
    apply (NoDup_map_eq _ _ App.layerOf _ a b Hlayers Ha Hb).
    rewrite Hza, Hzb. f_equal.
    assert (Hnode : forall n z,
               In n (filter App.attached (App.notes s)) ->
               App.layerOf n = JS.of_Z z ->
               if Pos.eqb (App.nodeOf n) (App.nodeOf dn)
               then z = d else z <> d).
    { intros n z Hn Hz.
      destruct (Pos.eqb (App.nodeOf n) (App.nodeOf dn)) eqn:He.
      - apply Pos.eqb_eq in He.
        assert (n = dn).
        { apply (NoDup_map_eq _ _ App.nodeOf (App.notes s)); auto.
          apply filter_In in Hn. tauto. }
        subst n. rewrite Hd in Hz. now apply of_Z_inj in Hz.
      - intros ->. apply Pos.eqb_neq in He. apply He. f_equal.
        apply (NoDup_map_eq _ _ App.layerOf _ n dn Hlayers Hn HdL).
        now rewrite Hz, Hd. }
    exact (shift_inj d t za zb _ _ Hne (Hnode a za Ha Hza) (Hnode b zb Hb Hzb)
             Heq).
Qed.

Lemma reorder_layers_witness :
  let s' := App.reorderNotesZIndex Desk.noteA Desk.noteE Desk.dragging in
  exists F : App.Note -> App.Note,
    App.notes s' = map F (App.notes Desk.dragging)
    /\ (forall n, App.el (F n) = App.el n
                  /\ App.attached (F n) = App.attached n
                  /\ App.contentEditable (F n) = App.contentEditable n)
    /\ (forall n, App.attached n = false -> F n = n)
    /\ App.layerOf (F Desk.noteA) = App.layerOf Desk.noteE
    /\ (forall a b,
          App.attached a = true -> App.attached b = true ->
          App.nodeOf a <> App.nodeOf Desk.noteA ->
          App.nodeOf b <> App.nodeOf Desk.noteA ->
          JS.le (App.layerOf a) (App.layerOf b) = true ->
          JS.le (App.layerOf (F a)) (App.layerOf (F b)) = true)
    /\ App.lt (App.layerOf (F Desk.noteE)) (App.layerOf (F Desk.noteA)) = true
    /\ NoDup (map App.layerOf (filter App.attached (App.notes s'))).
Proof.
  destruct (reorder_layers Desk.noteA Desk.noteE Desk.dragging eq_refl)
    as (_ & F & H1 & H2 & H3 & H4 & H5 & H6 & H7).
  exists F. repeat (split; [assumption|]). split.
  - apply H6; [reflexivity | discriminate | discriminate].
  - apply H7.
    + left. reflexivity.
    + repeat constructor; cbn; intuition discriminate.
    + repeat constructor; cbn; intuition discriminate.
Defined.

(** A copy of a note is on the layer of its original
    ([cloneNode(true)] copies the inline z-index): dragging one onto the
    other in the layers panel changes nothing, and a note dragged past
    the two leaves them on one layer. *)
Example tied_layers_stay_tied :
  let copy :=
    App.mkNote
      (HTMLDivElement.mk 9 "note-e" (CSSStyle.mk "420px" "223px") 120 40)
      "102" true "false" in
  let s := App.set_notes [Desk.noteA; Desk.noteE; copy] Desk.dragging in
  App.reorderNotesZIndex copy Desk.noteE s = s
  /\ map App.zIndex (App.notes (App.reorderNotesZIndex Desk.noteA copy s))
     = ["102"%string; "101"%string; "101"%string].
Proof. split; reflexivity. Qed.


(* ================================================================== *)
(** ** The title generated from a text *)
(* ================================================================== *)

Lemma string_length_app (a b : string) :
  String.length (a ++ b) = (String.length a + String.length b)%nat.
Proof. induction a as [|c a IH]; cbn; [reflexivity | now rewrite IH]. Qed.

Lemma concat_snoc (sep : string) (l : list string) (w : string) :
  String.concat sep (l ++ [w])
  = match l with
    | [] => w
    | _ :: _ => (String.concat sep l ++ sep ++ w)%string
    end.
Proof.
  induction l as [|x l IH]; [reflexivity|].
  destruct l as [|y l].
  - reflexivity.
  - change (String.concat sep ((x :: y :: l) ++ [w]))
      with (x ++ sep ++ String.concat sep ((y :: l) ++ [w]))%string.
    rewrite IH.
    change (String.concat sep (x :: y :: l))
      with (x ++ sep ++ String.concat sep (y :: l))%string.
    now rewrite !append_assoc.
Qed.

Lemma firstn_length_app (A : Type) (l r : list A) :
  firstn (List.length l) (l ++ r) = l.
Proof.
  rewrite firstn_app, Nat.sub_diag, firstn_all. cbn. apply app_nil_r.
Qed.

Lemma firstn_S_app (A : Type) (l r : list A) (x : A) :
  firstn (S (List.length l)) (l ++ x :: r) = l ++ [x].
Proof.
  rewrite firstn_app, firstn_all2 by lia.
  replace (S (List.length l) - List.length l)%nat with 1%nat by lia.
  reflexivity.
Qed.

(** The loop of [generateTitleFromText], started after the words [done]
    have been joined. *)
Lemma addWords_spec (rest : list string) :
  forall done : list string,
    (List.length done <= 5)%nat ->
    (String.length (String.concat " " done) <= 30)%nat ->
    exists k : nat,
      (List.length done <= k <= 5)%nat
      /\ (k <= List.length (done ++ rest))%nat
      /\ App.addWords (List.length done) rest (String.concat " " done)
         = String.concat " " (firstn k (done ++ rest))
      /\ (String.length (String.concat " " (firstn k (done ++ rest))) <= 30)%nat
      /\ (k = Nat.min 5 (List.length (done ++ rest))
          \/ (30 < String.length
                     (String.concat " " (firstn (S k) (done ++ rest))))%nat).
Proof.
  induction rest as [|w rest IH]; intros done H5 H30.
  - exists (List.length done). rewrite app_nil_r, firstn_all.
    cbn [App.addWords].
    repeat split; try lia; try reflexivity; try (left; lia).
  - cbn [App.addWords].
    destruct (Nat.ltb_spec (List.length done) 5) as [Hlt | Hge].
    + assert (Hjoin : (String.concat " " done
                        ++ (if (0 <? List.length done)%nat then " " else "")
                        ++ w)%string
                      = String.concat " " (done ++ [w])).
      { rewrite concat_snoc. destruct done; reflexivity. }
      assert (Hlen : String.length (String.concat " " (done ++ [w]))
                     = (String.length (String.concat " " done)
                        + String.length w
                        + (if (0 <? List.length done)%nat then 1 else 0))%nat).
      { rewrite <- Hjoin, !string_length_app.
        destruct (0 <? List.length done)%nat; cbn; lia. }
      destruct (Nat.leb_spec
                  (String.length (String.concat " " done) + String.length w
                   + (if (0 <? List.length done)%nat then 1 else 0)) 30)
        as [Hfit | Hover].
      * rewrite Hjoin.
        destruct (IH (done ++ [w])) as (k & Hk & Hkl & Hres & Hk30 & Hmax).
        { rewrite length_app. cbn. lia. }
        { lia. }
        rewrite length_app in Hk, Hres. cbn [List.length] in Hk, Hres.
        rewrite Nat.add_1_r in Hres.
        rewrite <- app_assoc in *. cbn [app] in *.
        exists k. repeat split; try lia; assumption.
      * exists (List.length done).
        rewrite firstn_length_app, firstn_S_app.
        repeat split; try lia; try reflexivity;
          try (rewrite length_app; cbn; lia).
    + exists (List.length done).
      rewrite firstn_length_app.
      repeat split; try lia; try reflexivity;
        try (rewrite length_app; cbn; lia);
        try (left; rewrite length_app; cbn [List.length]; lia).
Qed.

Lemma wordsOf_nonempty (s : string) :
  Forall (fun w => (0 < String.length w)%nat) (App.wordsOf s).
Proof.
  unfold App.wordsOf. apply Forall_forall. intros w Hw.
  apply filter_In in Hw. destruct Hw as [_ Hw]. now apply Nat.ltb_lt.
Qed.

Lemma concat_nonempty (sep : string) (l : list string) (k : nat) :
  Forall (fun w => (0 < String.length w)%nat) l ->
  (1 <= k <= List.length l)%nat ->
  (1 <= String.length (String.concat sep (firstn k l)))%nat.
Proof.
  intros Hl Hk. destruct l as [|w l]; [cbn in Hk; lia|].
  destruct k as [|k]; [lia|]. cbn [firstn].
  inversion Hl; subst.
  destruct (firstn k l) as [|y r] eqn:Hf.
  - cbn. lia.
  - change (String.concat sep (w :: y :: r))
      with (w ++ sep ++ String.concat sep (y :: r))%string.
    rewrite string_length_app. lia.
Qed.

Lemma isEmpty_length (s : string) :
  JSString.isEmpty s = (String.length s =? 0)%nat.
Proof. now destruct s. Qed.

Lemma collapse_chars (s : string) :
  forall (b : bool) (c : ascii),
    inString c (JSString.collapseFrom b s) ->
    JS.isWhiteSpace c = true -> c = " "%char.
Proof.
  induction s as [|d r IH]; intros b c Hin Hws; [contradiction|].
  cbn [JSString.collapseFrom] in Hin.
  destruct (JS.isWhiteSpace d) eqn:Hd.
  - destruct b; [now apply (IH true)|].
    destruct Hin as [-> | Hin]; [reflexivity | now apply (IH true)].
  - destruct Hin as [-> | Hin]; [congruence | now apply (IH false)].
Qed.

Lemma trimStart_chars (s : string) (c : ascii) :
  inString c (JS.trimStart s) -> inString c s.
Proof.
  induction s as [|d r IH]; [auto|]. cbn [JS.trimStart].
  destruct (JS.isWhiteSpace d); [right; auto | auto].
Qed.

Lemma trimEnd_chars (s : string) (c : ascii) :
  inString c (JSString.trimEnd s) -> inString c s.
Proof.
  induction s as [|d r IH]; [auto|]. cbn [JSString.trimEnd].
  destruct (JS.isWhiteSpace d && JSString.isEmpty (JSString.trimEnd r));
    [contradiction|].
  intros [-> | H]; [now left | right; auto].
Qed.

Lemma split_chars (sep : ascii) (s : string) :
  forall (w : string) (c : ascii),
    In w (JSString.split sep s) -> inString c w ->
    inString c s /\ c <> sep.
Proof.
  induction s as [|d r IH]; intros w c Hw Hc.
  - destruct Hw as [<- | []]. contradiction.
  - cbn [JSString.split] in Hw.
    destruct (Ascii.eqb_spec d sep) as [-> | Hne].
    + destruct Hw as [<- | Hw]; [contradiction|].
      destruct (IH w c Hw Hc). split; [now right | assumption].
    + destruct (JSString.split sep r) as [|piece pieces] eqn:Hs.
      * destruct Hw as [<- | []]. destruct Hc as [-> | []].
        split; [now left | assumption].
      * destruct Hw as [<- | Hw].
        -- destruct Hc as [-> | Hc]; [split; [now left | assumption]|].
           destruct (IH piece c (or_introl eq_refl) Hc).
           split; [now right | assumption].
        -- destruct (IH w c (or_intror Hw) Hc).
           split; [now right | assumption].
Qed.

(** The words of a cleaned text are not empty and hold no white
    space. *)
Lemma words_clean (text : string) :
  Forall (fun w => (0 < String.length w)%nat
                   /\ forall c, inString c w -> JS.isWhiteSpace c = false)
         (App.wordsOf (App.cleanTextOf text)).
Proof.
  apply Forall_forall. intros w Hw. unfold App.wordsOf in Hw.
  apply filter_In in Hw. destruct Hw as [Hw Hlen].
  split; [now apply Nat.ltb_lt|].
  intros c Hc. destruct (split_chars _ _ w c Hw Hc) as [Hin Hsep].
  unfold App.cleanTextOf, JSString.trim, JSString.collapseWhiteSpace in Hin.
  apply trimEnd_chars, trimStart_chars in Hin.
  destruct (JS.isWhiteSpace c) eqn:Hws; [|reflexivity].
  exfalso. apply Hsep.
  exact (collapse_chars _ false c Hin Hws).
Qed.

(** X21.  The title generated from an ASCII text has between 1 and 30
    characters.  It is made of the first [k] words of the text, cleaned
    of tags and with white space normalised, joined by single spaces:
    [k] is the largest number up to 5 for which that fits in 30
    characters, and the title is ["Untitled"] when [k] is 0, that is
    when the text has no word or its first word alone is longer than 30
    characters.  The words are not empty and hold no white space. *)
Theorem generated_title (text : string) :
  JSString.isASCII text = true ->
  let words := App.wordsOf (App.cleanTextOf text) in
  let title := App.generateTitleFromText text in
  Forall (fun w => (0 < String.length w)%nat
                   /\ forall c, inString c w -> JS.isWhiteSpace c = false)
         words
  /\ (1 <= String.length title <= 30)%nat
  /\ exists k : nat,
       (k <= 5)%nat /\ (k <= List.length words)%nat
       /\ (String.length (String.concat " " (firstn k words)) <= 30)%nat
       /\ (k = Nat.min 5 (List.length words)
           \/ (30 < String.length
                      (String.concat " " (firstn (S k) words)))%nat)
       /\ title = match k with
                  | O => "Untitled"%string
                  | S _ => String.concat " " (firstn k words)
                  end.
Proof.
  intros _ words title. split; [apply words_clean|].
  assert (Hex : exists k : nat,
       (k <= 5)%nat /\ (k <= List.length words)%nat
       /\ (String.length (String.concat " " (firstn k words)) <= 30)%nat
       /\ (k = Nat.min 5 (List.length words)
           \/ (30 < String.length
                      (String.concat " " (firstn (S k) words)))%nat)
       /\ title = match k with
                  | O => "Untitled"%string
                  | S _ => String.concat " " (firstn k words)
                  end).
  { unfold title, App.generateTitleFromText.
    destruct (JSString.isEmpty text) eqn:Ht.
    { exists 0%nat. destruct text; [|discriminate].
      unfold words. cbn. repeat split; try lia; try now left. }
    cbv zeta. fold words.
    destruct (JSString.isEmpty (App.cleanTextOf text)) eqn:Hc.
    { exists 0%nat. unfold words.
      destruct (App.cleanTextOf text); [|discriminate].
      cbn. repeat split; try lia; try now left. }
    destruct (addWords_spec words []) as (k & Hk & Hkl & Hres & Hk30 & Hmax);
      [cbn; lia | cbn; lia |].
    cbn [List.length List.app String.concat] in *.
    exists k. rewrite Hres.
    split; [lia|]. split; [exact Hkl|]. split; [exact Hk30|].
    split; [exact Hmax|].
    destruct k as [|k]; [reflexivity|].
    pose proof (concat_nonempty " " words (S k) (wordsOf_nonempty _)) as Hne.
    rewrite isEmpty_length.
    destruct (Nat.eqb_spec
                (String.length (String.concat " " (firstn (S k) words))) 0);
      [lia | reflexivity]. }
  split; [|exact Hex].
  destruct Hex as (k & _ & Hkl & Hk30 & _ & ->).
  destruct k as [|k]; [cbn; lia|].
  split; [|exact Hk30].
  apply concat_nonempty; [apply wordsOf_nonempty | lia].
Qed.

Lemma generated_title_witness :
  let text := "<p>Buy   milk, <b>two</b> litres and bread</p>"%string in
  let words := App.wordsOf (App.cleanTextOf text) in
  let title := App.generateTitleFromText text in
  Forall (fun w => (0 < String.length w)%nat
                   /\ forall c, inString c w -> JS.isWhiteSpace c = false)
         words
  /\ (1 <= String.length title <= 30)%nat
  /\ exists k : nat,
       (k <= 5)%nat /\ (k <= List.length words)%nat
       /\ (String.length (String.concat " " (firstn k words)) <= 30)%nat
       /\ (k = Nat.min 5 (List.length words)
           \/ (30 < String.length
                      (String.concat " " (firstn (S k) words)))%nat)
       /\ title = match k with
                  | O => "Untitled"%string
                  | S _ => String.concat " " (firstn k words)
                  end.
Proof.
  exact (generated_title "<p>Buy   milk, <b>two</b> litres and bread</p>"
           eq_refl).
Defined.

Example title_of_markup :
  App.generateTitleFromText "<p>Buy   milk, <b>two</b> litres and bread</p>"
  = "Buy milk, two litres and"%string.
Proof. reflexivity. Qed.

Example title_of_long_word :
  App.generateTitleFromText "pneumonoultramicroscopicsilicovolcanoconiosis"
  = "Untitled"%string.
Proof. reflexivity. Qed.
